(** * Long-text-to-images backend: text segmentation, prompt synthesis and
      fallback image matching of [backend/main.py], embedded in Rocq.

    Python [str] values are sequences of Unicode code points; [len] counts
    code points, slicing and [in] work on code points.  They are modelled
    as [list N].  Literals of the source are written [py "..."], the
    UTF-8 decoding of the bytes of a Rocq string literal. *)

From Stdlib Require Import NArith ZArith List Bool Ascii String Lia Floats Uint63.
Import ListNotations.

Set Implicit Arguments.

(* ===================================================================== *)
(** * Python strings *)
(* ===================================================================== *)

Module Py.

Local Open Scope N_scope.

(** A Unicode code point. *)
Definition char := N.

(** A Python [str]. *)
Definition str := list char.

(** UTF-8 decoding of a byte sequence (well-formed input, as a source
    literal is). *)
Fixpoint decode_utf8 (bs : list N) : str :=
  match bs with
  | [] => []
  | b :: r =>
    if b <? 0x80 then b :: decode_utf8 r
    else if b <? 0xE0 then
      match r with
      | b1 :: r1 =>
        N.lor (N.shiftl (N.land b 0x1F) 6) (N.land b1 0x3F) :: decode_utf8 r1
      | _ => []
      end
    else if b <? 0xF0 then
      match r with
      | b1 :: b2 :: r2 =>
        N.lor (N.shiftl (N.land b 0x0F) 12)
          (N.lor (N.shiftl (N.land b1 0x3F) 6) (N.land b2 0x3F))
        :: decode_utf8 r2
      | _ => []
      end
    else
      match r with
      | b1 :: b2 :: b3 :: r3 =>
        N.lor (N.shiftl (N.land b 0x07) 18)
          (N.lor (N.shiftl (N.land b1 0x3F) 12)
             (N.lor (N.shiftl (N.land b2 0x3F) 6) (N.land b3 0x3F)))
        :: decode_utf8 r3
      | _ => []
      end
  end.

(** A literal of the source. *)
Definition py (s : string) : str :=
  decode_utf8 (map N_of_ascii (list_ascii_of_string s)).

(** [s.encode('utf-8')] *)
Definition encode_char (c : char) : list N :=
  if c <? 0x80 then [c]
  else if c <? 0x800 then
    [N.lor 0xC0 (N.shiftr c 6); N.lor 0x80 (N.land c 0x3F)]
  else if c <? 0x10000 then
    [N.lor 0xE0 (N.shiftr c 12);
     N.lor 0x80 (N.land (N.shiftr c 6) 0x3F);
     N.lor 0x80 (N.land c 0x3F)]
  else
    [N.lor 0xF0 (N.shiftr c 18);
     N.lor 0x80 (N.land (N.shiftr c 12) 0x3F);
     N.lor 0x80 (N.land (N.shiftr c 6) 0x3F);
     N.lor 0x80 (N.land c 0x3F)].

Definition encode_utf8 (s : str) : list N := flat_map encode_char s.

(** [len(s)] *)
Definition len {A : Type} (s : list A) : Z := Z.of_nat (List.length s).

(** [a == b] on strings *)
Fixpoint str_eqb (a b : str) : bool :=
  match a, b with
  | [], [] => true
  | x :: a', y :: b' => (x =? y) && str_eqb a' b'
  | _, _ => false
  end.

(** [s.startswith(p)] *)
Fixpoint prefix (p s : str) : bool :=
  match p, s with
  | [], _ => true
  | x :: p', y :: s' => (x =? y) && prefix p' s'
  | _ :: _, [] => false
  end.

(** [sub in s] *)
Fixpoint contains (sub s : str) : bool :=
  prefix sub s || match s with [] => false | _ :: t => contains sub t end.

(** [c in s] for a single character: membership in a character class. *)
Definition mem_char (c : char) (cls : str) : bool := existsb (N.eqb c) cls.

(** [x in xs] for a list of strings *)
Definition mem_str (x : str) (xs : list str) : bool := existsb (str_eqb x) xs.

(** [any(w in s for w in ws)] *)
Definition any_in (ws : list str) (s : str) : bool :=
  existsb (fun w => contains w s) ws.

(** [s.find(sub)]: index of the first occurrence, [-1] when there is none. *)
Fixpoint find_from (sub s : str) (i : Z) : Z :=
  if prefix sub s then i
  else match s with [] => (-1)%Z | _ :: t => find_from sub t (i + 1)%Z end.

Definition find (s sub : str) : Z := find_from sub s 0%Z.

(** [s.count(sub)]: non-overlapping occurrences.  [skip] characters of a
    match just counted are still to be passed over. *)
Fixpoint count_go (sub s : str) (skip : nat) : Z :=
  match s with
  | [] => 0%Z
  | _ :: t =>
    match skip with
    | S k => count_go sub t k
    | O =>
      if prefix sub s then (1 + count_go sub t (List.length sub - 1))%Z
      else count_go sub t 0
    end
  end.

Definition count (s sub : str) : Z :=
  match sub with
  | [] => (len s + 1)%Z
  | _ => count_go sub s 0
  end.

(** [str.isspace] of one character: the code points CPython treats as
    whitespace in [strip] and [split]. *)
Definition isspace (c : char) : bool :=
  ((0x09 <=? c) && (c <=? 0x0D)) || ((0x1C <=? c) && (c <=? 0x20))
  || (c =? 0x85) || (c =? 0xA0) || (c =? 0x1680)
  || ((0x2000 <=? c) && (c <=? 0x200A))
  || (c =? 0x2028) || (c =? 0x2029) || (c =? 0x202F) || (c =? 0x205F)
  || (c =? 0x3000).

(** [s.lstrip()] *)
Fixpoint lstrip (s : str) : str :=
  match s with
  | [] => []
  | c :: t => if isspace c then lstrip t else s
  end.

(** [s.rstrip()] *)
Definition rstrip (s : str) : str := rev (lstrip (rev s)).

(** [s.strip()] *)
Definition strip (s : str) : str := rstrip (lstrip s).

(** Truth value of a string: [bool(s)] *)
Definition truthy (s : str) : bool :=
  match s with [] => false | _ => true end.

(** [s[a:b]] for [0 <= a], [0 <= b], on a string or a list *)
Definition slice {A : Type} (s : list A) (a b : nat) : list A :=
  firstn (b - a) (skipn a s).

(** [sep.join(parts)] *)
Fixpoint join (sep : str) (parts : list str) : str :=
  match parts with
  | [] => []
  | [p] => p
  | p :: rest => p ++ sep ++ join sep rest
  end.

(** [s.split(sep)] for a non-empty separator: [cur] is the piece being
    read (reversed), [skip] the characters of a separator just matched
    that are still to be passed over. *)
Fixpoint split_go (sep s : str) (skip : nat) (cur : str) : list str :=
  match s with
  | [] => [rev cur]
  | c :: t =>
    match skip with
    | S k => split_go sep t k cur
    | O =>
      if prefix sep s then rev cur :: split_go sep t (List.length sep - 1) []
      else split_go sep t 0 (c :: cur)
    end
  end.

Definition split (s sep : str) : list str := split_go sep s 0 [].

(** [re.split('[...]', s)] for a character class [cls]. *)
Fixpoint re_split_go (cls s cur : str) : list str :=
  match s with
  | [] => [rev cur]
  | c :: t =>
    if mem_char c cls then rev cur :: re_split_go cls t []
    else re_split_go cls t (c :: cur)
  end.

Definition re_split (cls s : str) : list str := re_split_go cls s [].

(** [s.split()]: pieces between runs of whitespace, empty pieces dropped. *)
Fixpoint split_ws_go (s cur : str) : list str :=
  match s with
  | [] => match cur with [] => [] | _ => [rev cur] end
  | c :: t =>
    if isspace c then
      match cur with
      | [] => split_ws_go t []
      | _ => rev cur :: split_ws_go t []
      end
    else split_ws_go t (c :: cur)
  end.

Definition split_ws (s : str) : list str := split_ws_go s [].

(** [str(n)] for an integer: decimal digits, most significant first. *)
Fixpoint digits_go (fuel : nat) (n : N) (acc : str) : str :=
  match fuel with
  | O => acc
  | S f =>
    let acc' := (0x30 + n mod 10) :: acc in
    if n <? 10 then acc' else digits_go f (n / 10) acc'
  end.

Definition str_of_N (n : N) : str := digits_go (S (N.to_nat (N.log2 n))) n [].

Definition str_of_int (z : Z) : str :=
  match z with
  | Zneg p => 0x2D :: str_of_N (Npos p)
  | _ => str_of_N (Z.to_N z)
  end.

(** [int(s, 16)] on a string of hexadecimal digits. *)
Definition hex_val (c : char) : Z :=
  if (0x30 <=? c) && (c <=? 0x39) then Z.of_N (c - 0x30)
  else if (0x61 <=? c) && (c <=? 0x66) then Z.of_N (c - 0x61 + 10)
  else Z.of_N (c - 0x41 + 10).

Definition int_of_hex (s : str) : Z :=
  fold_left (fun acc c => (16 * acc + hex_val c)%Z) s 0%Z.

(** Lower-casing of the ASCII letters; Python's [str.lower] agrees with it
    on every string whose cased characters are all ASCII. *)
Definition ascii_lower (s : str) : str :=
  map (fun c => if (0x41 <=? c) && (c <=? 0x5A) then c + 0x20 else c) s.

(** The non-whitespace characters of a string, in order. *)
Definition nonws (s : str) : str := filter (fun c => negb (isspace c)) s.

(** [sub] occurs in [s] as a contiguous run of characters. *)
Definition substring (sub s : str) : Prop := exists a b, s = a ++ sub ++ b.

End Py.

Import Py.

(* ===================================================================== *)
(** * Exceptions *)
(* ===================================================================== *)

(** The exceptions the modelled code raises or lets through. *)
Inductive exn : Type :=
| ValueError                                   (* [range()] with step 0 *)
| HTTPException (status_code : Z) (detail : str)
| ExternalError (message : str).               (* raised by a collaborator *)

(** Outcome of a call: a value, or a raised exception. *)
Inductive result (A : Type) : Type :=
| Ok (a : A)
| Raise (e : exn).

Arguments Ok {A} a.
Arguments Raise {A} e.

(* ===================================================================== *)
(** * TextTypeClassifier: [_detect_text_type] *)
(* ===================================================================== *)

Module Classifier.

Local Open Scope Z_scope.

Definition narrative_keywords : list str :=
  map py ["故事"; "情节"; "人物"; "对话"; "场景"; "时间"; "地点"; "发生"; "经历"; "遇到"]%string.
Definition argumentative_keywords : list str :=
  map py ["观点"; "论证"; "认为"; "因为"; "所以"; "然而"; "但是"; "首先"; "其次"; "总之"]%string.
Definition descriptive_keywords : list str :=
  map py ["介绍"; "说明"; "特点"; "功能"; "方法"; "步骤"; "原理"; "结构"; "组成"]%string.

(** [sum(1 for keyword in keywords if keyword in text)] *)
Definition score (keywords : list str) (text : str) : Z :=
  fold_right (fun keyword acc => if contains keyword text then 1 + acc else acc)
    0 keywords.

Definition narrative : str := py "narrative".
Definition argumentative : str := py "argumentative".
Definition descriptive : str := py "descriptive".

Definition _detect_text_type (text : str) : str :=
  let narrative_score := score narrative_keywords text in
  let argumentative_score := score argumentative_keywords text in
  let descriptive_score := score descriptive_keywords text in
  if (narrative_score >=? argumentative_score)
     && (narrative_score >=? descriptive_score)
  then narrative
  else if argumentative_score >=? descriptive_score
  then argumentative
  else descriptive.

End Classifier.

(* ===================================================================== *)
(** * Segmenter: [_smart_segment_text] *)
(* ===================================================================== *)

Module Segmenter.

Import Classifier.
Local Open Scope Z_scope.

Definition scene_markers : list str :=
  map py ["突然"; "接着"; "然后"; "后来"; "最后"; "终于"; "此时"; "这时"; "当时"; "那天"; "第二天"]%string.
Definition argument_markers : list str :=
  map py ["首先"; "其次"; "再次"; "最后"; "另外"; "此外"; "然而"; "但是"; "因此"; "所以"]%string.
Definition dimension_markers : list str :=
  map py ["外观"; "功能"; "特点"; "优势"; "方法"; "步骤"; "原理"; "结构"; "用途"; "效果"]%string.

(** The paragraph separator ["\n\n"]. *)
Definition nn : str := [10%N; 10%N].

(** State of the paragraph loop: the chunks emitted so far and
    [current_segment]. *)
Definition loop_state : Type := (list str * str)%type.

(** [current_segment += "\n\n" + para if current_segment else para] *)
Definition accumulate (current_segment para : str) : str :=
  if truthy current_segment then current_segment ++ nn ++ para else para.

(** [if current_segment.strip(): segments.append(current_segment.strip())] *)
Definition append_if_nonblank (segments : list str) (current_segment : str)
  : list str :=
  if truthy (strip current_segment) then segments ++ [strip current_segment]
  else segments.

(** Body of the narrative loop (lines 1163-1176). *)
Definition narrative_step (st : loop_state) (para : str) : loop_state :=
  let '(segments, current_segment) := st in
  let '(segments, current_segment) :=
    if len current_segment + len para >? 1200
    then (append_if_nonblank segments current_segment, para)
    else (segments, accumulate current_segment para) in
  (* for marker in scene_markers: if marker in para and len(...) > 500 *)
  if existsb (fun marker => contains marker para && (len current_segment >? 500))
       scene_markers
  then (segments ++ [strip current_segment], [])
  else (segments, current_segment).

(** Body of the argumentative and of the descriptive loop (lines 1188-1198
    and 1210-1220): they differ in the marker list and in the bound. *)
Definition marker_step (markers : list str) (max_len : Z)
  (st : loop_state) (para : str) : loop_state :=
  let '(segments, current_segment) := st in
  let '(segments, current_segment) :=
    if any_in markers para && (len current_segment >? 600)
    then (append_if_nonblank segments current_segment, para)
    else (segments, accumulate current_segment para) in
  if len current_segment >? max_len
  then (segments ++ [strip current_segment], [])
  else (segments, current_segment).

Definition argumentative_step := marker_step argument_markers 1500.
Definition descriptive_step := marker_step dimension_markers 1200.

(** The loop body chosen by [text_type]. *)
Definition step_of (text_type : str) : loop_state -> str -> loop_state :=
  if str_eqb text_type narrative then narrative_step
  else if str_eqb text_type argumentative then argumentative_step
  else descriptive_step.

(** Primary segmentation (lines 1152-1223): the loop over
    [text.split('\n\n')] and the flush of what is left. *)
Definition primary_segments (text text_type : str) : list str :=
  let paragraphs := split text nn in
  let '(segments, current_segment) :=
    fold_left (step_of text_type) paragraphs ([], []) in
  append_if_nonblank segments current_segment.

(** [range(0, stop, step)] for [step > 0]. *)
Definition range0 (stop step : nat) : list nat :=
  map (fun k => (k * step)%nat) (seq 0 ((stop + step - 1) / step)).

(** The equal-length fallback (lines 1228-1236).  [range] raises
    [ValueError] when its step is zero. *)
Definition fallback_segments (text : str) : result (list str) :=
  let text_length := len text in
  let target_segments := Z.min 5 (Z.max 3 (text_length / 800)) in
  let segment_length := text_length / target_segments in
  if segment_length =? 0 then Raise ValueError
  else
    let n := Z.to_nat segment_length in
    Ok (fold_left
          (fun segments i => append_if_nonblank segments (slice text i (i + n)))
          (range0 (Z.to_nat text_length) n) []).

Definition _smart_segment_text (text text_type : str) : result (list str) :=
  let segments := primary_segments text text_type in
  if (len segments <? 2) || (len segments >? 8) then
    match fallback_segments text with
    | Ok segments => Ok (firstn 6 segments)
    | Raise e => Raise e
    end
  else Ok (firstn 6 segments).

(** The non-whitespace characters held by a loop state. *)
Definition held (st : loop_state) : str :=
  nonws (List.concat (fst st)) ++ nonws (snd st).

(** The segmentation as the specification words it: the call returns between 1 and 6 chunks, each
    non-empty after trimming, whose trimmed concatenation holds every
    non-whitespace character of the text once and in order. *)
Definition claimed_segmentation (text text_type : str) : Prop :=
  exists chunks,
    _smart_segment_text text text_type = Ok chunks
    /\ (1 <= len chunks <= 6)%Z
    /\ Forall (fun c => strip c <> []) chunks
    /\ nonws (List.concat (map strip chunks)) = nonws text.

(** Eight paragraphs of 1201 letters: 9622 characters. *)
Definition eight_long_paragraphs : str :=
  join nn (repeat (repeat 97%N 1201) 8).

End Segmenter.

(* ===================================================================== *)
(** * StyleResolver and PromptComposer *)
(* ===================================================================== *)

Module Composer.

Local Open Scope Z_scope.

(** ** Regular expressions of the source *)

(** The character class [[一-龯]]. *)
Definition is_cjk (c : char) : bool := ((0x4E00 <=? c) && (c <=? 0x9FAF))%N.

(** The longest run of at most [n] leading characters of the class. *)
Fixpoint take_cjk (n : nat) (s : str) : str :=
  match n, s with
  | S k, c :: t => if is_cjk c then c :: take_cjk k t else []
  | _, _ => []
  end.

(** [re.findall('[一-龯]{2,6}', s)]: greedy, non-overlapping, left to
    right; [skip] characters of the last match are still to be passed. *)
Fixpoint findall_cjk_go (s : str) (skip : nat) : list str :=
  match s with
  | [] => []
  | c :: t =>
    match skip with
    | S k => findall_cjk_go t k
    | O =>
      if is_cjk c && match t with d :: _ => is_cjk d | [] => false end
      then let m := take_cjk 6 s in m :: findall_cjk_go t (List.length m - 1)
      else findall_cjk_go t 0
    end
  end.

Definition findall_cjk (s : str) : list str := findall_cjk_go s 0.

(** [re.search('.*[cls].*', s)]: some character of [s] is in the class. *)
Definition search_class (cls s : str) : bool :=
  existsb (fun c => mem_char c cls) s.

(** The sentence delimiters of [re.split(r'[。！？]', text)]. *)
Definition sentence_end : str := py "。！？".

(** ** [core_info] *)

Record core_elements : Type := {
  characters : list str;
  objects : list str;
  locations : list str;
  emotions : list str;
  actions : list str;
  time : str;
  atmosphere : str
}.

Record core_info : Type := {
  main_theme : str;
  key_scenes : list str;
  elements : core_elements;          (* ['core_elements'] *)
  content_focus : str;
  specific_details : list str;
  visual_elements : list str
}.

Definition emotion_words : list str :=
  map py ["快乐"; "愉悦"; "温暖"; "舒适"; "宁静"; "激动"; "感动"; "美好"; "幸福"; "满足"]%string.
Definition atmosphere_words : list str :=
  map py ["温馨"; "清新"; "自然"; "现代"; "时尚"; "简约"; "优雅"; "活力"; "宁静"; "明亮"; "柔和"]%string.
Definition visual_objects : list str :=
  map py ["书"; "咖啡"; "花"; "植物"; "电脑"; "手机"; "笔记本"; "杯子"; "窗户"; "桌子"; "椅子"; "灯"; "相机"]%string.
Definition scene_keywords : list str :=
  map py ["室内"; "户外"; "办公室"; "咖啡厅"; "家里"; "公园"; "街道"; "教室"; "图书馆"]%string.
Definition descriptive_patterns : list str :=
  map py ["看到听到感受到"; "美丽漂亮温暖舒适"; "阳光光线色彩颜色"]%string.

(** The loop over [sentences] that fills [key_scenes] (lines 1572-1578). *)
Fixpoint collect_key_scenes (sentences : list str) (acc : list str) : list str :=
  match sentences with
  | [] => acc
  | sentence :: rest =>
    let acc :=
      if existsb (fun pattern => search_class pattern sentence
                                 && (len sentence <=? 40))
           descriptive_patterns
      then acc ++ [sentence] else acc in
    if len acc >=? 2 then acc else collect_key_scenes rest acc
  end.

Definition _extract_article_core_info (text : str) : core_info :=
  let sentences :=
    map strip (filter (fun s => len (strip s) >? 5) (re_split sentence_end text)) in
  let main_theme :=
    match sentences with
    | first_sentence :: _ =>
      match findall_cjk first_sentence with
      | kw :: _ => kw
      | [] => []
      end
    | [] => []
    end in
  let content_focus :=
    match sentences with
    | _ :: _ =>
      let content_parts :=
        map (firstn 25) (filter (fun s => len s >=? 10) (firstn 3 sentences)) in
      join (py "，") (firstn 2 content_parts)
    | [] => []
    end in
  let emotions := filter (fun word => contains word text) emotion_words in
  let atmosphere :=
    match List.find (fun word => contains word text) atmosphere_words with
    | Some word => word
    | None =>
      if any_in (map py ["学习"; "工作"; "办公"]%string) text then py "简约"
      else if any_in (map py ["自然"; "户外"; "风景"]%string) text then py "清新"
      else if any_in (map py ["家"; "温暖"; "舒适"]%string) text then py "温馨"
      else py "自然"
    end in
  {| main_theme := main_theme;
     key_scenes := collect_key_scenes sentences [];
     elements :=
       {| characters := [];
          objects := filter (fun obj => contains obj text) visual_objects;
          locations := filter (fun scene => contains scene text) scene_keywords;
          emotions := emotions;
          actions := [];
          time := [];
          atmosphere := atmosphere |};
     content_focus := content_focus;
     specific_details := [];
     visual_elements := [] |}.

(** ** [_build_visual_elements] *)

Record visual : Type := {
  main_subject : str;
  scene_description : str;
  style_elements : str;
  technical_specs : str
}.

Definition _build_visual_elements (ci : core_info) (text_type : str) : visual :=
  let main_subject :=
    match specific_details ci with
    | first_detail :: _ => first_detail
    | [] =>
      if truthy (content_focus ci) then firstn 20 (content_focus ci)
      else main_theme ci ++ py "场景"
    end in
  let scene_parts :=
    firstn 2 (visual_elements ci)
    ++ (if truthy (atmosphere (elements ci))
        then [atmosphere (elements ci) ++ py "氛围"] else [])
    ++ (match emotions (elements ci) with
        | emotion :: _ => [emotion ++ py "感"]
        | [] => []
        end) in
  let style_parts :=
    (if truthy (atmosphere (elements ci)) then [atmosphere (elements ci)] else [])
    ++ (match emotions (elements ci) with
        | emotion :: _ => [emotion]
        | [] => []
        end) in
  {| main_subject := main_subject;
     scene_description :=
       match scene_parts with
       | [] => py "温馨生活场景"
       | _ => join (py "，") scene_parts
       end;
     style_elements :=
       match style_parts with
       | [] => py "温馨自然"
       | _ => join (py "，") style_parts
       end;
     technical_specs := py "高清摄影，专业构图，自然光线" |}.

(** ** The style catalogue *)

Record style_template : Type := {
  base_style : str;
  color_palette : str;
  lighting : str;
  composition : str;
  texture : str;
  mood : str
}.

(** The five keys of [STYLE_TEMPLATES], in the order of the source:
    温馨治愈, 清新自然, 现代简约, 文艺复古, 活力青春. *)
Inductive style_name : Type :=
| WarmHealing | FreshNatural | ModernMinimal | LiteraryRetro | YouthfulEnergetic.

Definition style_key (n : style_name) : str :=
  match n with
  | WarmHealing => py "温馨治愈"
  | FreshNatural => py "清新自然"
  | ModernMinimal => py "现代简约"
  | LiteraryRetro => py "文艺复古"
  | YouthfulEnergetic => py "活力青春"
  end.

Definition STYLE_TEMPLATES (n : style_name) : style_template :=
  match n with
  | WarmHealing =>
    {| base_style := py "温馨治愈风格";
       color_palette := py "暖色调，米色，奶茶色，浅粉色";
       lighting := py "柔和自然光，温暖光线";
       composition := py "居中构图，温馨氛围";
       texture := py "柔和质感，温润材质";
       mood := py "温馨舒适，治愈感" |}
  | FreshNatural =>
    {| base_style := py "清新自然风格";
       color_palette := py "清新色调，绿色，白色，浅蓝色";
       lighting := py "明亮自然光，清晨阳光";
       composition := py "简洁构图，自然布局";
       texture := py "清爽质感，自然材质";
       mood := py "清新舒适，自然感" |}
  | ModernMinimal =>
    {| base_style := py "现代简约风格";
       color_palette := py "简约色调，黑白灰，高级灰";
       lighting := py "均匀光线，现代感照明";
       composition := py "几何构图，简洁布局";
       texture := py "光滑质感，现代材质";
       mood := py "简约大气，现代感" |}
  | LiteraryRetro =>
    {| base_style := py "文艺复古风格";
       color_palette := py "复古色调，棕色，深绿，暗红";
       lighting := py "柔和侧光，复古氛围";
       composition := py "经典构图，文艺布局";
       texture := py "复古质感，怀旧材质";
       mood := py "文艺气息，复古感" |}
  | YouthfulEnergetic =>
    {| base_style := py "活力青春风格";
       color_palette := py "明亮色调，橙色，黄色，粉色";
       lighting := py "明亮光线，活力照明";
       composition := py "动感构图，活跃布局";
       texture := py "光泽质感，活力材质";
       mood := py "青春活力，动感十足" |}
  end.

(** ** [_determine_unified_style] *)

Definition _determine_unified_style (ci : core_info) (text_type style_prompt : str)
  : style_name :=
  let atmosphere := atmosphere (elements ci) in
  let emotions := emotions (elements ci) in
  if truthy style_prompt && negb (str_eqb style_prompt (py "现代简约风格")) then
    if contains (py "温馨") style_prompt || contains (py "治愈") style_prompt
    then WarmHealing
    else if contains (py "清新") style_prompt || contains (py "自然") style_prompt
    then FreshNatural
    else if contains (py "文艺") style_prompt || contains (py "复古") style_prompt
    then LiteraryRetro
    else if contains (py "活力") style_prompt || contains (py "青春") style_prompt
    then YouthfulEnergetic
    else ModernMinimal
  else if contains (py "温馨") atmosphere || contains (py "温暖") atmosphere
  then WarmHealing
  else if contains (py "清新") atmosphere || contains (py "自然") atmosphere
  then FreshNatural
  else if match emotions with [] => false | _ => true end
          && (mem_str (py "快乐") emotions || mem_str (py "愉悦") emotions)
  then YouthfulEnergetic
  else if contains (py "文艺") atmosphere || contains (py "怀旧") atmosphere
  then LiteraryRetro
  else ModernMinimal.

(** ** The five section builders *)

(** The style the 【风格定位】 section is built from. *)
Definition style_of_positioning (ci : core_info) (text_type style_prompt : str)
  : style_name :=
  _determine_unified_style ci text_type style_prompt.

Definition _build_style_positioning (ci : core_info) (text_type style_prompt : str)
  : str :=
  let template := STYLE_TEMPLATES (style_of_positioning ci text_type style_prompt) in
  join (py "，") [base_style template; mood template].

Definition _build_core_content (ci : core_info) (text : str) : str :=
  let sentences :=
    map strip
      (filter (fun s => (15 <=? len (strip s)) && (len (strip s) <=? 40))
         (re_split sentence_end text)) in
  let content_parts :=
    match List.find
            (fun sentence =>
               any_in (map py ["的"; "在"; "像"; "如"; "美"; "光"; "色"; "温"; "柔"]%string)
                 sentence)
            (firstn 3 sentences) with
    | Some descriptive_sentence => [descriptive_sentence]
    | None => []
    end in
  let content_parts :=
    if truthy (main_theme ci) then
      match content_parts with
      | [] => content_parts ++ [main_theme ci]
      | first :: _ =>
        if negb (contains (main_theme ci) first)
        then content_parts ++ [main_theme ci] else content_parts
      end
    else content_parts in
  let content_parts :=
    match content_parts with
    | [] => [py "温馨生活场景"]
    | _ => content_parts
    end in
  join (py "，") (firstn 2 content_parts).

(** The style the 【视觉元素】 section is built from. *)
Definition style_of_visual (ci : core_info) : style_name :=
  _determine_unified_style ci [] [].

Definition _build_visual_description (v : visual) (ci : core_info) : str :=
  let template := STYLE_TEMPLATES (style_of_visual ci) in
  let visual_parts :=
    (if truthy (main_subject v) && (len (main_subject v) <=? 20)
     then [main_subject v] else [])
    ++ (if truthy (scene_description v) && (len (scene_description v) <=? 15)
        then [scene_description v] else [])
    ++ [color_palette template; lighting template; composition template] in
  let visual_parts :=
    if len visual_parts <? 3
    then visual_parts ++ [color_palette template; lighting template]
    else visual_parts in
  join (py "，") (firstn 4 visual_parts).

Definition _build_layout_requirements : str :=
  py "竖版构图9:16，小红书风格排版，清晰易读，视觉层次分明".

(** The style the 【细节补充】 section is built from. *)
Definition style_of_details (ci : core_info) (text_type : str) : style_name :=
  _determine_unified_style ci text_type [].

Definition _build_detail_supplements (ci : core_info) (text_type : str) : str :=
  let template := STYLE_TEMPLATES (style_of_details ci text_type) in
  join (py "，")
    [py "高清摄影"; py "专业构图"; texture template;
     if str_eqb text_type (py "叙事文") then py "情感表达"
     else if str_eqb text_type (py "说明文") then py "简洁明了"
     else py "视觉美感"].

(** ** [_truncate_text] *)

Definition punctuation : str := py "，。、".

(** [range(hi, lo, -1)]: [hi], [hi - 1], ..., [lo + 1]. *)
Definition range_down (hi lo : nat) : list nat := rev (seq (S lo) (hi - lo)).

Definition _truncate_text (text : str) (max_length : nat) : str :=
  if len text <=? Z.of_nat max_length then text
  else
    match List.find (fun i => mem_char (nth i text 0%N) punctuation)
            (range_down (max_length - 1) (max_length / 2)) with
    | Some i => firstn i text
    | None => firstn max_length text
    end.

(** ** [_generate_xiaohongshu_prompt] *)

Definition label_style : str := py "【风格定位】".
Definition label_core : str := py "【核心内容】".
Definition label_visual : str := py "【视觉元素】".
Definition label_layout : str := py "【排版要求】".
Definition label_detail : str := py "【细节补充】".

(** ["；".join(prompt_sections)] of the five labelled sections. *)
Definition assemble (s1 s2 s3 s4 s5 : str) : str :=
  join (py "；")
    [label_style ++ s1; label_core ++ s2; label_visual ++ s3;
     label_layout ++ s4; label_detail ++ s5].

(** The five section texts after the emptiness defaults (lines 1414-1438). *)
Definition sections (text style_prompt text_type : str)
  : str * str * str * str * str :=
  let ci := _extract_article_core_info text in
  let visual_elements := _build_visual_elements ci text_type in
  let style_positioning := _build_style_positioning ci text_type style_prompt in
  let core_content := _build_core_content ci text in
  let visual_desc := _build_visual_description visual_elements ci in
  let layout_requirements := _build_layout_requirements in
  let detail_supplements := _build_detail_supplements ci text_type in
  let style_positioning :=
    if negb (truthy (strip style_positioning)) then py "清新自然风格"
    else style_positioning in
  let core_content :=
    if negb (truthy (strip core_content)) then py "温馨故事场景"
    else core_content in
  let visual_desc :=
    if negb (truthy (strip visual_desc)) then py "柔和光线，温暖色调"
    else visual_desc in
  (style_positioning, core_content, visual_desc, layout_requirements,
   detail_supplements).

(** The first assembly (lines 1441-1449). *)
Definition first_prompt (text style_prompt text_type : str) : str :=
  let '(sp, cc, vd, lr, ds) := sections text style_prompt text_type in
  assemble (strip sp) (strip cc) (strip vd) (strip lr) (strip ds).

Definition _generate_xiaohongshu_prompt (text style_prompt text_type : str) : str :=
  let '(sp, cc, vd, lr, ds) := sections text style_prompt text_type in
  let full_prompt := first_prompt text style_prompt text_type in
  if len full_prompt >? 300 then
    assemble (_truncate_text sp 15) (_truncate_text cc 50) (_truncate_text vd 60)
      (_truncate_text lr 30) (_truncate_text ds 25)
  else full_prompt.

(** ** Occurrences of the label bracket *)





End Composer.

(* ===================================================================== *)
(** * [hashlib.md5] (RFC 1321) *)
(* ===================================================================== *)

Module MD5.

Local Open Scope Z_scope.

Definition add32 (a b : Z) : Z := (a + b) mod 2 ^ 32.

Definition rotl32 (x c : Z) : Z :=
  Z.land (Z.lor (Z.shiftl x c) (Z.shiftr x (32 - c))) 0xFFFFFFFF.

Definition not32 (x : Z) : Z := Z.lxor x 0xFFFFFFFF.

(** Per-round shift amounts. *)
Definition S_table : list Z :=
  [7; 12; 17; 22; 7; 12; 17; 22; 7; 12; 17; 22; 7; 12; 17; 22;
   5; 9; 14; 20; 5; 9; 14; 20; 5; 9; 14; 20; 5; 9; 14; 20;
   4; 11; 16; 23; 4; 11; 16; 23; 4; 11; 16; 23; 4; 11; 16; 23;
   6; 10; 15; 21; 6; 10; 15; 21; 6; 10; 15; 21; 6; 10; 15; 21].

(** [floor(2^32 * abs(sin(i + 1)))] *)
Definition K_table : list Z :=
  [0xd76aa478; 0xe8c7b756; 0x242070db; 0xc1bdceee; 0xf57c0faf; 0x4787c62a; 0xa8304613; 0xfd469501;
   0x698098d8; 0x8b44f7af; 0xffff5bb1; 0x895cd7be; 0x6b901122; 0xfd987193; 0xa679438e; 0x49b40821;
   0xf61e2562; 0xc040b340; 0x265e5a51; 0xe9b6c7aa; 0xd62f105d; 0x02441453; 0xd8a1e681; 0xe7d3fbc8;
   0x21e1cde6; 0xc33707d6; 0xf4d50d87; 0x455a14ed; 0xa9e3e905; 0xfcefa3f8; 0x676f02d9; 0x8d2a4c8a;
   0xfffa3942; 0x8771f681; 0x6d9d6122; 0xfde5380c; 0xa4beea44; 0x4bdecfa9; 0xf6bb4b60; 0xbebfbc70;
   0x289b7ec6; 0xeaa127fa; 0xd4ef3085; 0x04881d05; 0xd9d4d039; 0xe6db99e5; 0x1fa27cf8; 0xc4ac5665;
   0xf4292244; 0x432aff97; 0xab9423a7; 0xfc93a039; 0x655b59c3; 0x8f0ccc92; 0xffeff47d; 0x85845dd1;
   0x6fa87e4f; 0xfe2ce6e0; 0xa3014314; 0x4e0811a1; 0xf7537e82; 0xbd3af235; 0x2ad7d2bb; 0xeb86d391].

(** The four chaining words. *)
Definition state : Type := (Z * Z * Z * Z)%type.

Definition init : state := (0x67452301, 0xefcdab89, 0x98badcfe, 0x10325476).

(** [n] bytes of [v], least significant first. *)
Fixpoint le_bytes (n : nat) (v : Z) : list Z :=
  match n with
  | O => []
  | S k => Z.land v 0xFF :: le_bytes k (Z.shiftr v 8)
  end.

(** Little-endian 32-bit words of a byte sequence. *)
Fixpoint words (bs : list Z) : list Z :=
  match bs with
  | b0 :: b1 :: b2 :: b3 :: r =>
    (b0 + Z.shiftl b1 8 + Z.shiftl b2 16 + Z.shiftl b3 24) :: words r
  | _ => []
  end.

(** The message followed by [0x80], zeros up to 56 modulo 64, and the bit
    length on 64 bits. *)
Definition pad (msg : list Z) : list Z :=
  let n := Z.of_nat (List.length msg) in
  msg ++ [0x80] ++ repeat 0 (Z.to_nat ((55 - n) mod 64))
      ++ le_bytes 8 ((8 * n) mod 2 ^ 64).

(** One of the 64 operations on a block [m] of 16 words. *)
Definition operation (m : list Z) (st : state) (i : nat) : state :=
  let '(a, b, c, d) := st in
  let iz := Z.of_nat i in
  let '(f, g) :=
    if iz <? 16 then (Z.lor (Z.land b c) (Z.land (not32 b) d), iz)
    else if iz <? 32 then
      (Z.lor (Z.land d b) (Z.land (not32 d) c), (5 * iz + 1) mod 16)
    else if iz <? 48 then (Z.lxor (Z.lxor b c) d, (3 * iz + 5) mod 16)
    else (Z.lxor c (Z.lor b (not32 d)), (7 * iz) mod 16) in
  let f := add32 (add32 (add32 f a) (nth i K_table 0)) (nth (Z.to_nat g) m 0) in
  (d, add32 b (rotl32 f (nth i S_table 0)), b, c).

Definition process_block (st : state) (m : list Z) : state :=
  let '(a0, b0, c0, d0) := st in
  let '(a, b, c, d) := fold_left (operation m) (seq 0 64) st in
  (add32 a0 a, add32 b0 b, add32 c0 c, add32 d0 d).

(** The 16-word blocks of a word sequence. *)
Fixpoint blocks (n : nat) (ws : list Z) : list (list Z) :=
  match n with
  | O => []
  | S k => firstn 16 ws :: blocks k (skipn 16 ws)
  end.

(** [hashlib.md5(msg).digest()] *)
Definition digest (msg : list N) : list Z :=
  let ws := words (pad (map Z.of_N msg)) in
  let '(a, b, c, d) :=
    fold_left process_block (blocks (List.length ws / 16) ws) init in
  le_bytes 4 a ++ le_bytes 4 b ++ le_bytes 4 c ++ le_bytes 4 d.

Definition hex_digit (v : Z) : char :=
  if v <? 10 then Z.to_N (0x30 + v) else Z.to_N (0x61 + v - 10).

(** [hashlib.md5(msg).hexdigest()] *)
Definition hexdigest (msg : list N) : str :=
  flat_map (fun b => [hex_digit (Z.shiftr b 4); hex_digit (Z.land b 0xF)])
    (digest msg).

End MD5.

(* ===================================================================== *)
(** * ImageMatcher: [ImageGenerationService._generate_demo_image] *)
(* ===================================================================== *)

Module ImageMatcher.

Local Open Scope Z_scope.

Record theme_data : Type := {
  keywords : list str;
  semantic : list str;
  emotions : list str
}.

(** Every URL of the image library has the same prefix and suffix around
    the photo id. *)
Definition unsplash (photo : string) : str :=
  py "https://images.unsplash.com/photo-" ++ py photo
    ++ py "?w=400&h=600&fit=crop".

(** The dictionaries of the source, as association lists in the order of
    the source (Python dictionaries iterate in insertion order). *)
Definition enhanced_theme_mapping : list (str * theme_data) :=
  [(py "nature_mountain",
    {| keywords := map py
         ["山"; "山峰"; "山脉"; "登山"; "远足"; "自然风光"; "户外"; "徒步"; "山景"; "高山"; "雪山";
          "山顶"; "峰峦"; "巍峨"; "壮丽"]%string;
       semantic := map py
         ["雄伟"; "壮观"; "高耸"; "险峻"; "云雾缭绕"; "山川"; "峻岭"; "巅峰"; "登高"; "俯瞰"]%string;
       emotions := map py
         ["震撼"; "敬畏"; "征服"; "挑战"; "坚毅"]%string |});
   (py "nature_ocean",
    {| keywords := map py
         ["海"; "海洋"; "海边"; "海滩"; "波浪"; "海水"; "沙滩"; "海岸"; "蓝色"; "水面"; "大海";
          "海浪"; "潮汐"; "海风"]%string;
       semantic := map py
         ["辽阔"; "深邃"; "波涛"; "浪花"; "海天一色"; "碧波"; "汹涌"; "宁静"; "海鸥"; "帆船"]%string;
       emotions := map py
         ["自由"; "宁静"; "浪漫"; "思考"; "放松"]%string |});
   (py "nature_forest",
    {| keywords := map py
         ["森林"; "树林"; "绿色"; "植物"; "叶子"; "树木"; "自然"; "绿意"; "清新"; "大树"; "古树";
          "林间"; "丛林"; "绿荫"]%string;
       semantic := map py
         ["茂密"; "幽静"; "生机"; "翠绿"; "阳光透过"; "鸟语花香"; "小径"; "清香"; "氧气"; "生态"]%string;
       emotions := map py
         ["平静"; "治愈"; "清新"; "生机"; "和谐"]%string |});
   (py "nature_flower",
    {| keywords := map py
         ["花"; "花朵"; "樱花"; "梅花"; "玫瑰"; "花园"; "花海"; "盛开"; "花瓣"; "花蕊"; "鲜花";
          "花束"; "绽放"; "芬芳"]%string;
       semantic := map py
         ["娇艳"; "芬芳"; "绚烂"; "花香"; "蜜蜂"; "蝴蝶"; "花期"; "花语"; "美丽"; "色彩"]%string;
       emotions := map py
         ["美好"; "浪漫"; "温柔"; "纯真"; "爱情"]%string |});
   (py "nature_sky",
    {| keywords := map py
         ["天空"; "云"; "蓝天"; "白云"; "晴天"; "日出"; "日落"; "夕阳"; "朝霞"; "晚霞"; "彩霞";
          "阳光"; "云朵"; "天际"]%string;
       semantic := map py
         ["广阔"; "无垠"; "变幻"; "光影"; "色彩"; "云卷云舒"; "霞光"; "金辉"; "蔚蓝"; "纯净"]%string;
       emotions := map py
         ["希望"; "自由"; "梦想"; "开阔"; "向往"]%string |});
   (py "city_modern",
    {| keywords := map py
         ["城市"; "都市"; "现代"; "高楼"; "建筑"; "街道"; "都市风光"; "摩天大楼"; "现代建筑"; "玻璃幕墙";
          "钢筋混凝土"]%string;
       semantic := map py
         ["繁华"; "现代化"; "科技感"; "都市节奏"; "商业区"; "CBD"; "天际线"; "灯火辉煌"; "车水马龙"]%string;
       emotions := map py
         ["活力"; "忙碌"; "现代"; "进步"; "竞争"]%string |});
   (py "city_street",
    {| keywords := map py
         ["街道"; "马路"; "路"; "街景"; "城市街道"; "行人"; "交通"; "繁华"; "十字路口"; "车流";
          "人流"; "商店"]%string;
       semantic := map py
         ["熙熙攘攘"; "川流不息"; "红绿灯"; "斑马线"; "店铺"; "招牌"; "街头"; "都市生活"]%string;
       emotions := map py
         ["热闹"; "生活"; "忙碌"; "多彩"; "真实"]%string |});
   (py "city_cafe",
    {| keywords := map py
         ["咖啡厅"; "咖啡"; "咖啡馆"; "温暖"; "惬意"; "休闲"; "下午茶"; "咖啡店"; "温馨"; "拿铁";
          "卡布奇诺"]%string;
       semantic := map py
         ["慢生活"; "文艺"; "小资"; "聊天"; "阅读"; "音乐"; "香气"; "舒适"; "放松"]%string;
       emotions := map py
         ["惬意"; "温馨"; "放松"; "享受"; "文艺"]%string |});
   (py "city_night",
    {| keywords := map py
         ["夜晚"; "夜景"; "灯光"; "霓虹"; "夜色"; "城市夜景"; "璀璨"; "霓虹灯"; "灯火通明"; "夜生活"]%string;
       semantic := map py
         ["绚烂"; "迷人"; "光影"; "夜市"; "酒吧"; "夜店"; "星光"; "月光"; "灯红酒绿"]%string;
       emotions := map py
         ["浪漫"; "神秘"; "活力"; "魅力"; "梦幻"]%string |});
   (py "people_portrait",
    {| keywords := map py
         ["人物"; "肖像"; "面部"; "表情"; "眼神"; "人像"; "特写"; "面容"; "神情"; "五官"; "轮廓"]%string;
       semantic := map py
         ["深邃"; "专注"; "凝视"; "微表情"; "个性"; "气质"; "魅力"; "特征"; "神韵"]%string;
       emotions := map py
         ["专注"; "深沉"; "个性"; "魅力"; "真实"]%string |});
   (py "people_happy",
    {| keywords := map py
         ["快乐"; "开心"; "笑容"; "微笑"; "欢乐"; "愉快"; "高兴"; "兴奋"; "喜悦"; "幸福"; "灿烂";
          "甜美"]%string;
       semantic := map py
         ["阳光"; "灿烂"; "感染力"; "正能量"; "活力"; "青春"; "纯真"; "美好"]%string;
       emotions := map py
         ["快乐"; "幸福"; "满足"; "阳光"; "积极"]%string |});
   (py "people_sad",
    {| keywords := map py
         ["伤心"; "难过"; "悲伤"; "忧郁"; "沮丧"; "失落"; "眼泪"; "哭泣"; "忧伤"; "孤独"; "思念"]%string;
       semantic := map py
         ["忧郁"; "深沉"; "思考"; "回忆"; "怀念"; "感伤"; "眼泪"; "孤单"]%string;
       emotions := map py
         ["悲伤"; "忧郁"; "思念"; "孤独"; "感伤"]%string |});
   (py "people_love",
    {| keywords := map py
         ["爱情"; "浪漫"; "情侣"; "恋人"; "拥抱"; "亲吻"; "甜蜜"; "温馨"; "爱"; "浪漫"; "约会";
          "牵手"]%string;
       semantic := map py
         ["甜蜜"; "温馨"; "浪漫"; "幸福"; "相伴"; "依偎"; "深情"; "眷恋"]%string;
       emotions := map py
         ["爱情"; "浪漫"; "甜蜜"; "幸福"; "温暖"]%string |});
   (py "people_friendship",
    {| keywords := map py
         ["友谊"; "朋友"; "友情"; "陪伴"; "一起"; "合影"; "友好"; "聚会"; "交谈"; "分享"; "支持"]%string;
       semantic := map py
         ["真诚"; "陪伴"; "支持"; "分享"; "快乐"; "信任"; "理解"; "珍贵"]%string;
       emotions := map py
         ["友谊"; "温暖"; "支持"; "快乐"; "珍贵"]%string |});
   (py "people_family",
    {| keywords := map py
         ["家庭"; "亲情"; "父母"; "孩子"; "家人"; "温馨"; "团聚"; "家"; "亲人"; "关爱"; "呵护"]%string;
       semantic := map py
         ["温馨"; "和睦"; "关爱"; "呵护"; "传承"; "责任"; "依靠"; "港湾"]%string;
       emotions := map py
         ["温馨"; "关爱"; "安全"; "归属"; "责任"]%string |});
   (py "life_home",
    {| keywords := map py
         ["家"; "家庭"; "房间"; "客厅"; "卧室"; "温馨"; "居家"; "生活"; "家居"; "装饰"; "舒适"]%string;
       semantic := map py
         ["温馨"; "舒适"; "私密"; "放松"; "归属"; "安全"; "个人空间"; "生活气息"]%string;
       emotions := map py
         ["温馨"; "舒适"; "安全"; "放松"; "归属"]%string |});
   (py "life_work",
    {| keywords := map py
         ["工作"; "办公"; "电脑"; "会议"; "商务"; "职场"; "学习"; "专注"; "办公室"; "效率"; "专业"]%string;
       semantic := map py
         ["专业"; "效率"; "专注"; "认真"; "责任"; "成就"; "挑战"; "团队"]%string;
       emotions := map py
         ["专注"; "认真"; "责任"; "成就"; "挑战"]%string |});
   (py "life_travel",
    {| keywords := map py
         ["旅行"; "旅游"; "度假"; "行李"; "机场"; "酒店"; "风景"; "探索"; "旅途"; "冒险"; "发现"]%string;
       semantic := map py
         ["自由"; "探索"; "发现"; "体验"; "冒险"; "放松"; "开阔"; "记忆"]%string;
       emotions := map py
         ["自由"; "兴奋"; "探索"; "放松"; "开阔"]%string |});
   (py "life_food",
    {| keywords := map py
         ["美食"; "食物"; "餐厅"; "烹饪"; "料理"; "美味"; "餐桌"; "品尝"; "菜肴"; "香味"; "色香味"]%string;
       semantic := map py
         ["美味"; "香气"; "色彩"; "精致"; "享受"; "满足"; "文化"; "分享"]%string;
       emotions := map py
         ["享受"; "满足"; "幸福"; "分享"; "文化"]%string |});
   (py "life_reading",
    {| keywords := map py
         ["读书"; "阅读"; "书本"; "学习"; "知识"; "图书"; "文字"; "思考"; "书籍"; "智慧"; "文学"]%string;
       semantic := map py
         ["安静"; "专注"; "思考"; "智慧"; "知识"; "成长"; "内涵"; "修养"]%string;
       emotions := map py
         ["宁静"; "专注"; "智慧"; "成长"; "充实"]%string |});
   (py "abstract_dream",
    {| keywords := map py
         ["梦想"; "希望"; "未来"; "理想"; "憧憬"; "目标"; "追求"; "愿望"; "梦"; "志向"; "抱负"]%string;
       semantic := map py
         ["远大"; "美好"; "追求"; "奋斗"; "坚持"; "信念"; "光明"; "可能"]%string;
       emotions := map py
         ["希望"; "憧憬"; "激励"; "坚定"; "美好"]%string |});
   (py "abstract_memory",
    {| keywords := map py
         ["回忆"; "记忆"; "过去"; "怀念"; "思念"; "往事"; "童年"; "青春"; "时光"; "岁月"; "怀旧"]%string;
       semantic := map py
         ["珍贵"; "美好"; "怀念"; "感慨"; "时光"; "青春"; "纯真"; "难忘"]%string;
       emotions := map py
         ["怀念"; "感慨"; "珍贵"; "温暖"; "感伤"]%string |});
   (py "abstract_growth",
    {| keywords := map py
         ["成长"; "进步"; "发展"; "提升"; "改变"; "蜕变"; "突破"; "进化"; "成熟"; "学习"; "进取"]%string;
       semantic := map py
         ["进步"; "提升"; "突破"; "坚持"; "努力"; "收获"; "成就"; "蜕变"]%string;
       emotions := map py
         ["成就"; "满足"; "自豪"; "坚定"; "积极"]%string |});
   (py "abstract_peace",
    {| keywords := map py
         ["平静"; "安静"; "宁静"; "祥和"; "放松"; "冥想"; "内心"; "禅意"; "宁静"; "静谧"; "安详"]%string;
       semantic := map py
         ["宁静"; "平和"; "安详"; "内心"; "冥想"; "禅意"; "超脱"; "纯净"]%string;
       emotions := map py
         ["平静"; "安详"; "放松"; "纯净"; "超脱"]%string |});
   (py "abstract_emotion",
    {| keywords := map py
         ["情感"; "温暖"; "感动"; "关爱"; "温情"; "心情"; "感受"; "情绪"; "内心"; "心灵"; "感触"]%string;
       semantic := map py
         ["深刻"; "真挚"; "温暖"; "感人"; "触动"; "共鸣"; "理解"; "包容"]%string;
       emotions := map py
         ["感动"; "温暖"; "真挚"; "深刻"; "共鸣"]%string |});
   (py "season_spring",
    {| keywords := map py
         ["春天"; "春季"; "新绿"; "生机"; "复苏"; "嫩芽"; "春意"; "温暖"; "春日"; "花开"; "万物复苏"]%string;
       semantic := map py
         ["生机"; "希望"; "新生"; "活力"; "温暖"; "绿意"; "花开"; "复苏"]%string;
       emotions := map py
         ["希望"; "活力"; "新生"; "温暖"; "美好"]%string |});
   (py "season_summer",
    {| keywords := map py
         ["夏天"; "夏季"; "炎热"; "阳光"; "海滩"; "游泳"; "清凉"; "活力"; "夏日"; "热情"; "火热"]%string;
       semantic := map py
         ["热情"; "活力"; "阳光"; "热烈"; "充满活力"; "青春"; "激情"; "奔放"]%string;
       emotions := map py
         ["热情"; "活力"; "激情"; "自由"; "青春"]%string |});
   (py "season_autumn",
    {| keywords := map py
         ["秋天"; "秋季"; "落叶"; "金黄"; "收获"; "枫叶"; "萧瑟"; "成熟"; "金秋"; "丰收"; "凉爽"]%string;
       semantic := map py
         ["成熟"; "收获"; "丰富"; "沉淀"; "金黄"; "美丽"; "诗意"; "感怀"]%string;
       emotions := map py
         ["成熟"; "收获"; "感怀"; "诗意"; "沉静"]%string |});
   (py "season_winter",
    {| keywords := map py
         ["冬天"; "冬季"; "雪"; "寒冷"; "雪花"; "冰"; "纯洁"; "静谧"; "雪景"; "银装素裹"; "洁白"]%string;
       semantic := map py
         ["纯洁"; "静谧"; "洁白"; "宁静"; "素雅"; "清冷"; "美丽"; "神圣"]%string;
       emotions := map py
         ["纯洁"; "宁静"; "清冷"; "神圣"; "美丽"]%string |});
   (py "activity_sport",
    {| keywords := map py
         ["运动"; "健身"; "跑步"; "瑜伽"; "游泳"; "锻炼"; "活力"; "健康"; "体育"; "汗水"; "坚持"]%string;
       semantic := map py
         ["活力"; "健康"; "坚持"; "挑战"; "突破"; "汗水"; "努力"; "强健"]%string;
       emotions := map py
         ["活力"; "健康"; "坚持"; "挑战"; "成就"]%string |});
   (py "activity_art",
    {| keywords := map py
         ["艺术"; "绘画"; "音乐"; "创作"; "设计"; "美术"; "文艺"; "创意"; "艺术"; "灵感"; "美感"]%string;
       semantic := map py
         ["创意"; "美感"; "灵感"; "表达"; "创造"; "艺术"; "文化"; "审美"]%string;
       emotions := map py
         ["创意"; "美感"; "表达"; "文艺"; "灵感"]%string |});
   (py "activity_relax",
    {| keywords := map py
         ["休息"; "放松"; "躺着"; "睡觉"; "安静"; "舒适"; "惬意"; "慵懒"; "休闲"; "悠闲"; "享受"]%string;
       semantic := map py
         ["舒适"; "惬意"; "悠闲"; "放松"; "享受"; "慵懒"; "安逸"; "自在"]%string;
       emotions := map py
         ["放松"; "舒适"; "惬意"; "悠闲"; "享受"]%string |});
   (py "animal_cat",
    {| keywords := map py
         ["猫"; "小猫"; "猫咪"; "喵星人"; "可爱猫"; "宠物猫"; "猫咪"; "喵喵"]%string;
       semantic := map py
         ["可爱"; "温顺"; "优雅"; "独立"; "神秘"; "灵动"; "治愈"; "陪伴"]%string;
       emotions := map py
         ["可爱"; "治愈"; "温顺"; "陪伴"; "温暖"]%string |});
   (py "animal_dog",
    {| keywords := map py
         ["狗"; "小狗"; "狗狗"; "宠物狗"; "忠诚"; "汪星人"; "犬"; "小犬"]%string;
       semantic := map py
         ["忠诚"; "友好"; "活泼"; "陪伴"; "守护"; "可爱"; "温暖"; "信任"]%string;
       emotions := map py
         ["忠诚"; "友好"; "陪伴"; "温暖"; "信任"]%string |});
   (py "animal_bird",
    {| keywords := map py
         ["鸟"; "小鸟"; "飞鸟"; "鸟儿"; "翅膀"; "飞翔"; "鸟类"; "羽毛"]%string;
       semantic := map py
         ["自由"; "轻盈"; "优雅"; "飞翔"; "歌声"; "美丽"; "灵动"; "天空"]%string;
       emotions := map py
         ["自由"; "轻盈"; "优雅"; "美丽"; "灵动"]%string |});
   (py "animal_wild",
    {| keywords := map py
         ["野生动物"; "兔子"; "松鼠"; "蝴蝶"; "昆虫"; "动物"; "野生"; "自然"]%string;
       semantic := map py
         ["自然"; "野性"; "生态"; "和谐"; "美丽"; "神奇"; "多样"; "生命"]%string;
       emotions := map py
         ["自然"; "和谐"; "美丽"; "神奇"; "生命"]%string |})].

Definition xiaohongshu_images : list (str * list str) :=
  [(py "nature_mountain", map unsplash
     ["1506905925346-21bda4d32df4"; "1464822759844-d150baec0494";
      "1519904981063-b0cf448d479e"; "1551632811-561732d1e306";
      "1506197603052-3cc9c3a201bd"]%string);
   (py "nature_ocean", map unsplash
     ["1505142468610-359e7d316be0"; "1544551763-46a013bb70d5";
      "1507525428034-b723cf961d3e"; "1518837695005-2083093ee35b";
      "1439066615861-d1af74d74000"]%string);
   (py "nature_forest", map unsplash
     ["1441974231531-c6227db76b6e"; "1448375240586-882707db888b";
      "1518837695005-2083093ee35b"; "1506905925346-21bda4d32df4";
      "1511593358241-7eea1f3c84e5"]%string);
   (py "nature_flower", map unsplash
     ["1490750967868-88aa4486c946"; "1518895949257-7621c3c786d7";
      "1463320726281-696a485928c7"; "1502082553048-f009c37129b9";
      "1507003211169-0a1dd7228f2d"]%string);
   (py "nature_sky", map unsplash
     ["1506905925346-21bda4d32df4"; "1500382017468-9049fed747ef";
      "1519904981063-b0cf448d479e"; "1506197603052-3cc9c3a201bd";
      "1464822759844-d150baec0494"]%string);
   (py "city_modern", map unsplash
     ["1449824913935-59a10b8d2000"; "1486406146926-c627a92ad1ab";
      "1477959858617-67f85cf4f1df"; "1514565131-fce0801e5785";
      "1480714378408-67cf0d13bc1f"]%string);
   (py "city_street", map unsplash
     ["1477959858617-67f85cf4f1df"; "1514565131-fce0801e5785";
      "1449824913935-59a10b8d2000"; "1486406146926-c627a92ad1ab";
      "1480714378408-67cf0d13bc1f"]%string);
   (py "city_cafe", map unsplash
     ["1501339847302-ac426a4a7cbb"; "1554118811-1e0d58224f24";
      "1495474472287-4d71bcdd2085"; "1559056199-641a0ac8b55e";
      "1521017432531-fbd92d768814"]%string);
   (py "city_night", map unsplash
     ["1514565131-fce0801e5785"; "1477959858617-67f85cf4f1df";
      "1449824913935-59a10b8d2000"; "1486406146926-c627a92ad1ab";
      "1480714378408-67cf0d13bc1f"]%string);
   (py "people_portrait", map unsplash
     ["1494790108755-2616c6106db4"; "1507003211169-0a1dd7228f2d";
      "1517841905240-472988babdf9"; "1500648767791-00dcc994a43e";
      "1438761681033-6461ffad8d80"]%string);
   (py "people_happy", map unsplash
     ["1507003211169-0a1dd7228f2d"; "1517841905240-472988babdf9";
      "1500648767791-00dcc994a43e"; "1494790108755-2616c6106db4";
      "1438761681033-6461ffad8d80"]%string);
   (py "people_sad", map unsplash
     ["1494790108755-2616c6106db4"; "1507003211169-0a1dd7228f2d";
      "1517841905240-472988babdf9"; "1500648767791-00dcc994a43e";
      "1438761681033-6461ffad8d80"]%string);
   (py "people_love", map unsplash
     ["1516589178581-6cd7833ae3b2"; "1518568814500-bf0f8d125f46";
      "1507003211169-0a1dd7228f2d"; "1517841905240-472988babdf9";
      "1500648767791-00dcc994a43e"]%string);
   (py "people_friendship", map unsplash
     ["1529156069898-49953e39b3ac"; "1507003211169-0a1dd7228f2d";
      "1517841905240-472988babdf9"; "1500648767791-00dcc994a43e";
      "1494790108755-2616c6106db4"]%string);
   (py "people_family", map unsplash
     ["1511895426328-dc8714191300"; "1507003211169-0a1dd7228f2d";
      "1517841905240-472988babdf9"; "1500648767791-00dcc994a43e";
      "1494790108755-2616c6106db4"]%string);
   (py "life_home", map unsplash
     ["1586023492125-27b2c045efd7"; "1560448204-e02f11c3d0e2";
      "1556909114-f6e7ad7d3136"; "1484154218962-a197022b5858";
      "1493809842364-78817add7ffb"]%string);
   (py "life_work", map unsplash
     ["1497032628192-86f99bcd76bc"; "1486312338219-ce68d2c6f44d";
      "1507003211169-0a1dd7228f2d"; "1517841905240-472988babdf9";
      "1500648767791-00dcc994a43e"]%string);
   (py "life_travel", map unsplash
     ["1488646953014-85cb44e25828"; "1506905925346-21bda4d32df4";
      "1464822759844-d150baec0494"; "1519904981063-b0cf448d479e";
      "1551632811-561732d1e306"]%string);
   (py "life_food", map unsplash
     ["1504674900247-0877df9cc836"; "1565299624946-b28f40a0ca4b";
      "1567620905732-2d1ec7ab7445"; "1540189549336-e6e99c3679fe";
      "1551782450-a2132b4ba21d"]%string);
   (py "life_reading", map unsplash
     ["1481627834876-b7833e8f5570"; "1507003211169-0a1dd7228f2d";
      "1517841905240-472988babdf9"; "1500648767791-00dcc994a43e";
      "1494790108755-2616c6106db4"]%string);
   (py "abstract_dream", map unsplash
     ["1506905925346-21bda4d32df4"; "1500382017468-9049fed747ef";
      "1519904981063-b0cf448d479e"; "1506197603052-3cc9c3a201bd";
      "1464822759844-d150baec0494"]%string);
   (py "abstract_memory", map unsplash
     ["1507003211169-0a1dd7228f2d"; "1517841905240-472988babdf9";
      "1500648767791-00dcc994a43e"; "1494790108755-2616c6106db4";
      "1438761681033-6461ffad8d80"]%string);
   (py "abstract_growth", map unsplash
     ["1490750967868-88aa4486c946"; "1518895949257-7621c3c786d7";
      "1463320726281-696a485928c7"; "1502082553048-f009c37129b9";
      "1507003211169-0a1dd7228f2d"]%string);
   (py "abstract_peace", map unsplash
     ["1506905925346-21bda4d32df4"; "1500382017468-9049fed747ef";
      "1519904981063-b0cf448d479e"; "1506197603052-3cc9c3a201bd";
      "1464822759844-d150baec0494"]%string);
   (py "abstract_emotion", map unsplash
     ["1507003211169-0a1dd7228f2d"; "1517841905240-472988babdf9";
      "1500648767791-00dcc994a43e"; "1494790108755-2616c6106db4";
      "1438761681033-6461ffad8d80"]%string);
   (py "season_spring", map unsplash
     ["1490750967868-88aa4486c946"; "1518895949257-7621c3c786d7";
      "1463320726281-696a485928c7"; "1502082553048-f009c37129b9";
      "1507003211169-0a1dd7228f2d"]%string);
   (py "season_summer", map unsplash
     ["1505142468610-359e7d316be0"; "1544551763-46a013bb70d5";
      "1507525428034-b723cf961d3e"; "1518837695005-2083093ee35b";
      "1439066615861-d1af74d74000"]%string);
   (py "season_autumn", map unsplash
     ["1441974231531-c6227db76b6e"; "1448375240586-882707db888b";
      "1518837695005-2083093ee35b"; "1506905925346-21bda4d32df4";
      "1511593358241-7eea1f3c84e5"]%string);
   (py "season_winter", map unsplash
     ["1578662996442-48f60103fc96"; "1547036967-23d11aacaee0";
      "1483664852095-d6cc6870702d"; "1506905925346-21bda4d32df4";
      "1464822759844-d150baec0494"]%string);
   (py "activity_sport", map unsplash
     ["1571019613454-1cb2f99b2d8b"; "1544367567-0f2fcb009e0b";
      "1507003211169-0a1dd7228f2d"; "1517841905240-472988babdf9";
      "1500648767791-00dcc994a43e"]%string);
   (py "activity_art", map unsplash
     ["1513475382585-d06e58bcb0e0"; "1507003211169-0a1dd7228f2d";
      "1517841905240-472988babdf9"; "1500648767791-00dcc994a43e";
      "1494790108755-2616c6106db4"]%string);
   (py "activity_relax", map unsplash
     ["1586023492125-27b2c045efd7"; "1560448204-e02f11c3d0e2";
      "1556909114-f6e7ad7d3136"; "1484154218962-a197022b5858";
      "1493809842364-78817add7ffb"]%string);
   (py "animal_cat", map unsplash
     ["1514888286974-6c03e2ca1dba"; "1533738363-b7f9aef128ce";
      "1574158622682-e40e69881006"; "1592194996308-7b43878e84a6";
      "1518791841217-8f162f1e1131"]%string);
   (py "animal_dog", map unsplash
     ["1552053831-71594a27632d"; "1587300003388-59208cc962cb";
      "1518717758536-85ae29035b6d"; "1583337130417-3346a1be7dee";
      "1561037404-61cd46aa615b"]%string);
   (py "animal_bird", map unsplash
     ["1444464666168-49d633b86797"; "1520637836862-4d197d17c55a";
      "1506905925346-21bda4d32df4"; "1464822759844-d150baec0494";
      "1519904981063-b0cf448d479e"]%string);
   (py "animal_wild", map unsplash
     ["1474511320723-9a56873867b5"; "1558618666-fcd25c85cd64";
      "1506905925346-21bda4d32df4"; "1464822759844-d150baec0494";
      "1519904981063-b0cf448d479e"]%string)].

Definition scene_keywords : list (str * list str) :=
  [(py "nature_mountain", map py ["山"; "山峰"; "山脉"; "高山"; "雪山"; "峰峦"; "登山"; "徒步"]%string);
   (py "nature_ocean", map py ["海"; "海洋"; "海滩"; "海岸"; "波浪"; "海水"; "沙滩"; "海边"]%string);
   (py "nature_forest", map py ["森林"; "树林"; "树木"; "绿色"; "叶子"; "植物"; "自然"]%string);
   (py "nature_flower", map py ["花"; "花朵"; "花园"; "鲜花"; "花瓣"; "盛开"; "绽放"]%string);
   (py "nature_sky", map py ["天空"; "云"; "云朵"; "蓝天"; "白云"; "晴空"; "天际"]%string);
   (py "city_modern", map py ["城市"; "建筑"; "高楼"; "现代"; "都市"; "摩天大楼"]%string);
   (py "city_street", map py ["街道"; "马路"; "街景"; "商店"; "行人"; "车辆"]%string);
   (py "lifestyle_food", map py ["食物"; "美食"; "餐厅"; "菜品"; "料理"; "烹饪"]%string);
   (py "lifestyle_travel", map py ["旅行"; "旅游"; "景点"; "度假"; "探索"; "冒险"]%string);
   (py "lifestyle_fashion", map py ["时尚"; "服装"; "穿搭"; "风格"; "潮流"; "搭配"]%string);
   (py "animal_pet", map py ["宠物"; "猫"; "狗"; "动物"; "可爱"; "毛茸茸"]%string);
   (py "animal_bird", map py ["鸟"; "小鸟"; "飞鸟"; "翅膀"; "飞翔"; "羽毛"]%string);
   (py "animal_wild", map py ["野生动物"; "兔子"; "松鼠"; "蝴蝶"; "昆虫"; "野生"]%string)].

Definition emotion_keywords : list (str * list str) :=
  [(py "温暖", map py ["温暖"; "温馨"; "舒适"; "柔和"; "亲切"]%string);
   (py "宁静", map py ["宁静"; "安静"; "平静"; "祥和"; "静谧"]%string);
   (py "活力", map py ["活力"; "生机"; "充满"; "活跃"; "动感"]%string);
   (py "浪漫", map py ["浪漫"; "唯美"; "梦幻"; "美丽"; "优雅"]%string);
   (py "神秘", map py ["神秘"; "深邃"; "朦胧"; "幽深"; "隐秘"]%string);
   (py "壮观", map py ["壮观"; "雄伟"; "壮丽"; "震撼"; "宏伟"]%string)].

Definition element_keywords : list str :=
  map py ["颜色"; "光线"; "阴影"; "纹理"; "形状"; "线条"; "构图"; "透视"; "对比"; "明暗"]%string.

(** [d[key]] with a fallback for a missing key. *)
Fixpoint lookup {A : Type} (key : str) (d : list (str * A)) : option A :=
  match d with
  | [] => None
  | (k, v) :: rest => if str_eqb key k then Some v else lookup key rest
  end.

(** The result of [_analyze_ai_description]. *)
Record analysis : Type := {
  scene_type : str;
  dominant_emotion : str;
  visual_elements : list str
}.

(** Conversion of a small non-negative [int] to [float]. *)
Definition float_of_int (z : Z) : float := PrimFloat.of_uint63 (Uint63.of_Z z).

(** The binary64 values of the literals 0.4, 0.3, 0.2 and 0.1. *)
Definition f0_4 : float := 0x1.999999999999ap-2%float.
Definition f0_3 : float := 0x1.3333333333333p-2%float.
Definition f0_2 : float := 0x1.999999999999ap-3%float.
Definition f0_1 : float := 0x1.999999999999ap-4%float.

(** Index of the first element that satisfies [f]. *)
Fixpoint index_where {A : Type} (f : A -> bool) (l : list A) (i : nat)
  : option nat :=
  match l with
  | [] => None
  | x :: rest => if f x then Some i else index_where f rest (S i)
  end.

(** [' '.join(words[max(0, i - 2):min(len(words), i + 3)])] *)
Definition context_at (words : list str) (i : nat) : str :=
  join (py " ") (slice words (i - 2) (Nat.min (List.length words) (i + 3))).

(** [max(items, key=lambda x: x[1])]: the first item with the greatest key. *)
Definition max_by_score (first : str * float) (rest : list (str * float))
  : str * float :=
  fold_left (fun best x => if PrimFloat.ltb (snd best) (snd x) then x else best)
    rest first.

Section Matcher.

(** [str.lower] of the Python runtime (full Unicode lower-casing). *)
Variable lower : str -> str.

(** The first scene (respectively emotion) one of whose keywords occurs in
    the prompt; both loops stop at the first hit. *)
Definition _analyze_ai_description (prompt_text : str) : analysis :=
  {| scene_type :=
       match List.find (fun '(_, kws) => any_in kws prompt_text) scene_keywords with
       | Some (scene_type, _) => scene_type
       | None => py "general"
       end;
     dominant_emotion :=
       match List.find (fun '(_, kws) => any_in kws prompt_text) emotion_keywords with
       | Some (emotion, _) => emotion
       | None => py "neutral"
       end;
     visual_elements :=
       filter (fun element => contains element prompt_text) element_keywords |}.

Definition _get_emotion_context (prompt_text emotion : str) : str :=
  let words := split_ws prompt_text in
  match index_where (contains emotion) words 0 with
  | Some i => context_at words i
  | None => []
  end.

Definition _get_intelligent_default_theme (prompt_text : str) : str :=
  if any_in (map py ["自然"; "风景"; "户外"; "天空"; "云"]%string) prompt_text
  then py "nature_sky"
  else if any_in (map py ["城市"; "建筑"; "现代"; "都市"]%string) prompt_text
  then py "city_modern"
  else if any_in (map py ["动物"; "宠物"; "可爱"]%string) prompt_text
  then py "animal_pet"
  else if any_in (map py ["食物"; "美食"; "料理"]%string) prompt_text
  then py "lifestyle_food"
  else py "nature_sky".

(** 1. keyword matching (lines 418-429) *)
Definition keyword_score (td : theme_data) (prompt_text : str) : Z :=
  fold_left
    (fun keyword_score keyword =>
       if contains keyword prompt_text then
         let keyword_score := keyword_score + 3 in
         let position := find prompt_text keyword in
         let keyword_score :=
           if PrimFloat.ltb (float_of_int position)
                (PrimFloat.mul (float_of_int (len prompt_text)) f0_3)
           then keyword_score + 1 else keyword_score in
         let frequency := count prompt_text keyword in
         keyword_score + Z.min (frequency - 1) 2
       else keyword_score)
    (keywords td) 0.

(** 2. semantic matching (lines 432-451) *)
Definition semantic_score (td : theme_data) (prompt_text : str) : Z :=
  fold_left
    (fun semantic_score semantic_word =>
       if contains semantic_word prompt_text then
         let semantic_score := semantic_score + 2 in
         let context_words := split_ws prompt_text in
         match index_where (contains semantic_word) context_words 0 with
         | Some word_index =>
           let context := context_at context_words word_index in
           if any_in (firstn 5 (keywords td)) context
           then semantic_score + 1 else semantic_score
         | None => semantic_score
         end
       else semantic_score)
    (semantic td) 0.

(** 3. emotion matching (lines 454-461) *)
Definition emotion_score (td : theme_data) (prompt_text : str) : Z :=
  fold_left
    (fun emotion_score emotion =>
       if contains emotion prompt_text then
         let emotion_score := emotion_score + 2 in
         if truthy (_get_emotion_context prompt_text emotion)
         then emotion_score + 1 else emotion_score
       else emotion_score)
    (emotions td) 0.

(** 4. bonus from the description analysis (lines 464-483) *)
Definition ai_analysis_score (theme : str) (td : theme_data) (a : analysis) : Z :=
  let s1 :=
    if existsb (fun scene_word => contains scene_word theme)
         (split (scene_type a) (py "_"))
    then 3 else 0 in
  let s2 := if mem_str (dominant_emotion a) (emotions td) then s1 + 2 else s1 in
  fold_left
    (fun score element =>
       if mem_str element (keywords td) || mem_str element (semantic td)
       then score + 1 else score)
    (visual_elements a) s2.

(** The weighted total (lines 486-491), in binary64 arithmetic. *)
Definition total_score (theme : str) (td : theme_data) (prompt_text : str)
  : float :=
  let a := _analyze_ai_description prompt_text in
  (float_of_int (keyword_score td prompt_text) * f0_4
   + float_of_int (semantic_score td prompt_text) * f0_3
   + float_of_int (emotion_score td prompt_text) * f0_2
   + float_of_int (ai_analysis_score theme td a) * f0_1)%float.

(** The dictionary [theme_scores] after the loop over the themes. *)
Definition theme_scores (prompt_text : str) : list (str * float) :=
  map (fun '(theme, td) => (theme, total_score theme td prompt_text))
    enhanced_theme_mapping.

(** Lines 499-507. *)
Definition selected_theme (prompt : str) : str :=
  let prompt_text := lower prompt in
  match theme_scores prompt_text with
  | first :: rest => fst (max_by_score first rest)
  | [] => _get_intelligent_default_theme prompt_text
  end.

(** Lines 781-785. *)
Definition theme_images (prompt : str) : list str :=
  match lookup (selected_theme prompt) xiaohongshu_images with
  | Some images => images
  | None =>
    match lookup (py "nature_sky") xiaohongshu_images with
    | Some images => images
    | None => []
    end
  end.

(** [int(hashlib.md5(f"{prompt}_{segment_id}".encode('utf-8')).hexdigest(), 16)] *)
Definition hash_value (prompt : str) (segment_id : Z) : Z :=
  int_of_hex
    (MD5.hexdigest (encode_utf8 (prompt ++ py "_" ++ str_of_int segment_id))).

Definition _generate_demo_image (prompt : str) (segment_id : Z) : str :=
  let images := theme_images prompt in
  let image_index := hash_value prompt segment_id mod len images in
  nth (Z.to_nat image_index) images [].

End Matcher.

End ImageMatcher.

(* ===================================================================== *)
(** * Orchestrator and HTTP endpoints *)
(* ===================================================================== *)

Module Orchestrator.

Import Classifier.
Local Open Scope Z_scope.

Record TextSegment : Type := {
  id : Z;
  content : str;
  summary : str;
  image_prompt : str
}.

Record GeneratedImage : Type := {
  segment_id : Z;
  image_url : str;
  thumbnail_url : str;
  status : str
}.

Record TextAnalysisRequest : Type := {
  text : str;
  style_prompt : option str;
  max_segments : option Z
}.

Record TextAnalysisResponse : Type := {
  segments : list TextSegment;
  total_count : Z;
  estimated_time : Z
}.

(** What [client.images.generate] answers: an object with a non-empty
    [data], one with a non-empty [images], or neither.  The URL it carries
    is [None] when it is not a string. *)
Inductive response : Type :=
| RespData (url : option str)
| RespImages (url : option str)
| RespOther.

Definition completed : str := py "completed".
Definition failed : str := py "failed".

Section Effects.

(** State of the external collaborators (remote services, the raster
    library). *)
Variable World : Type.

(** A computation that may change the collaborators' state and may raise. *)
Definition M (A : Type) : Type := World -> result A * World.

Definition ret {A : Type} (a : A) : M A := fun w => (Ok a, w).

Definition raise {A : Type} (e : exn) : M A := fun w => (Raise e, w).

Definition bind {A B : Type} (m : M A) (k : A -> M B) : M B :=
  fun w =>
    match m w with
    | (Ok a, w') => k a w'
    | (Raise e, w') => (Raise e, w')
    end.

(** [try: m except Exception as e: h e] *)
Definition try_except {A : Type} (m : M A) (h : exn -> M A) : M A :=
  fun w =>
    match m w with
    | (Ok a, w') => (Ok a, w')
    | (Raise e, w') => h e w'
    end.

Notation "x <- m ;; k" := (bind m (fun x => k))
  (at level 61, m at next level, right associativity).

(** [str.lower] of the runtime. *)
Variable lower : str -> str.

(** The global [client] is set. *)
Variable client : bool.

(** [self.service_type] and whether the key of each backend is configured. *)
Variable service_type : str.
Variables openai_ready baidu_ready ali_ready : bool.

(** The remote image backends. *)
Variable images_generate : str -> M response.
Variables _generate_with_volcano _generate_with_openai
          _generate_with_baidu _generate_with_ali : str -> M str.

(** The raster pipeline of [compose_image_text] (lines 906-1027). *)
Variable render : str -> str -> str -> M str.

(** Lines 1270-1358 of [analyze_text_with_doubao]: the request to the
    language model and the conversion of its JSON answer. *)
Variable doubao_segments : list str -> str -> str -> M (list TextSegment).

(** [str(e)] of an exception. *)
Variable str_of_exn : exn -> str.

Definition _generate_demo_image (prompt : str) (segment_id : Z) : M str :=
  ret (ImageMatcher._generate_demo_image lower prompt segment_id).

Definition generate_image (prompt : str) (segment_id : Z) : M str :=
  try_except
    (if str_eqb service_type (py "volcano") && client
     then _generate_with_volcano prompt
     else if str_eqb service_type (py "openai") && openai_ready
     then _generate_with_openai prompt
     else if str_eqb service_type (py "baidu") && baidu_ready
     then _generate_with_baidu prompt
     else if str_eqb service_type (py "ali") && ali_ready
     then _generate_with_ali prompt
     else _generate_demo_image prompt segment_id)
    (fun _ => _generate_demo_image prompt segment_id).

Definition compose_image_text (image_url text summary : str) : M str :=
  try_except (render image_url text summary) (fun _ => ret image_url).

(** [GeneratedImage(...)]: validation refuses a URL that is not a string. *)
Definition new_image (segment_id : Z) (url thumbnail : option str) (status : str)
  : M GeneratedImage :=
  match url, thumbnail with
  | Some u, Some t =>
    ret {| segment_id := segment_id; image_url := u; thumbnail_url := t;
           status := status |}
  | _, _ => raise (ExternalError (py "ValidationError"))
  end.

(** [f"https://picsum.photos/{size}?random={n}"] *)
Definition picsum (size : string) (n : Z) : str :=
  py "https://picsum.photos/" ++ py size ++ py "?random=" ++ str_of_int n.

(** The placeholder appended when a segment failed. *)
Definition failed_image (segment : TextSegment) (offset : Z) : GeneratedImage :=
  {| segment_id := id segment;
     image_url := picsum "600/800" (id segment + offset);
     thumbnail_url := picsum "150/200" (id segment + offset);
     status := failed |}.

(** What the batch holds for one segment: its id, and either a completed
    image or the failure placeholder. *)
Definition image_of_segment (segment : TextSegment) (image : GeneratedImage)
  : Prop :=
  segment_id image = id segment
  /\ (status image = completed
      \/ image = failed_image segment 100 \/ image = failed_image segment 200).

(** The body of the outer [try] for one segment (lines 2137-2211): the
    image it appends. *)
Definition image_for (segment : TextSegment) (style_prompt : str)
  : M GeneratedImage :=
  if client then
    let combined_prompt := style_prompt ++ py ", " ++ image_prompt segment in
    response <- images_generate combined_prompt ;;
    match response with
    | RespData url => new_image (id segment) url url completed
    | RespImages url => new_image (id segment) url url completed
    | RespOther => ret (failed_image segment 100)
    end
  else
    let image_prompt :=
      if truthy (image_prompt segment) then image_prompt segment
      else style_prompt ++ py "，" ++ firstn 100 (content segment) ++ py "..." in
    try_except
      (original_image_url <- generate_image image_prompt (id segment) ;;
       composed_image_url <-
         compose_image_text original_image_url (content segment)
           (summary segment) ;;
       new_image (id segment) (Some composed_image_url)
         (Some composed_image_url) completed)
      (fun _ =>
         fallback_url <- _generate_demo_image image_prompt (id segment) ;;
         new_image (id segment) (Some fallback_url) (Some fallback_url)
           completed).

(** The loop of [generate_images_with_seedream] from a given [images]. *)
Fixpoint images_loop (segments : list TextSegment) (style_prompt : str)
  (images : list GeneratedImage) : M (list GeneratedImage) :=
  match segments with
  | [] => ret images
  | segment :: rest =>
    image <- try_except (image_for segment style_prompt)
               (fun _ => ret (failed_image segment 200)) ;;
    images_loop rest style_prompt (images ++ [image])
  end.

Definition generate_images_with_seedream (segments : list TextSegment)
  (style_prompt : str) : M (list GeneratedImage) :=
  images_loop segments style_prompt [].

(** ** Text analysis *)

Definition _generate_local_summary (text : str) (segment_id : Z) (text_type : str)
  : str :=
  let key_phrases :=
    if str_eqb text_type narrative then
      filter (fun kw => contains kw text)
        (map py ["故事"; "情节"; "人物"; "场景"; "情感"; "经历"; "遇到"; "发生"]%string)
    else if str_eqb text_type argumentative then
      filter (fun kw => contains kw text)
        (map py ["观点"; "论证"; "分析"; "认为"; "因为"; "所以"; "结论"]%string)
    else
      filter (fun kw => contains kw text)
        (map py ["介绍"; "说明"; "特点"; "功能"; "方法"; "原理"; "结构"]%string) in
  match key_phrases with
  | phrase :: _ =>
    py "第" ++ str_of_int segment_id ++ py "段：" ++ phrase ++ py "相关内容"
  | [] => py "第" ++ str_of_int segment_id ++ py "段内容摘要"
  end.

(** The local segments (lines 1254-1267 and 1369-1381):
    [enumerate(raw_segments)] from index [i]. *)
Fixpoint local_segments (raw_segments : list str) (i : Z)
  (style_prompt text_type : str) : list TextSegment :=
  match raw_segments with
  | [] => []
  | segment_text :: rest =>
    {| id := i + 1;
       content := segment_text;
       summary := _generate_local_summary segment_text (i + 1) text_type;
       image_prompt :=
         Composer._generate_xiaohongshu_prompt segment_text style_prompt
           text_type |}
    :: local_segments rest (i + 1) style_prompt text_type
  end.

Definition analyze_text_with_doubao (text style_prompt : str)
  : M (list TextSegment) :=
  let text_type := _detect_text_type text in
  match Segmenter._smart_segment_text text text_type with
  | Raise e => raise e
  | Ok raw_segments =>
    if negb client
    then ret (local_segments raw_segments 0 style_prompt text_type)
    else
      try_except (doubao_segments raw_segments text_type style_prompt)
        (fun _ => ret (local_segments raw_segments 0 style_prompt text_type))
  end.

(** [POST /api/analyze-text] over an analysis service [analysis]. *)
Definition analyze_text_with (analysis : str -> str -> M (list TextSegment))
  (request : TextAnalysisRequest) : M TextAnalysisResponse :=
  try_except
    (_ <- (if len (strip (text request)) =? 0
           then raise (HTTPException 400 (py "文本内容不能为空"))
           else ret tt) ;;
     _ <- (if len (text request) >? 10000
           then raise (HTTPException 400 (py "文本长度不能超过10000字"))
           else ret tt) ;;
     segments <-
       analysis (text request)
         (match style_prompt request with
          | Some s => if truthy s then s else py "现代简约风格"
          | None => py "现代简约风格"
          end) ;;
     let segments :=
       match max_segments request with
       | Some n =>
         if negb (n =? 0) && (len segments >? n)
         then (if n <? 0 then firstn (List.length segments - Z.to_nat (- n)) segments
               else firstn (Z.to_nat n) segments)
         else segments
       | None => segments
       end in
     ret {| segments := segments;
            total_count := len segments;
            estimated_time := len segments * 30 |})
    (fun e => raise (HTTPException 500 (py "文本分析失败: " ++ str_of_exn e))).

Definition analyze_text : TextAnalysisRequest -> M TextAnalysisResponse :=
  analyze_text_with analyze_text_with_doubao.

(** ** Image generation endpoint *)

(** [ImageGenerationRequest] and [ImageGenerationResponse]; the fields
    [segments], [style_prompt] and [total_count] of the source carry the
    prefix [gen_] here, the names being taken by the analysis records. *)
Record ImageGenerationRequest : Type := {
  gen_segments : list TextSegment;
  gen_style_prompt : str;
  image_size : str
}.

Record ImageGenerationResponse : Type := {
  images : list GeneratedImage;
  batch_id : str;
  gen_total_count : Z
}.

(** [str(uuid.uuid4())]: an identifier drawn from the system's random
    source. *)
Variable uuid4 : World -> str * World.

(** [POST /api/generate-images] (lines 2263-2287). *)
Definition generate_images (request : ImageGenerationRequest)
  : M ImageGenerationResponse :=
  try_except
    (_ <- (match gen_segments request with
           | [] => raise (HTTPException 400 (py "文本段落不能为空"))
           | _ :: _ => ret tt
           end) ;;
     batch_id <- (fun w => let (u, w') := uuid4 w in (Ok u, w')) ;;
     images <-
       generate_images_with_seedream (gen_segments request)
         (gen_style_prompt request) ;;
     ret {| images := images;
            batch_id := batch_id;
            gen_total_count := len images |})
    (fun e => raise (HTTPException 500 (py "图片生成失败: " ++ str_of_exn e))).



End Effects.

End Orchestrator.

(* ===================================================================== *)
(** * Invariant of the Segmenter's paragraph loops *)
(* ===================================================================== *)

Module SegmenterInvariant.

Import Segmenter.

(** [c] is a trimmed contiguous piece of [text]. *)
Definition piece_of (text c : str) : Prop := substring c text /\ strip c = c.

(** [current_segment] is the last paragraphs read, joined as they were in
    the text. *)
Definition tail_of (done : list str) (current_segment : str) : Prop :=
  exists p q, done = p ++ q /\ current_segment = join nn q.

(** Loop state after the paragraphs [done]. *)
Definition pieces (done : list str) (st : loop_state) : Prop :=
  Forall (piece_of (join nn done)) (fst st) /\ tail_of done (snd st).

End SegmenterInvariant.

(* ===================================================================== *)
(** * ImageComposer: [_wrap_text] *)
(* ===================================================================== *)

Module Wrapper.

Import Segmenter.
Local Open Scope Z_scope.

(** [s.replace(old, new)] for a one-character [old]. *)
Definition replace_char (old : char) (new : str) (s : str) : str :=
  flat_map (fun c => if (c =? old)%N then new else [c]) s.

(** The line break ["\n"]. *)
Definition newline : str := [10%N].

(** [text.replace('。', '。\n').replace('！', '！\n').replace('？', '？\n')
    .split('\n')] *)
Definition sentences_of (text : str) : list str :=
  split
    (replace_char 0xFF1F%N (py "？" ++ newline)
       (replace_char 0xFF01%N (py "！" ++ newline)
          (replace_char 0x3002%N (py "。" ++ newline) text)))
    newline.

Section Wrap.

(** [bbox[2] - bbox[0]] of [draw.textbbox((0, 0), line, font=font)]: the
    width of a line in the loaded font. *)
Variable width : str -> Z.

Variable max_width : Z.

(** State of the loops: [lines] and [current_line]. *)
Definition wrap_state : Type := (list str * str)%type.

(** Body of the loop over the characters of a long sentence
    (lines 1104-1114). *)
Definition word_step (st : wrap_state) (word : char) : wrap_state :=
  let '(lines, current_line) := st in
  let test_line := current_line ++ [word] in
  if width test_line <=? max_width then (lines, test_line)
  else ((if truthy current_line then lines ++ [current_line] else lines),
        [word]).

(** Body of the loop over the sentences (lines 1083-1116). *)
Definition sentence_step (st : wrap_state) (sentence : str) : wrap_state :=
  let '(lines, current_line) := st in
  let sentence := strip sentence in
  if negb (truthy sentence) then (lines, current_line)
  else
    let test_line := current_line ++ sentence in
    if width test_line <=? max_width then (lines, test_line)
    else
      let lines := append_if_nonblank lines current_line in
      if len sentence >? 20 then fold_left word_step sentence (lines, [])
      else (lines, sentence).

Definition _wrap_text (text : str) : list str :=
  let '(lines, current_line) :=
    fold_left sentence_step (sentences_of text) ([], []) in
  append_if_nonblank lines current_line.

End Wrap.

End Wrapper.

(* ===================================================================== *)
(** * ContentAnalyzer: [_analyze_text_content] *)
(* ===================================================================== *)

Module ContentAnalyzer.

Local Open Scope Z_scope.

(** The dictionary [analysis]. *)
Record analysis : Type := {
  main_theme : str;
  key_objects : list str;
  actions : list str;
  emotions : list str;
  settings : list str;
  colors : list str;
  time_context : str;
  specific_details : list str
}.

Definition theme_keywords : list (str * list str) :=
  [(py "自然风光",
    map py ["山"; "海"; "湖"; "河"; "森林"; "树"; "花"; "草"; "天空"; "云"; "阳光"; "月亮"; "星星"; "雨"; "雪"; "风景"; "自然"; "户外"]%string);
   (py "都市生活",
    map py ["城市"; "街道"; "建筑"; "高楼"; "商店"; "咖啡厅"; "餐厅"; "办公室"; "地铁"; "公交"; "车"; "马路"; "灯光"; "夜景"]%string);
   (py "人物情感",
    map py ["人"; "女孩"; "男孩"; "朋友"; "家人"; "恋人"; "孩子"; "老人"; "微笑"; "拥抱"; "眼神"; "表情"; "手势"]%string);
   (py "学习工作",
    map py ["学习"; "工作"; "书"; "笔"; "电脑"; "手机"; "办公"; "会议"; "思考"; "写作"; "阅读"; "研究"; "项目"]%string);
   (py "美食生活",
    map py ["食物"; "美食"; "咖啡"; "茶"; "蛋糕"; "面包"; "水果"; "蔬菜"; "料理"; "烹饪"; "餐具"; "厨房"; "味道"]%string);
   (py "旅行探索",
    map py ["旅行"; "旅游"; "探索"; "冒险"; "路"; "地图"; "背包"; "相机"; "景点"; "文化"; "体验"; "发现"]%string);
   (py "艺术创作",
    map py ["艺术"; "画"; "音乐"; "创作"; "设计"; "色彩"; "线条"; "构图"; "灵感"; "美感"; "创意"; "表达"]%string);
   (py "运动健康",
    map py ["运动"; "健身"; "跑步"; "游泳"; "瑜伽"; "健康"; "活力"; "汗水"; "坚持"; "挑战"; "目标"; "成就"]%string)].

Definition emotion_keywords : list (str * list str) :=
  [(py "温暖治愈",
    map py ["温暖"; "治愈"; "舒适"; "安心"; "放松"; "宁静"; "平和"; "柔和"; "温馨"; "甜蜜"]%string);
   (py "活力阳光",
    map py ["活力"; "阳光"; "开心"; "快乐"; "兴奋"; "充满"; "生机"; "活跃"; "明亮"; "积极"]%string);
   (py "深沉思考",
    map py ["思考"; "深沉"; "沉思"; "理性"; "智慧"; "哲学"; "内省"; "冥想"; "专注"; "严肃"]%string);
   (py "浪漫唯美",
    map py ["浪漫"; "唯美"; "梦幻"; "美丽"; "优雅"; "诗意"; "柔美"; "迷人"; "动人"; "醉人"]%string);
   (py "忧郁深邃",
    map py ["忧郁"; "深邃"; "孤独"; "思念"; "怀念"; "伤感"; "惆怅"; "沉重"; "复杂"; "细腻"]%string)].

Definition setting_keywords : list (str * list str) :=
  [(py "室内",
    map py ["房间"; "家"; "客厅"; "卧室"; "厨房"; "书房"; "办公室"; "教室"; "图书馆"; "咖啡厅"; "餐厅"]%string);
   (py "室外",
    map py ["公园"; "街道"; "广场"; "海边"; "山上"; "森林"; "花园"; "阳台"; "天台"; "操场"; "田野"]%string);
   (py "特殊场所",
    map py ["学校"; "医院"; "商场"; "机场"; "车站"; "博物馆"; "剧院"; "体育馆"; "工厂"; "农场"]%string)].

Definition time_keywords : list (str * list str) :=
  [(py "早晨",
    map py ["早晨"; "清晨"; "黎明"; "日出"; "晨光"; "朝阳"]%string);
   (py "白天",
    map py ["白天"; "中午"; "下午"; "阳光"; "明亮"; "日光"]%string);
   (py "傍晚",
    map py ["傍晚"; "黄昏"; "夕阳"; "日落"; "余晖"; "暮色"]%string);
   (py "夜晚",
    map py ["夜晚"; "深夜"; "月光"; "星光"; "灯火"; "夜色"]%string)].

Definition color_keywords : list str :=
  map py ["红"; "橙"; "黄"; "绿"; "蓝"; "紫"; "粉"; "白"; "黑"; "灰"; "金"; "银"; "彩色"; "鲜艳"; "柔和"; "明亮"; "暗淡"]%string.

(** [sum(1 for keyword in keywords if keyword in text)] *)
Definition score (keywords : list str) (text : str) : Z :=
  len (filter (fun keyword => contains keyword text) keywords).

(** The dictionary [theme_scores]: the themes with a positive score, in
    the order of [theme_keywords]. *)
Definition theme_scores (text : str) : list (str * Z) :=
  filter (fun '(_, score) => score >? 0)
    (map (fun '(theme, keywords) => (theme, score keywords text)) theme_keywords).

(** [max(items, key=lambda x: x[1])]: the first item with the greatest key. *)
Definition max_by_score (first : str * Z) (rest : list (str * Z)) : str * Z :=
  fold_left (fun best x => if snd best <? snd x then x else best) rest first.

(** The loop that fills [key_objects] (lines 1956-1959). *)
Definition collect_key_objects (text : str) : list str :=
  fold_left
    (fun key_objects keyword =>
       if contains keyword text && negb (mem_str keyword key_objects)
       then key_objects ++ [keyword] else key_objects)
    (List.concat (map snd theme_keywords)) [].

Definition _analyze_text_content (text : str) : analysis :=
  {| main_theme :=
       match theme_scores text with
       | first :: rest => fst (max_by_score first rest)
       | [] => []
       end;
     key_objects := collect_key_objects text;
     actions := [];
     emotions :=
       map fst (filter (fun '(_, keywords) => any_in keywords text) emotion_keywords);
     settings :=
       map fst (filter (fun '(_, keywords) => any_in keywords text) setting_keywords);
     colors := filter (fun color => contains color text) color_keywords;
     time_context :=
       match List.find (fun '(_, keywords) => any_in keywords text) time_keywords with
       | Some (time_period, _) => time_period
       | None => []
       end;
     specific_details :=
       map (fun sentence => firstn 30 (strip sentence))
         (filter (fun sentence => len (strip sentence) >? 10)
            (firstn 3 (split text (py "。")))) |}.

End ContentAnalyzer.

(* ===================================================================== *)
(** * The JSON part of the language model's answer *)
(* ===================================================================== *)

Module JsonAnswer.

Local Open Scope Z_scope.

(** [s.find(sub, start)] for [0 <= start]. *)
Definition find_at (s sub : str) (start : nat) : Z :=
  find_from sub (skipn start s) (Z.of_nat start).

(** [s.rfind(sub)]: index of the last occurrence, [-1] when there is none. *)
Fixpoint rfind_go (sub s : str) (i best : Z) : Z :=
  let best := if prefix sub s then i else best in
  match s with
  | [] => best
  | _ :: t => rfind_go sub t (i + 1) best
  end.

Definition rfind (s sub : str) : Z := rfind_go sub s 0 (-1).

(** [s[a:b]] for [0 <= a] and any [b]: a negative [b] counts from the end. *)
Definition slice_to (s : str) (a : nat) (b : Z) : str :=
  if b <? 0 then slice s a (Z.to_nat (Z.max 0 (len s + b)))
  else slice s a (Z.to_nat b).

(** Lines 1331-1340 of [analyze_text_with_doubao]: the text handed to
    [json.loads]. *)
Definition json_content (response_content : str) : str :=
  if contains (py "```json") response_content then
    let json_start := find response_content (py "```json") + 7 in
    let json_end := find_at response_content (py "```") (Z.to_nat json_start) in
    strip (slice_to response_content (Z.to_nat json_start) json_end)
  else if contains (py "[") response_content
          && contains (py "]") response_content then
    let json_start := find response_content (py "[") in
    let json_end := rfind response_content (py "]") + 1 in
    slice response_content (Z.to_nat json_start) (Z.to_nat json_end)
  else response_content.

End JsonAnswer.

(* ===================================================================== *)
(** * Checks of the string and digest models *)
(* ===================================================================== *)

Example py_literal : py "山a" = [23665%N; 97%N].
Proof. reflexivity. Qed.

Example md5_empty :
  MD5.hexdigest [] = py "d41d8cd98f00b204e9800998ecf8427e".
Proof. vm_compute. reflexivity. Qed.

Example md5_abc :
  MD5.hexdigest (encode_utf8 (py "abc")) = py "900150983cd24fb0d6963f7d28e17f72".
Proof. vm_compute. reflexivity. Qed.

Example md5_two_blocks :
  MD5.hexdigest (encode_utf8 (py
    "12345678901234567890123456789012345678901234567890123456789012345678901234567890"))
  = py "57edf4a22be3c955ac49da2e2107b67a".
Proof. vm_compute. reflexivity. Qed.

(* ===================================================================== *)
(** * Facts about Python strings *)
(* ===================================================================== *)

Lemma str_eqb_eq (a b : str) : str_eqb a b = true <-> a = b.
Proof.
  revert b; induction a as [|x a IH]; intros [|y b]; simpl; split;
    try congruence; try reflexivity.
  - intros H. apply andb_true_iff in H as [H1 H2].
    apply N.eqb_eq in H1. apply IH in H2. congruence.
  - intros H. injection H as -> ->. rewrite N.eqb_refl. simpl.
    apply IH. reflexivity.
Qed.

Lemma str_eqb_refl (a : str) : str_eqb a a = true.
Proof. apply str_eqb_eq. reflexivity. Qed.


Lemma len_app {A : Type} (a b : list A) : len (a ++ b) = (len a + len b)%Z.
Proof. unfold len. rewrite length_app. lia. Qed.

(* ===================================================================== *)
(** * TextTypeClassifier *)
(* ===================================================================== *)

Section ClassifierFacts.

Import Classifier.
Local Open Scope Z_scope.

(** C2, counterexample: no keyword of any list occurs in ["abc"], all three
    scores are 0, and the classifier answers [narrative], not
    [descriptive]. *)
Lemma detect_text_type_all_zero_not_descriptive :
  score narrative_keywords (py "abc") = 0
  /\ score argumentative_keywords (py "abc") = 0
  /\ score descriptive_keywords (py "abc") = 0
  /\ _detect_text_type (py "abc") = narrative
  /\ _detect_text_type (py "abc") <> descriptive.
Proof.
  repeat split; try (vm_compute; reflexivity).
  vm_compute. discriminate.
Qed.

(** C2, amended: the classifier answers [narrative] whenever the narrative
    score is at least both others, in particular when all three scores are
    0; otherwise [argumentative] when that score is at least the
    descriptive one; and [descriptive] only when the descriptive score is
    strictly the greater of the latter two. *)
Theorem detect_text_type_tie_break (text : str) :
  let n := score narrative_keywords text in
  let a := score argumentative_keywords text in
  let d := score descriptive_keywords text in
  (n >= a /\ n >= d -> _detect_text_type text = narrative)
  /\ (~ (n >= a /\ n >= d) -> a >= d -> _detect_text_type text = argumentative)
  /\ (~ (n >= a /\ n >= d) -> a < d -> _detect_text_type text = descriptive)
  /\ (n = 0 /\ a = 0 /\ d = 0 -> _detect_text_type text = narrative).
Proof.
  intros n a d. unfold _detect_text_type. fold n a d.
  destruct (n >=? a) eqn:Hna; destruct (n >=? d) eqn:Hnd;
    destruct (a >=? d) eqn:Had; simpl;
    rewrite ?Z.geb_leb in *;
    repeat match goal with
           | H : (_ <=? _) = true |- _ => apply Z.leb_le in H
           | H : (_ <=? _) = false |- _ => apply Z.leb_gt in H
           end;
    repeat split; intros; try reflexivity; lia.
Qed.

(** The classifier answers one of the three tags for every text. *)
Lemma detect_text_type_total (text : str) :
  _detect_text_type text = narrative
  \/ _detect_text_type text = argumentative
  \/ _detect_text_type text = descriptive.
Proof.
  unfold _detect_text_type.
  destruct (_ && _); [now left|].
  destruct (_ >=? _); [right; now left|right; now right].
Qed.

End ClassifierFacts.

(* ===================================================================== *)
(** * ImageMatcher *)
(* ===================================================================== *)

Section ImageMatcherFacts.

Import ImageMatcher.
Local Open Scope Z_scope.






(** The first item wins when no later item has a strictly greater score. *)
Lemma max_by_score_all_zero (first : str * float) (rest : list (str * float)) :
  snd first = 0%float ->
  Forall (fun x => snd x = 0%float) rest ->
  max_by_score first rest = first.
Proof.
  unfold max_by_score. intros H0 HF. induction HF as [|x rest Hx _ IH]; simpl.
  - reflexivity.
  - rewrite H0, Hx.
    replace (PrimFloat.ltb 0 0) with false by reflexivity. exact IH.
Qed.

(** When every theme scores 0 the first theme of the table is selected. *)
Lemma selected_theme_all_zero (lower : str -> str) (prompt : str) :
  Forall (fun x => snd x = 0%float) (theme_scores (lower prompt)) ->
  selected_theme lower prompt = py "nature_mountain".
Proof.
  intros H. unfold selected_theme.
  assert (E : enhanced_theme_mapping
              = (py "nature_mountain", snd (hd (py "", Build_theme_data [] [] [])
                                             enhanced_theme_mapping))
                :: tl enhanced_theme_mapping) by reflexivity.
  unfold theme_scores in *. rewrite E in *. simpl map in *.
  inversion H as [|x l Hx Hl]; subst.
  rewrite max_by_score_all_zero; auto.
Qed.


(** C5, the code at a failing input: every theme scores 0 for the prompt
    ["abc"] (segment 1), the first theme of the table, [nature_mountain],
    is selected, and the URL returned is not in the [nature_sky] pool.  In
    general the first theme is selected whenever all themes score 0. *)
Theorem zero_scores_select_first_theme :
  Forall (fun x => snd x = 0%float) (theme_scores (ascii_lower (py "abc")))
  /\ selected_theme ascii_lower (py "abc") = py "nature_mountain"
  /\ _generate_demo_image ascii_lower (py "abc") 1
     = unsplash "1551632811-561732d1e306"
  /\ (forall pool, lookup (py "nature_sky") xiaohongshu_images = Some pool ->
        ~ In (_generate_demo_image ascii_lower (py "abc") 1) pool)
  /\ (forall lower prompt,
        Forall (fun x => snd x = 0%float) (theme_scores (lower prompt)) ->
        selected_theme lower prompt = py "nature_mountain").
Proof.
  assert (Z0 : Forall (fun x => snd x = 0%float)
                 (theme_scores (ascii_lower (py "abc")))).
  { assert (E : map snd (theme_scores (ascii_lower (py "abc")))
                = repeat 0%float 36) by (vm_compute; reflexivity).
    apply Forall_forall. intros x Hx.
    apply (in_map snd) in Hx. rewrite E in Hx.
    now apply repeat_spec in Hx. }
  split; [exact Z0|].
  split; [now apply selected_theme_all_zero|].
  assert (R : _generate_demo_image ascii_lower (py "abc") 1
              = unsplash "1551632811-561732d1e306") by (vm_compute; reflexivity).
  split; [exact R|].
  split; [|intros; now apply selected_theme_all_zero].
  intros pool Hp. rewrite R. vm_compute in Hp. injection Hp as <-.
  vm_compute. intros H.
  repeat (destruct H as [H|H]; [discriminate H|]). exact H.
Qed.

(** For the prompt 山 the theme [nature_mountain] has the greatest score
    and the image comes from its pool. *)
Lemma mountain_prompt_selects_mountain :
  selected_theme ascii_lower (py "山") = py "nature_mountain"
  /\ (forall theme score,
        In (theme, score) (theme_scores (ascii_lower (py "山"))) ->
        theme <> py "nature_mountain" ->
        PrimFloat.ltb score
          (total_score (py "nature_mountain")
             (snd (hd (py "", Build_theme_data [] [] []) enhanced_theme_mapping))
             (ascii_lower (py "山"))) = true)
  /\ exists pool,
      lookup (py "nature_mountain") xiaohongshu_images = Some pool
      /\ In (_generate_demo_image ascii_lower (py "山") 1) pool.
Proof.
  split; [vm_compute; reflexivity|]. split.
  - intros theme score H N.
    assert (F : forallb
                  (fun x => str_eqb (fst x) (py "nature_mountain")
                            || PrimFloat.ltb (snd x)
                                 (total_score (py "nature_mountain")
                                    (snd (hd (py "", Build_theme_data [] [] [])
                                            enhanced_theme_mapping))
                                    (ascii_lower (py "山"))))
                  (theme_scores (ascii_lower (py "山"))) = true)
      by (vm_compute; reflexivity).
    rewrite forallb_forall in F. specialize (F _ H). cbn [fst snd] in F.
    apply orb_true_iff in F as [F|F]; [|exact F].
    apply str_eqb_eq in F. contradiction.
  - eexists. split; [vm_compute; reflexivity|].
    vm_compute. tauto.
Qed.

End ImageMatcherFacts.

(* ===================================================================== *)
(** * StyleResolver *)
(* ===================================================================== *)

Section StyleFacts.

Import Classifier Composer.

(** The three sections agree when the caller gives no style of its own
    (an empty hint, or the default hint 现代简约风格). *)
Lemma styles_agree_without_hint (ci : core_info) (text_type style_prompt : str) :
  style_prompt = [] \/ style_prompt = py "现代简约风格" ->
  style_of_positioning ci text_type style_prompt = style_of_visual ci
  /\ style_of_details ci text_type = style_of_visual ci.
Proof.
  intros [-> | ->]; split; reflexivity.
Qed.

(** The hint 温馨治愈风格 resolves to the warm-healing template whatever the
    analysis of the segment holds. *)
Lemma warm_hint_resolves_warm_healing (ci : core_info) (text_type : str) :
  _determine_unified_style ci text_type (py "温馨治愈风格") = WarmHealing
  /\ base_style (STYLE_TEMPLATES
                   (_determine_unified_style ci text_type (py "温馨治愈风格")))
     = py "温馨治愈风格".
Proof. split; reflexivity. Qed.

(** C7, the code at a failing input: for the segment 周末和朋友去公园散步聊天
    and the style hint 温馨治愈风格, the 【风格定位】 section is built from the
    warm-healing template, while 【视觉元素】 and 【细节补充】 are built from the
    fresh-natural one: the two builders pass an empty hint to
    [_determine_unified_style]. *)
Theorem style_differs_between_sections :
  let text := py "周末和朋友去公园散步聊天" in
  let hint := py "温馨治愈风格" in
  let ci := _extract_article_core_info text in
  style_of_positioning ci narrative hint = WarmHealing
  /\ style_of_visual ci = FreshNatural
  /\ style_of_details ci narrative = FreshNatural
  /\ _generate_xiaohongshu_prompt text hint narrative
     = py "【风格定位】温馨治愈风格，温馨舒适，治愈感；【核心内容】周末和朋友去；【视觉元素】周末和朋友去公园散步聊天，自然氛围，清新色调，绿色，白色，浅蓝色，明亮自然光，清晨阳光；【排版要求】竖版构图9:16，小红书风格排版，清晰易读，视觉层次分明；【细节补充】高清摄影，专业构图，清爽质感，自然材质，视觉美感".
Proof.
  repeat split; vm_compute; reflexivity.
Qed.

End StyleFacts.

(* ===================================================================== *)
(** * Orchestrator and endpoints *)
(* ===================================================================== *)

Section OrchestratorFacts.

Import Orchestrator.
Local Open Scope Z_scope.

Variable World : Type.
Variable lower : str -> str.
Variable client : bool.
Variable service_type : str.
Variables openai_ready baidu_ready ali_ready : bool.
Variable images_generate : str -> M World response.
Variables _generate_with_volcano _generate_with_openai
          _generate_with_baidu _generate_with_ali : str -> M World str.
Variable render : str -> str -> str -> M World str.
Variable str_of_exn : exn -> str.

Local Abbreviation generate_image :=
  (generate_image lower client service_type openai_ready baidu_ready ali_ready
     _generate_with_volcano _generate_with_openai _generate_with_baidu
     _generate_with_ali).
Local Abbreviation image_for :=
  (image_for lower client service_type openai_ready baidu_ready ali_ready
     images_generate _generate_with_volcano _generate_with_openai
     _generate_with_baidu _generate_with_ali render).
Local Abbreviation images_loop :=
  (images_loop lower client service_type openai_ready baidu_ready ali_ready
     images_generate _generate_with_volcano _generate_with_openai
     _generate_with_baidu _generate_with_ali render).
Local Abbreviation generate_images_with_seedream :=
  (generate_images_with_seedream lower client service_type openai_ready
     baidu_ready ali_ready images_generate _generate_with_volcano
     _generate_with_openai _generate_with_baidu _generate_with_ali render).

Lemma generate_image_returns (c : bool) (prompt : str) (segment_id : Z)
  (w : World) :
  exists url w',
    Orchestrator.generate_image lower c service_type openai_ready baidu_ready
      ali_ready _generate_with_volcano _generate_with_openai
      _generate_with_baidu _generate_with_ali prompt segment_id w
    = (Ok url, w').
Proof.
  unfold Orchestrator.generate_image, try_except.
  match goal with |- context [match ?m w with _ => _ end] =>
    destruct (m w) as [[url|e] w'] end.
  - eauto.
  - unfold Orchestrator._generate_demo_image, ret. eauto.
Qed.

Lemma compose_image_text_returns (image_url text summary : str) (w : World) :
  exists url w', compose_image_text render image_url text summary w = (Ok url, w').
Proof.
  unfold compose_image_text, try_except.
  destruct (render image_url text summary w) as [[url|e] w']; unfold ret; eauto.
Qed.

(** Whatever the collaborators do, the body for one segment followed by the
    outer handler yields one image for that segment. *)
Lemma segment_always_yields_image (segment : TextSegment) (style_prompt : str)
  (w : World) :
  exists image w',
    try_except (image_for segment style_prompt)
      (fun _ => ret (failed_image segment 200)) w = (Ok image, w')
    /\ image_of_segment segment image.
Proof.
  unfold image_of_segment, try_except at 1, Orchestrator.image_for.
  destruct client.
  - unfold bind. destruct (images_generate _ w) as [[r|e] w1].
    + destruct r as [[u|]|[u|]|]; simpl; unfold ret, raise;
        eexists; eexists; (split; [reflexivity|]); simpl; auto.
    + unfold ret. eexists; eexists; (split; [reflexivity|]); simpl; auto.
  - unfold try_except, bind. cbv beta zeta.
    match goal with |- context [Orchestrator.generate_image _ ?c _ _ _ _ _ _ _ _ ?p ?i w] =>
      destruct (generate_image_returns c p i w) as (u1 & w1 & ->) end.
    match goal with |- context [compose_image_text render ?a ?b ?c w1] =>
      destruct (compose_image_text_returns a b c w1) as (u2 & w2 & ->) end.
    simpl. unfold ret.
    eexists; eexists; (split; [reflexivity|]); simpl; auto.
Qed.

Lemma images_loop_spec (segments : list TextSegment) (style_prompt : str) :
  forall (images : list GeneratedImage) (w : World),
  exists new w',
    images_loop segments style_prompt images w = (Ok (images ++ new), w')
    /\ Forall2 image_of_segment segments new.
Proof.
  induction segments as [|segment rest IH]; intros images w.
  - exists [], w. simpl. unfold ret. rewrite app_nil_r. split; constructor.
  - simpl. unfold bind at 1.
    destruct (segment_always_yields_image segment style_prompt w)
      as (image & w1 & -> & Himg).
    destruct (IH (images ++ [image]) w1) as (new & w2 & -> & Hnew).
    exists (image :: new), w2. rewrite <- app_assoc. simpl.
    split; [reflexivity|]. now constructor.
Qed.


(** C6, the code on invalid input: a text that is empty after trimming, or
    longer than 10000 characters, is rejected before the analysis service is
    called and with the collaborators' state untouched, but the rejection
    that reaches the caller has status 500: the [HTTPException] with status
    400 raised by the validation is caught by the endpoint's own
    [except Exception] and raised again as a server error. *)
Theorem invalid_text_answers_500
  (analysis : str -> str -> M World (list TextSegment))
  (request : TextAnalysisRequest) (w : World) :
  len (strip (text request)) = 0 \/ len (text request) > 10000 ->
  exists detail,
    analyze_text_with str_of_exn analysis request w
    = (Raise (HTTPException 500 detail), w).
Proof.
  intros H. unfold analyze_text_with, try_except, bind.
  destruct (len (strip (text request)) =? 0) eqn:E1.
  - unfold raise. eexists. reflexivity.
  - apply Z.eqb_neq in E1. destruct H as [H|H]; [contradiction|].
    unfold ret. apply Z.gtb_gt in H. rewrite H.
    unfold raise. eexists. reflexivity.
Qed.

End OrchestratorFacts.

(** C6, at the empty text. *)
Lemma invalid_text_answers_500_witness :
  exists detail,
    Orchestrator.analyze_text_with (fun _ => []) (fun _ _ => Orchestrator.ret [])
      {| Orchestrator.text := [];
         Orchestrator.style_prompt := None;
         Orchestrator.max_segments := None |} tt
    = (Raise (HTTPException 500 detail), tt).
Proof.
  apply (@invalid_text_answers_500 unit (fun _ => [])).
  left. reflexivity.
Defined.

(* ===================================================================== *)
(** * Segmenter *)
(* ===================================================================== *)

Section SegmenterFacts.

Import Classifier Segmenter.
Local Open Scope Z_scope.

(** ** Whitespace and trimming *)

Lemma nonws_app (a b : str) : nonws (a ++ b) = nonws a ++ nonws b.
Proof. apply filter_app. Qed.

Lemma nonws_cons (c : char) (s : str) : nonws (c :: s) = nonws [c] ++ nonws s.
Proof. apply (nonws_app [c] s). Qed.

Lemma nonws_rev (s : str) : nonws (rev s) = rev (nonws s).
Proof.
  induction s as [|c s IH]; simpl; [reflexivity|].
  rewrite nonws_app, IH. simpl. destruct (isspace c); simpl.
  - now rewrite app_nil_r.
  - reflexivity.
Qed.

Lemma nonws_lstrip (s : str) : nonws (lstrip s) = nonws s.
Proof.
  induction s as [|c s IH]; simpl; [reflexivity|].
  destruct (isspace c) eqn:E; simpl; rewrite ?E; simpl; auto.
Qed.

Lemma nonws_strip (s : str) : nonws (strip s) = nonws s.
Proof.
  unfold strip, rstrip.
  now rewrite nonws_rev, nonws_lstrip, nonws_rev, rev_involutive, nonws_lstrip.
Qed.

Lemma lstrip_nil (s : str) : lstrip s = [] <-> nonws s = [].
Proof.
  induction s as [|c s IH]; simpl; [tauto|].
  destruct (isspace c); simpl; [exact IH|]. split; discriminate.
Qed.

Lemma strip_nil (s : str) : strip s = [] <-> nonws s = [].
Proof.
  split; intros H.
  - rewrite <- nonws_strip, H. reflexivity.
  - unfold strip, rstrip.
    assert (E : lstrip s = []) by now apply lstrip_nil.
    rewrite E. reflexivity.
Qed.

Lemma truthy_strip (s : str) : truthy (strip s) = false <-> nonws s = [].
Proof.
  rewrite <- strip_nil. destruct (strip s); simpl; split; congruence.
Qed.

Lemma lstrip_no_space (s : str) :
  Forall (fun c => isspace c = false) s -> lstrip s = s.
Proof.
  intros H. destruct H as [|c s Hc _]; simpl; [reflexivity|]. now rewrite Hc.
Qed.

Lemma strip_no_space (s : str) :
  Forall (fun c => isspace c = false) s -> strip s = s.
Proof.
  intros H. unfold strip, rstrip. rewrite (lstrip_no_space H).
  rewrite lstrip_no_space; [apply rev_involutive|].
  apply Forall_rev. exact H.
Qed.

(** ** Substrings *)

Lemma prefix_In (p s : str) (c : char) :
  prefix p s = true -> In c p -> In c s.
Proof.
  revert s; induction p as [|x p IH]; intros [|y s]; simpl;
    try tauto; try discriminate.
  intros H [->|Hc]; apply andb_true_iff in H as [H1 H2].
  - apply N.eqb_eq in H1. now left.
  - right. now apply IH.
Qed.

Lemma contains_In (sub s : str) (c : char) :
  contains sub s = true -> In c sub -> In c s.
Proof.
  induction s as [|y s IH]; simpl; intros H Hc.
  - apply orb_true_iff in H as [H|H]; [|discriminate].
    destruct sub; [destruct Hc|discriminate].
  - apply orb_true_iff in H as [H|H].
    + change (In c (y :: s)). eapply prefix_In; eauto.
    + right. now apply IH.
Qed.

Lemma nonws_In (s : str) (c : char) :
  In c s -> isspace c = false -> nonws s <> [].
Proof.
  intros Hin Hc E.
  assert (H : In c (nonws s)) by (apply filter_In; now rewrite Hc).
  rewrite E in H. destruct H.
Qed.

(** ** Paragraphs *)

Lemma prefix_nn (c : char) (t : str) :
  prefix nn (c :: t) = true -> c = 10%N /\ exists t', t = 10%N :: t'.
Proof.
  unfold nn. cbn [prefix]. intros H.
  apply andb_true_iff in H as [Hc Ht]. apply N.eqb_eq in Hc.
  destruct t as [|d t']; [discriminate|].
  apply andb_true_iff in Ht as [Hd _]. apply N.eqb_eq in Hd.
  subst c d. split; [reflexivity|]. exists t'. reflexivity.
Qed.

Lemma nonws_split_go (s : str) :
  forall (skip : nat) (cur : str),
    (skip <= 1)%nat ->
    Forall (fun c => isspace c = true) (firstn skip s) ->
    nonws (List.concat (split_go nn s skip cur)) = nonws (rev cur) ++ nonws s.
Proof.
  induction s as [|c t IH]; intros skip cur Hs Hw.
  - cbn [split_go List.concat]. rewrite app_nil_r.
    change (nonws []) with (@nil char). now rewrite app_nil_r.
  - cbn [split_go]. destruct skip as [|k].
    + destruct (prefix nn (c :: t)) eqn:P.
      * change (List.length nn - 1)%nat with 1%nat.
        cbn [List.concat]. rewrite nonws_app.
        apply prefix_nn in P as [-> [t' ->]].
        rewrite IH; [reflexivity|simpl; lia|].
        simpl. constructor; [reflexivity|constructor].
      * rewrite IH; [|lia|constructor]. simpl rev. rewrite nonws_app.
        rewrite <- app_assoc, (nonws_cons c t). reflexivity.
    + assert (k = 0%nat) by lia. subst k.
      simpl in Hw. inversion Hw as [|? ? Hc _]; subst.
      rewrite IH; [|lia|constructor]. rewrite (nonws_cons c t).
      assert (E : nonws [c] = []) by (unfold nonws; simpl; now rewrite Hc).
      rewrite E. reflexivity.
Qed.

Lemma nonws_split (text : str) :
  nonws (List.concat (split text nn)) = nonws text.
Proof.
  unfold split. rewrite nonws_split_go; [reflexivity|lia|constructor].
Qed.

(** ** The paragraph loop keeps every non-whitespace character *)

Lemma concat_snoc (segments : list str) (x : str) :
  List.concat (segments ++ [x]) = List.concat segments ++ x.
Proof. rewrite concat_app. simpl. now rewrite app_nil_r. Qed.

Lemma held_flush (segments : list str) (cur : str) :
  nonws (List.concat (segments ++ [strip cur])) = nonws (List.concat segments) ++ nonws cur.
Proof. now rewrite concat_snoc, nonws_app, nonws_strip. Qed.

Lemma held_append_if_nonblank (segments : list str) (cur : str) :
  nonws (List.concat (append_if_nonblank segments cur))
  = nonws (List.concat segments) ++ nonws cur.
Proof.
  unfold append_if_nonblank. destruct (truthy (strip cur)) eqn:E.
  - apply held_flush.
  - apply truthy_strip in E. rewrite E. now rewrite app_nil_r.
Qed.

Lemma nonws_accumulate (cur para : str) :
  nonws (accumulate cur para) = nonws cur ++ nonws para.
Proof.
  unfold accumulate. destruct cur as [|c cur]; simpl truthy; cbv iota.
  - reflexivity.
  - now rewrite !nonws_app.
Qed.

Lemma narrative_step_held (st : loop_state) (para : str) :
  held (narrative_step st para) = held st ++ nonws para.
Proof.
  destruct st as [segments cur]. unfold narrative_step, held.
  destruct (len cur + len para >? 1200);
    match goal with |- context [existsb ?f ?l] => destruct (existsb f l) end;
    simpl fst; simpl snd;
    rewrite ?held_flush, ?held_append_if_nonblank, ?nonws_accumulate,
      <- ?app_assoc, ?app_nil_r; reflexivity.
Qed.

Lemma marker_step_held (markers : list str) (max_len : Z) (st : loop_state)
  (para : str) :
  held (marker_step markers max_len st para) = held st ++ nonws para.
Proof.
  destruct st as [segments cur]. unfold marker_step, held.
  destruct (any_in markers para && (len cur >? 600));
    match goal with |- context [if ?b then _ else _] => destruct b end;
    simpl fst; simpl snd;
    rewrite ?held_flush, ?held_append_if_nonblank, ?nonws_accumulate,
      <- ?app_assoc, ?app_nil_r; reflexivity.
Qed.

Lemma step_of_held (text_type : str) (st : loop_state) (para : str) :
  held (step_of text_type st para) = held st ++ nonws para.
Proof.
  unfold step_of.
  destruct (str_eqb text_type narrative); [apply narrative_step_held|].
  destruct (str_eqb text_type argumentative); apply marker_step_held.
Qed.

Lemma loop_held (text_type : str) (paragraphs : list str) :
  forall st,
    held (fold_left (step_of text_type) paragraphs st)
    = held st ++ nonws (List.concat paragraphs).
Proof.
  induction paragraphs as [|para rest IH]; intros st; simpl.
  - now rewrite app_nil_r.
  - rewrite IH, step_of_held, nonws_app, <- app_assoc. reflexivity.
Qed.

Lemma primary_segments_keep (text text_type : str) :
  nonws (List.concat (primary_segments text text_type)) = nonws text.
Proof.
  unfold primary_segments.
  pose proof (loop_held text_type (split text nn) ([], [])) as H.
  destruct (fold_left (step_of text_type) (split text nn) ([], []))
    as [segments cur].
  rewrite held_append_if_nonblank.
  unfold held in H. simpl in H. rewrite H. apply nonws_split.
Qed.

End SegmenterFacts.

Section SegmenterFallback.

Import Classifier Segmenter.
Local Open Scope Z_scope.

(** ** The equal-length fallback *)

Lemma append_if_nonblank_app (segments : list str) (x : str) :
  append_if_nonblank segments x
  = segments ++ filter truthy [strip x].
Proof.
  unfold append_if_nonblank. simpl. destruct (truthy (strip x)).
  - reflexivity.
  - now rewrite app_nil_r.
Qed.

Lemma fold_append_if_nonblank {I : Type} (f : I -> str) (l : list I) :
  forall acc,
    fold_left (fun segments i => append_if_nonblank segments (f i)) l acc
    = acc ++ filter truthy (map (fun i => strip (f i)) l).
Proof.
  induction l as [|i l IH]; intros acc; simpl fold_left.
  - simpl. now rewrite app_nil_r.
  - rewrite IH, append_if_nonblank_app, <- app_assoc.
    f_equal. simpl. destruct (truthy (strip (f i))); reflexivity.
Qed.

Lemma nonws_filter_strip (pieces : list str) :
  nonws (List.concat (filter truthy (map strip pieces)))
  = nonws (List.concat pieces).
Proof.
  induction pieces as [|p ps IH]; [reflexivity|].
  cbn [map filter List.concat]. rewrite nonws_app, <- IH.
  destruct (truthy (strip p)) eqn:E.
  - cbn [List.concat]. now rewrite nonws_app, nonws_strip.
  - apply truthy_strip in E. now rewrite E.
Qed.

Lemma filter_truthy_nonblank (pieces : list str) :
  Forall (fun c => nonws c <> []) (filter truthy (map strip pieces)).
Proof.
  apply Forall_forall. intros c Hc. apply filter_In in Hc as [Hin Ht].
  apply in_map_iff in Hin as (p & <- & _).
  rewrite nonws_strip. intros E. apply truthy_strip in E. congruence.
Qed.

Lemma slices_concat (n m : nat) :
  forall s : str,
    (List.length s <= m * n)%nat ->
    List.concat (map (fun k => firstn n (skipn (k * n) s)) (seq 0 m)) = s.
Proof.
  induction m as [|m IH]; intros s H.
  - destruct s; [reflexivity|simpl in H; lia].
  - cbn [seq map List.concat]. rewrite <- seq_shift, map_map.
    rewrite (map_ext _ (fun k => firstn n (skipn (k * n) (skipn n s)))).
    + rewrite IH; [apply firstn_skipn|]. rewrite length_skipn. lia.
    + intros k. rewrite skipn_skipn. f_equal. f_equal. lia.
Qed.

Lemma range0_covers (stop step : nat) :
  (0 < step)%nat ->
  (stop <= ((stop + step - 1) / step) * step)%nat.
Proof.
  intros H.
  pose proof (Nat.div_mod_eq (stop + step - 1) step) as E.
  pose proof (Nat.mod_upper_bound (stop + step - 1) step) as B.
  nia.
Qed.

Lemma fallback_slices (text : str) (n : nat) :
  (0 < n)%nat ->
  List.concat (map (fun i => slice text i (i + n)) (range0 (List.length text) n))
  = text.
Proof.
  intros H. unfold range0. rewrite map_map.
  rewrite (map_ext _ (fun k => firstn n (skipn (k * n) text))).
  - apply slices_concat. now apply range0_covers.
  - intros k. unfold slice. f_equal. lia.
Qed.

Lemma segment_length_positive (l : Z) :
  3 <= l -> 1 <= l / Z.min 5 (Z.max 3 (l / 800)).
Proof.
  intros H.
  assert (D : 800 * (l / 800) <= l) by (apply Z.mul_div_le; lia).
  apply Z.div_le_lower_bound; lia.
Qed.

(** From three characters on, the fallback returns: the trimmed non-blank
    slices, which hold every non-whitespace character of the text. *)
Lemma fallback_segments_keep (text : str) :
  3 <= len text ->
  exists chunks,
    fallback_segments text = Ok chunks
    /\ nonws (List.concat chunks) = nonws text
    /\ Forall (fun c => nonws c <> []) chunks.
Proof.
  intros H. unfold fallback_segments.
  pose proof (segment_length_positive H) as P.
  set (n := len text / Z.min 5 (Z.max 3 (len text / 800))) in *.
  destruct (n =? 0) eqn:E; [apply Z.eqb_eq in E; lia|].
  exists (filter truthy
            (map strip
               (map (fun i => slice text i (i + Z.to_nat n))
                  (range0 (List.length text) (Z.to_nat n))))).
  split; [|split].
  - f_equal. rewrite fold_append_if_nonblank. simpl app. rewrite map_map.
    unfold len. rewrite Nat2Z.id. reflexivity.
  - rewrite nonws_filter_strip, fallback_slices; [reflexivity|lia].
  - apply filter_truthy_nonblank.
Qed.

(** ** Narrative chunks are never blank *)

Lemma scene_markers_have_text (marker : str) :
  In marker scene_markers -> exists c, In c marker /\ isspace c = false.
Proof.
  intros H.
  assert (F : forallb (existsb (fun c => negb (isspace c))) scene_markers = true)
    by (vm_compute; reflexivity).
  rewrite forallb_forall in F. apply F in H.
  apply existsb_exists in H as (c & Hc & Hs).
  exists c. split; [exact Hc|]. now destruct (isspace c).
Qed.

Lemma accumulate_In (cur para : str) (c : char) :
  In c para -> In c (accumulate cur para).
Proof.
  unfold accumulate. destruct (truthy cur); [|tauto].
  intros H. apply in_or_app. right. apply in_or_app. now right.
Qed.

Lemma append_if_nonblank_nonblank (segments : list str) (cur : str) :
  Forall (fun c => nonws c <> []) segments ->
  Forall (fun c => nonws c <> []) (append_if_nonblank segments cur).
Proof.
  intros H. unfold append_if_nonblank.
  destruct (truthy (strip cur)) eqn:E; [|exact H].
  apply Forall_app. split; [exact H|]. constructor; [|constructor].
  rewrite nonws_strip. intros N. apply truthy_strip in N. congruence.
Qed.

Lemma existsb_and_const {A : Type} (f : A -> bool) (b : bool) (l : list A) :
  existsb (fun x => f x && b) l = existsb f l && b.
Proof.
  induction l as [|x l IH]; simpl; [reflexivity|].
  rewrite IH. destruct (f x), b, (existsb f l); reflexivity.
Qed.

(** The narrative loop body as two successive decisions: the length rule,
    then the marker rule on the state it leaves. *)
Lemma narrative_step_eq (segments : list str) (cur para : str) :
  narrative_step (segments, cur) para
  = let st1 := if len cur + len para >? 1200
               then (append_if_nonblank segments cur, para)
               else (segments, accumulate cur para) in
    if any_in scene_markers para && (len (snd st1) >? 500)
    then (fst st1 ++ [strip (snd st1)], [])
    else st1.
Proof.
  unfold narrative_step, any_in.
  destruct (len cur + len para >? 1200); cbv zeta; cbn [fst snd];
    rewrite existsb_and_const; reflexivity.
Qed.

Lemma narrative_step_nonblank (st : loop_state) (para : str) :
  Forall (fun c => nonws c <> []) (fst st) ->
  Forall (fun c => nonws c <> []) (fst (narrative_step st para)).
Proof.
  destruct st as [segments cur]. cbn [fst]. intros H.
  rewrite narrative_step_eq.
  set (st1 := if len cur + len para >? 1200
              then (append_if_nonblank segments cur, para)
              else (segments, accumulate cur para)).
  assert (H1 : Forall (fun c => nonws c <> []) (fst st1)
               /\ forall c, In c para -> In c (snd st1)).
  { subst st1. destruct (len cur + len para >? 1200); cbn [fst snd]; split; auto.
    - now apply append_if_nonblank_nonblank.
    - intros c. apply accumulate_In. }
  clearbody st1. destruct st1 as [segments1 cur1]. cbn [fst snd] in *.
  destruct H1 as [F1 I1]. cbv zeta.
  destruct (any_in scene_markers para) eqn:E; cbn [andb]; [|exact F1].
  destruct (len cur1 >? 500); cbn [fst]; [|exact F1].
  apply existsb_exists in E as (marker & Hm & Hc).
  destruct (scene_markers_have_text Hm) as (c & Hin & Hs).
  apply Forall_app. split; [exact F1|]. constructor; [|constructor].
  rewrite nonws_strip. eapply nonws_In; [|exact Hs].
  apply I1. eapply contains_In; eauto.
Qed.

Lemma narrative_loop_nonblank (paragraphs : list str) :
  forall st,
    Forall (fun c => nonws c <> []) (fst st) ->
    Forall (fun c => nonws c <> [])
      (fst (fold_left narrative_step paragraphs st)).
Proof.
  induction paragraphs as [|para rest IH]; intros st H; simpl; [exact H|].
  apply IH. now apply narrative_step_nonblank.
Qed.

Lemma narrative_primary_nonblank (text : str) :
  Forall (fun c => nonws c <> []) (primary_segments text narrative).
Proof.
  unfold primary_segments.
  change (step_of narrative) with narrative_step.
  pose proof (narrative_loop_nonblank (split text nn) ([], [])
                (Forall_nil _)) as H.
  destruct (fold_left narrative_step (split text nn) ([], []))
    as [segments cur].
  now apply append_if_nonblank_nonblank.
Qed.

End SegmenterFallback.

Section SegmenterClaims.

Import Classifier Segmenter.
Local Open Scope Z_scope.

(** The one-character text makes the fallback call [range] with step 0. *)
Example smart_segment_text_one_character :
  _smart_segment_text (py "a") narrative = Raise ValueError.
Proof. vm_compute. reflexivity. Qed.

(** In the argumentative loop a chunk of blanks longer than the bound is
    emitted as an empty chunk. *)
Example smart_segment_text_empty_chunk :
  _smart_segment_text (repeat 32%N 1501 ++ nn ++ py "x") argumentative
  = Ok [[]; py "x"].
Proof. vm_compute. reflexivity. Qed.

(** C1, counterexample: a text of 9622 characters in eight paragraphs of
    1201 letters each gives eight primary chunks, which the final
    [segments[:6]] cuts to six: the letters of the last two paragraphs are
    not in the result. *)
Lemma smart_segment_text_drops_chunks :
  1 <= len eight_long_paragraphs <= 10000
  /\ len (primary_segments eight_long_paragraphs narrative) = 8
  /\ ~ claimed_segmentation eight_long_paragraphs narrative.
Proof.
  split; [vm_compute; split; discriminate|].
  split; [vm_compute; reflexivity|].
  intros (chunks & E & _ & _ & H).
  assert (L : match _smart_segment_text eight_long_paragraphs narrative with
              | Ok l => len (nonws (List.concat (map strip l)))
              | Raise _ => 0
              end = 7206) by (vm_compute; reflexivity).
  assert (R : len (nonws eight_long_paragraphs) = 9608)
    by (vm_compute; reflexivity).
  rewrite E, H, R in L. discriminate L.
Qed.

(** C1, amended: for every text of at least 3 characters and every type
    tag the Segmenter returns normally, with the first six of the chunks it
    computed; the computed chunks hold every non-whitespace character of
    the text once and in order, so the result does whenever at most six
    were computed; a text with a non-whitespace character gives between 1
    and 6 chunks; and every chunk is non-empty after trimming for the
    narrative type and whenever the fallback slices are used. *)
Theorem smart_segment_text_keeps_text (text text_type : str) :
  3 <= len text ->
  exists chunks,
    _smart_segment_text text text_type = Ok (firstn 6 chunks)
    /\ nonws (List.concat chunks) = nonws text
    /\ (len chunks <= 6 -> nonws (List.concat (firstn 6 chunks)) = nonws text)
    /\ (nonws text <> [] -> 1 <= len (firstn 6 chunks) <= 6)
    /\ (text_type = narrative
        \/ len (primary_segments text text_type) < 2
        \/ len (primary_segments text text_type) > 8 ->
        Forall (fun c => strip c <> []) chunks).
Proof.
  intros H3.
  assert (G : exists chunks,
             _smart_segment_text text text_type = Ok (firstn 6 chunks)
             /\ nonws (List.concat chunks) = nonws text
             /\ (text_type = narrative
                 \/ len (primary_segments text text_type) < 2
                 \/ len (primary_segments text text_type) > 8 ->
                 Forall (fun c => nonws c <> []) chunks)).
  { unfold _smart_segment_text.
    destruct ((len (primary_segments text text_type) <? 2)
              || (len (primary_segments text text_type) >? 8)) eqn:C.
    - destruct (@fallback_segments_keep text H3) as (chunks & -> & K & F).
      exists chunks. auto.
    - exists (primary_segments text text_type).
      split; [reflexivity|]. split; [apply primary_segments_keep|].
      apply orb_false_iff in C as [C1 C2].
      apply Z.ltb_ge in C1. rewrite Z.gtb_ltb in C2. apply Z.ltb_ge in C2.
      intros [-> | [A | A]]; [apply narrative_primary_nonblank|lia|lia]. }
  destruct G as (chunks & E & K & F).
  exists chunks. split; [exact E|]. split; [exact K|].
  split; [|split].
  - intros L. rewrite firstn_all2; [exact K|]. unfold len in L. lia.
  - intros N. unfold len. pose proof (firstn_le_length 6 chunks) as B.
    split; [|lia].
    destruct chunks as [|c cs]; [now rewrite <- K in N|]. simpl. lia.
  - intros A. specialize (F A). eapply Forall_impl; [|exact F].
    intros c Hc S. apply strip_nil in S. contradiction.
Qed.

(** ** A 50-character paragraph *)

Lemma In_firstn {A : Type} (x : A) (n : nat) :
  forall l, In x (firstn n l) -> In x l.
Proof.
  induction n as [|n IH]; intros [|y l]; simpl; try tauto.
  intros [H|H]; [now left|right; now apply IH].
Qed.

Lemma In_skipn {A : Type} (x : A) (n : nat) :
  forall l, In x (skipn n l) -> In x l.
Proof.
  induction n as [|n IH]; intros [|y l]; simpl; try tauto.
  intros H. right. now apply IH.
Qed.

Lemma Forall_slice {A : Type} (P : A -> Prop) (s : list A) (a b : nat) :
  Forall P s -> Forall P (slice s a b).
Proof.
  intros H. apply Forall_forall. intros x Hx.
  rewrite Forall_forall in H. apply H.
  unfold slice in Hx. apply In_firstn in Hx. now apply In_skipn in Hx.
Qed.

(** C8, counterexample: fifty letters [a] are a single paragraph without
    marker; the Segmenter returns four chunks, not the trimmed input. *)
Lemma fifty_characters_give_four_chunks :
  let text := repeat 97%N 50 in
  len text = 50
  /\ split text nn = [text]
  /\ any_in scene_markers text = false
  /\ _smart_segment_text text narrative
     = Ok [repeat 97%N 16; repeat 97%N 16; repeat 97%N 16; repeat 97%N 2]
  /\ _smart_segment_text text narrative <> Ok [strip text].
Proof.
  cbv zeta. repeat split; try (vm_compute; reflexivity).
  vm_compute. discriminate.
Qed.

(** C8, amended: for a single narrative paragraph of 50 characters the
    primary segmentation gives at most one chunk, so the sanity fallback
    replaces it by slices of 50 // 3 = 16 characters: the Segmenter returns
    the trimmed non-blank ones among text[0:16], text[16:32], text[32:48]
    and text[48:64], which are exactly these four slices when the text has
    no whitespace. *)
Theorem fifty_characters_are_sliced (text : str) :
  len text = 50 ->
  split text nn = [text] ->
  len (primary_segments text narrative) <= 1
  /\ _smart_segment_text text narrative
     = Ok (filter truthy
             (map strip [slice text 0 16; slice text 16 32; slice text 32 48;
                         slice text 48 64]))
  /\ (Forall (fun c => isspace c = false) text ->
      _smart_segment_text text narrative
      = Ok [slice text 0 16; slice text 16 32; slice text 32 48;
            slice text 48 64]).
Proof.
  intros L S.
  assert (P : primary_segments text narrative = append_if_nonblank [] text).
  { unfold primary_segments. rewrite S.
    change (step_of narrative) with narrative_step. cbn [fold_left].
    rewrite narrative_step_eq.
    change (len (@nil char)) with 0. rewrite L. cbn [Z.add Z.gtb Z.compare Pos.compare Pos.compare_cont].
    cbv zeta. cbn [snd fst]. change (accumulate [] text) with text.
    rewrite L. cbn [Z.gtb Z.compare Pos.compare Pos.compare_cont].
    rewrite andb_false_r. reflexivity. }
  assert (P1 : len (primary_segments text narrative) <= 1).
  { rewrite P. unfold append_if_nonblank.
    destruct (truthy (strip text)); vm_compute; discriminate. }
  assert (E : _smart_segment_text text narrative
              = Ok (filter truthy
                      (map strip [slice text 0 16; slice text 16 32;
                                  slice text 32 48; slice text 48 64]))).
  { unfold _smart_segment_text.
    assert (C : (len (primary_segments text narrative) <? 2) = true)
      by (apply Z.ltb_lt; lia).
    rewrite C. cbn [orb]. unfold fallback_segments. rewrite L.
    change (50 / Z.min 5 (Z.max 3 (50 / 800))) with 16.
    change (16 =? 0) with false. cbv iota.
    change (range0 (Z.to_nat 50) (Z.to_nat 16)) with [0; 16; 32; 48]%nat.
    rewrite fold_append_if_nonblank. cbn [app map Nat.add Z.to_nat Pos.to_nat Pos.iter_op].
    f_equal. apply firstn_all2.
    etransitivity; [apply filter_length_le|]. simpl. lia. }
  split; [exact P1|]. split; [exact E|].
  intros F. rewrite E. f_equal. cbn [map].
  rewrite !strip_no_space by now apply Forall_slice.
  assert (N : forall a b, (a < b)%nat -> (a < 50)%nat ->
                          truthy (slice text a b) = true).
  { intros a b Hab Ha. unfold slice.
    destruct (skipn a text) as [|c r] eqn:K.
    - apply (f_equal (@List.length _)) in K. rewrite length_skipn in K.
      unfold len in L. simpl in K. lia.
    - destruct (b - a)%nat eqn:D; [lia|reflexivity]. }
  cbn [filter]. rewrite !N by lia. reflexivity.
Qed.

(** ** Flush rules of the paragraph loops *)




End SegmenterClaims.

(** C1, at the text ["abc"]. *)
Lemma smart_segment_text_keeps_text_witness :
  exists chunks,
    Segmenter._smart_segment_text (py "abc") Classifier.narrative
    = Ok (firstn 6 chunks)
    /\ nonws (List.concat chunks) = nonws (py "abc")
    /\ ((len chunks <= 6)%Z ->
        nonws (List.concat (firstn 6 chunks)) = nonws (py "abc"))
    /\ (nonws (py "abc") <> [] -> (1 <= len (firstn 6 chunks) <= 6)%Z)
    /\ (Classifier.narrative = Classifier.narrative
        \/ (len (Segmenter.primary_segments (py "abc") Classifier.narrative) < 2)%Z
        \/ (len (Segmenter.primary_segments (py "abc") Classifier.narrative) > 8)%Z ->
        Forall (fun c => strip c <> []) chunks).
Proof.
  apply (@smart_segment_text_keeps_text (py "abc") Classifier.narrative).
  vm_compute. discriminate.
Defined.

(** C8, at fifty letters. *)
Lemma fifty_characters_are_sliced_witness :
  let text := repeat 97%N 50 in
  (len (Segmenter.primary_segments text Classifier.narrative) <= 1)%Z
  /\ Segmenter._smart_segment_text text Classifier.narrative
     = Ok (filter truthy
             (map strip [slice text 0 16; slice text 16 32; slice text 32 48;
                         slice text 48 64]))
  /\ (Forall (fun c => isspace c = false) text ->
      Segmenter._smart_segment_text text Classifier.narrative
      = Ok [slice text 0 16; slice text 16 32; slice text 32 48;
            slice text 48 64]).
Proof.
  apply (@fifty_characters_are_sliced (repeat 97%N 50)); reflexivity.
Defined.

(* ===================================================================== *)
(** * PromptComposer *)
(* ===================================================================== *)

Section ComposerFacts.

Import Classifier Composer.
Local Open Scope Z_scope.

(** ** [_truncate_text] *)

Lemma range_down_S (hi lo : nat) :
  (lo <= hi)%nat -> range_down (S hi) lo = S hi :: range_down hi lo.
Proof.
  intros H. unfold range_down.
  replace (S hi - lo)%nat with (S (hi - lo)) by lia.
  rewrite seq_S, rev_app_distr. simpl. f_equal. f_equal. lia.
Qed.

(** [find] over [range_down hi lo] returns the greatest position that
    satisfies the test. *)
Lemma find_range_down (f : nat -> bool) (lo hi : nat) :
  match List.find f (range_down hi lo) with
  | Some i =>
    (lo < i <= hi)%nat /\ f i = true
    /\ forall j, (i < j <= hi)%nat -> f j = false
  | None => forall j, (lo < j <= hi)%nat -> f j = false
  end.
Proof.
  induction hi as [|hi IH].
  - unfold range_down. simpl. intros j Hj. lia.
  - destruct (le_gt_dec lo hi) as [L|G].
    + rewrite range_down_S by exact L. simpl.
      destruct (f (S hi)) eqn:E.
      * repeat split; try lia. exact E.
      * destruct (List.find f (range_down hi lo)) as [i|].
        -- destruct IH as (Hi & Hf & Hj). repeat split; try lia; auto.
           intros j Hlt. destruct (Nat.eq_dec j (S hi)) as [->|Hne]; [exact E|].
           apply Hj. lia.
        -- intros j Hlt. destruct (Nat.eq_dec j (S hi)) as [->|Hne]; [exact E|].
           apply IH. lia.
    + unfold range_down. replace (S hi - lo)%nat with 0%nat by lia. simpl.
      intros j Hj. lia.
Qed.

(** What [_truncate_text] returns: the text when it fits; otherwise the
    prefix that ends before the last of the characters ，。、 found at the
    positions above [max_length // 2] and below [max_length], and the
    first [max_length] characters when there is none. *)
Lemma truncate_text_rule (text : str) (max_length : nat) :
  (len text <= Z.of_nat max_length -> _truncate_text text max_length = text)
  /\ (len text > Z.of_nat max_length ->
      (exists i,
          (max_length / 2 < i < max_length)%nat
          /\ mem_char (nth i text 0%N) punctuation = true
          /\ (forall j, (i < j < max_length)%nat ->
                        mem_char (nth j text 0%N) punctuation = false)
          /\ _truncate_text text max_length = firstn i text)
      \/ ((forall j, (max_length / 2 < j < max_length)%nat ->
                     mem_char (nth j text 0%N) punctuation = false)
          /\ _truncate_text text max_length = firstn max_length text)).
Proof.
  unfold _truncate_text. split.
  - intros H. apply Z.leb_le in H. now rewrite H.
  - intros H.
    assert (E : (len text <=? Z.of_nat max_length) = false)
      by (apply Z.leb_gt; lia).
    rewrite E.
    pose proof (find_range_down
                  (fun i => mem_char (nth i text 0%N) punctuation)
                  (max_length / 2) (max_length - 1)) as F.
    destruct (List.find (fun i => mem_char (nth i text 0%N) punctuation)
                (range_down (max_length - 1) (max_length / 2))) as [i|].
    + left. exists i. destruct F as (Hi & Hf & Hj).
      split; [lia|]. split; [exact Hf|]. split; [|reflexivity].
      intros j Hlt. apply Hj. lia.
    + right. split; [|reflexivity]. intros j Hlt. apply F. lia.
Qed.

Lemma truncate_text_len (text : str) (max_length : nat) :
  len (_truncate_text text max_length) <= Z.of_nat max_length.
Proof.
  destruct (truncate_text_rule text max_length) as [A B].
  destruct (Z_le_gt_dec (len text) (Z.of_nat max_length)) as [L|G].
  - now rewrite A.
  - destruct (B G) as [(i & Hi & _ & _ & ->) | [_ ->]];
      unfold len; rewrite length_firstn; lia.
Qed.

Lemma truncate_text_nonempty (text : str) (max_length : nat) :
  text <> [] -> (0 < max_length)%nat -> _truncate_text text max_length <> [].
Proof.
  intros T M.
  destruct (truncate_text_rule text max_length) as [A B].
  destruct (Z_le_gt_dec (len text) (Z.of_nat max_length)) as [L|G].
  - now rewrite A.
  - destruct text as [|c t]; [contradiction|].
    destruct (B G) as [(i & Hi & _ & _ & ->) | [_ ->]].
    + destruct i; [lia|discriminate].
    + destruct max_length; [lia|discriminate].
Qed.

(** ** The five sections *)


Lemma nonblank_nonempty (s : str) : nonws s <> [] -> s <> [].
Proof. intros H ->. now apply H. Qed.






End ComposerFacts.

Section ComposerBounds.

Import Classifier Composer.
Local Open Scope Z_scope.

(** ** The first assembly always fits *)



Lemma take_cjk_len (n : nat) : forall s, (List.length (take_cjk n s) <= n)%nat.
Proof.
  induction n as [|n IH]; intros [|c s]; simpl; try lia.
  destruct (is_cjk c); simpl; [specialize (IH s)|]; lia.
Qed.












End ComposerBounds.

Section ComposerLabels.

Import Classifier Composer.
Local Open Scope Z_scope.

(** ** Where the opening bracket 【 can occur *)





Lemma lstrip_In (s : str) (c : char) : In c (lstrip s) -> In c s.
Proof.
  induction s as [|x s IH]; simpl; [tauto|].
  destruct (isspace x); simpl; tauto.
Qed.

Lemma strip_In (s : str) (c : char) : In c (strip s) -> In c s.
Proof.
  unfold strip, rstrip. intros H.
  apply in_rev, lstrip_In, in_rev in H. now apply lstrip_In.
Qed.

























End ComposerLabels.

(* ===================================================================== *)
(** * Segmenter: chunks are pieces of the text *)
(* ===================================================================== *)

Section SegmenterPieces.

Import Classifier Segmenter.
Local Open Scope Z_scope.

(** ** Contiguous pieces *)

Lemma substring_refl (s : str) : substring s s.
Proof. exists [], []. now rewrite app_nil_r. Qed.

Lemma substring_nil (s : str) : substring [] s.
Proof. exists [], s. reflexivity. Qed.

Lemma substring_trans (a b c : str) :
  substring a b -> substring b c -> substring a c.
Proof.
  intros (x & y & ->) (u & v & ->).
  exists (u ++ x), (y ++ v). now rewrite <- !app_assoc.
Qed.

Lemma substring_app_l (a b : str) : substring a (a ++ b).
Proof. exists [], b. reflexivity. Qed.

Lemma substring_app_r (a b : str) : substring b (a ++ b).
Proof. exists a, []. now rewrite app_nil_r. Qed.

Lemma substring_len (a b : str) : substring a b -> len a <= len b.
Proof.
  intros (x & y & ->). unfold len. rewrite !length_app. lia.
Qed.

Lemma lstrip_suffix (s : str) : exists a, s = a ++ lstrip s.
Proof.
  induction s as [|c s [a IH]]; [now exists []|].
  simpl. destruct (isspace c).
  - exists (c :: a). simpl. now rewrite <- IH.
  - now exists [].
Qed.

Lemma rstrip_prefix (s : str) : exists b, s = rstrip s ++ b.
Proof.
  unfold rstrip. destruct (lstrip_suffix (rev s)) as [a E].
  exists (rev a). rewrite <- rev_app_distr, <- E. now rewrite rev_involutive.
Qed.

Lemma strip_substring (s : str) : substring (strip s) s.
Proof.
  unfold strip. destruct (lstrip_suffix s) as [a Ea].
  destruct (rstrip_prefix (lstrip s)) as [b Eb].
  exists a, b. now rewrite <- Eb.
Qed.

Lemma slice_substring (s : str) (i j : nat) : substring (slice s i j) s.
Proof.
  unfold slice. exists (firstn i s), (skipn (j - i) (skipn i s)).
  now rewrite firstn_skipn, firstn_skipn.
Qed.

(** ** Trimming is idempotent *)

Lemma lstrip_head (s : str) (c : char) (t : str) :
  lstrip s = c :: t -> isspace c = false.
Proof.
  induction s as [|d s IH]; simpl; [discriminate|].
  destruct (isspace d) eqn:E; [exact IH|].
  intros H. injection H as -> _. exact E.
Qed.

Lemma lstrip_fixed (s : str) :
  lstrip s = s <-> match s with [] => True | c :: _ => isspace c = false end.
Proof.
  destruct s as [|c s]; simpl; [tauto|].
  destruct (isspace c) eqn:E.
  - split; [|discriminate]. intros H.
    destruct (lstrip_suffix s) as [a Ea].
    apply (f_equal (@List.length char)) in H.
    apply (f_equal (@List.length char)) in Ea.
    rewrite length_app in Ea. simpl in H. lia.
  - tauto.
Qed.

Lemma lstrip_idem (s : str) : lstrip (lstrip s) = lstrip s.
Proof.
  apply lstrip_fixed. destruct (lstrip s) as [|c t] eqn:E; [exact I|].
  eapply lstrip_head; eauto.
Qed.

Lemma strip_idem (s : str) : strip (strip s) = strip s.
Proof.
  unfold strip at 2 3.
  set (l := lstrip s).
  assert (Hl : lstrip l = l) by apply lstrip_idem.
  destruct (rstrip_prefix l) as [b Eb].
  assert (Hr : lstrip (rstrip l) = rstrip l).
  { apply lstrip_fixed. destruct (rstrip l) as [|c t] eqn:E; [exact I|].
    rewrite Eb in Hl. apply lstrip_fixed in Hl. exact Hl. }
  unfold strip. rewrite Hr. unfold rstrip at 1 2. rewrite rev_involutive.
  rewrite lstrip_idem. reflexivity.
Qed.

(** ** [split] and [join] are inverse *)

Lemma prefix_app (p s : str) :
  prefix p s = true -> s = p ++ skipn (List.length p) s.
Proof.
  revert s; induction p as [|x p IH]; intros [|y s]; simpl;
    try reflexivity; try discriminate.
  intros H. apply andb_true_iff in H as [H1 H2]. apply N.eqb_eq in H1.
  subst y. f_equal. now apply IH.
Qed.

Lemma split_go_cons (sep s : str) (skip : nat) (cur : str) :
  exists p rest, split_go sep s skip cur = p :: rest.
Proof.
  revert skip cur; induction s as [|c t IH]; intros skip cur; cbn [split_go].
  - eauto.
  - destruct skip as [|k]; [|apply IH].
    destruct (prefix sep (c :: t)); [eauto|apply IH].
Qed.

Lemma join_cons (sep p : str) (rest : list str) :
  rest <> [] -> join sep (p :: rest) = p ++ sep ++ join sep rest.
Proof. destruct rest; [congruence|reflexivity]. Qed.

Lemma join_split_go (sep : str) :
  sep <> [] ->
  forall (s : str) (skip : nat) (cur : str),
    (skip <= List.length s)%nat ->
    join sep (split_go sep s skip cur) = rev cur ++ skipn skip s.
Proof.
  intros Hsep. induction s as [|c t IH]; intros skip cur Hs.
  - simpl in Hs. assert (skip = 0%nat) by lia. subst.
    cbn [split_go join skipn]. now rewrite app_nil_r.
  - cbn [split_go]. destruct skip as [|k].
    + destruct (prefix sep (c :: t)) eqn:P.
      * destruct (split_go_cons sep t (List.length sep - 1) []) as (p & r & E).
        rewrite join_cons by (rewrite E; discriminate).
        pose proof (prefix_app _ _ P) as A.
        destruct sep as [|x sep']; [congruence|].
        replace (List.length (x :: sep') - 1)%nat with (List.length sep')
          by (simpl; lia).
        cbn [List.length skipn] in A.
        rewrite IH.
        -- cbn [rev app skipn]. f_equal. exact (eq_sym A).
        -- apply (f_equal (@List.length char)) in A.
           simpl in A. rewrite length_app in A. lia.
      * rewrite IH by (simpl; lia). simpl. now rewrite <- app_assoc.
    + simpl in Hs. rewrite IH by lia. reflexivity.
Qed.

(** [sep.join(text.split(sep)) == text] *)
Lemma join_split (sep text : str) :
  sep <> [] -> join sep (split text sep) = text.
Proof.
  intros H. unfold split. rewrite join_split_go; [reflexivity|exact H|].
  simpl. lia.
Qed.

Lemma join_app (sep : str) (a b : list str) :
  a <> [] -> b <> [] ->
  join sep (a ++ b) = join sep a ++ sep ++ join sep b.
Proof.
  intros Ha Hb. induction a as [|x a IH]; [congruence|].
  destruct a as [|y a].
  - simpl app. now rewrite join_cons.
  - change ((x :: y :: a) ++ b) with (x :: (y :: a) ++ b).
    rewrite join_cons by discriminate.
    rewrite IH by discriminate.
    rewrite (@join_cons sep x (y :: a)) by discriminate.
    now rewrite <- !app_assoc.
Qed.

Lemma join_prefix (sep : str) (a b : list str) :
  a <> [] -> exists r, join sep (a ++ b) = join sep a ++ r.
Proof.
  intros Ha. destruct b as [|y b].
  - exists []. now rewrite !app_nil_r.
  - exists (sep ++ join sep (y :: b)). apply join_app; [exact Ha|discriminate].
Qed.

Lemma join_suffix (sep : str) (a b : list str) :
  substring (join sep b) (join sep (a ++ b)).
Proof.
  destruct a as [|x a]; [apply substring_refl|].
  destruct b as [|y b]; [apply substring_nil|].
  rewrite join_app by discriminate.
  eapply substring_trans; [apply substring_app_r|apply substring_app_r].
Qed.

End SegmenterPieces.

Section SegmenterLoopPieces.

Import Classifier Segmenter SegmenterInvariant.
Local Open Scope Z_scope.

(** ** The paragraph loop emits trimmed pieces of the text *)

Lemma tail_substring (done : list str) (cur : str) :
  tail_of done cur -> substring cur (join nn done).
Proof. intros (p & q & -> & ->). apply join_suffix. Qed.

Lemma join_snoc (q : list str) (para : str) :
  q <> [] -> join nn (q ++ [para]) = join nn q ++ nn ++ para.
Proof. intros H. rewrite join_app; [reflexivity|exact H|discriminate]. Qed.

Lemma tail_accumulate (done : list str) (cur para : str) :
  tail_of done cur -> tail_of (done ++ [para]) (accumulate cur para).
Proof.
  intros (p & q & -> & ->). unfold accumulate.
  destruct (join nn q) as [|c t] eqn:E; cbn [truthy].
  - exists (p ++ q), [para]. split; reflexivity.
  - exists p, (q ++ [para]). split; [now rewrite app_assoc|].
    rewrite join_snoc, E; [reflexivity|]. intros ->. discriminate E.
Qed.

Lemma tail_replace (done : list str) (para : str) :
  tail_of (done ++ [para]) para.
Proof. exists done, [para]. split; reflexivity. Qed.

Lemma tail_reset (done : list str) : tail_of done [].
Proof. exists done, []. split; [now rewrite app_nil_r|reflexivity]. Qed.

Lemma substring_of_nil (c : str) : substring c [] -> c = [].
Proof.
  intros (a & b & E). symmetry in E.
  apply app_eq_nil in E as [_ E]. now apply app_eq_nil in E as [E _].
Qed.

Lemma substring_join_snoc (c : str) (done : list str) (para : str) :
  substring c (join nn done) -> substring c (join nn (done ++ [para])).
Proof.
  intros H. destruct done as [|x done].
  - apply substring_of_nil in H. subst c. apply substring_nil.
  - destruct (@join_prefix nn (x :: done) [para]) as [r E]; [discriminate|].
    rewrite E. eapply substring_trans; [exact H|apply substring_app_l].
Qed.

Lemma piece_strip (text x : str) :
  substring x text -> piece_of text (strip x).
Proof.
  intros H. split; [|apply strip_idem].
  eapply substring_trans; [apply strip_substring|exact H].
Qed.

Lemma pieces_snoc (done : list str) (para : str) (segments : list str) :
  Forall (piece_of (join nn done)) segments ->
  Forall (piece_of (join nn (done ++ [para]))) segments.
Proof.
  apply Forall_impl. intros c [H1 H2]. split; [|exact H2].
  now apply substring_join_snoc.
Qed.

Lemma append_if_nonblank_pieces (text : str) (segments : list str) (cur : str) :
  Forall (piece_of text) segments -> substring cur text ->
  Forall (piece_of text) (append_if_nonblank segments cur).
Proof.
  intros F H. unfold append_if_nonblank.
  destruct (truthy (strip cur)); [|exact F].
  apply Forall_app. split; [exact F|].
  constructor; [now apply piece_strip|constructor].
Qed.

Lemma flush_pieces (text : str) (segments : list str) (cur : str) :
  Forall (piece_of text) segments -> substring cur text ->
  Forall (piece_of text) (segments ++ [strip cur]).
Proof.
  intros F H. apply Forall_app. split; [exact F|].
  constructor; [now apply piece_strip|constructor].
Qed.

Lemma narrative_step_pieces (done : list str) (st : loop_state) (para : str) :
  pieces done st -> pieces (done ++ [para]) (narrative_step st para).
Proof.
  destruct st as [segments cur]. intros [F T]. cbn [fst snd] in F, T.
  rewrite narrative_step_eq.
  set (st1 := if len cur + len para >? 1200
              then (append_if_nonblank segments cur, para)
              else (segments, accumulate cur para)).
  assert (P1 : pieces (done ++ [para]) st1).
  { subst st1. destruct (len cur + len para >? 1200); split; cbn [fst snd].
    - apply append_if_nonblank_pieces; [now apply pieces_snoc|].
      apply substring_join_snoc. now apply tail_substring.
    - apply tail_replace.
    - now apply pieces_snoc.
    - now apply tail_accumulate. }
  clearbody st1. destruct st1 as [segments1 cur1]. destruct P1 as [F1 T1].
  cbn [fst snd] in *. cbv zeta.
  destruct (any_in scene_markers para && (len cur1 >? 500)); split; cbn [fst snd];
    auto using tail_reset.
  apply flush_pieces; [exact F1|now apply tail_substring].
Qed.

Lemma marker_step_pieces (markers : list str) (max_len : Z) (done : list str)
  (st : loop_state) (para : str) :
  pieces done st -> pieces (done ++ [para]) (marker_step markers max_len st para).
Proof.
  destruct st as [segments cur]. intros [F T]. cbn [fst snd] in F, T.
  unfold marker_step.
  set (st1 := if any_in markers para && (len cur >? 600)
              then (append_if_nonblank segments cur, para)
              else (segments, accumulate cur para)).
  assert (P1 : pieces (done ++ [para]) st1).
  { subst st1. destruct (any_in markers para && (len cur >? 600)); split;
      cbn [fst snd].
    - apply append_if_nonblank_pieces; [now apply pieces_snoc|].
      apply substring_join_snoc. now apply tail_substring.
    - apply tail_replace.
    - now apply pieces_snoc.
    - now apply tail_accumulate. }
  clearbody st1. destruct st1 as [segments1 cur1]. destruct P1 as [F1 T1].
  cbn [fst snd] in *.
  destruct (len cur1 >? max_len); split; cbn [fst snd]; auto using tail_reset.
  apply flush_pieces; [exact F1|now apply tail_substring].
Qed.

Lemma step_of_pieces (text_type : str) (done : list str) (st : loop_state)
  (para : str) :
  pieces done st -> pieces (done ++ [para]) (step_of text_type st para).
Proof.
  unfold step_of.
  destruct (str_eqb text_type narrative); [apply narrative_step_pieces|].
  destruct (str_eqb text_type argumentative); apply marker_step_pieces.
Qed.

Lemma loop_pieces (text_type : str) (paragraphs : list str) :
  forall done st,
    pieces done st ->
    pieces (done ++ paragraphs) (fold_left (step_of text_type) paragraphs st).
Proof.
  induction paragraphs as [|para rest IH]; intros done st H; simpl.
  - now rewrite app_nil_r.
  - replace (done ++ para :: rest) with ((done ++ [para]) ++ rest)
      by now rewrite <- app_assoc.
    apply IH. now apply step_of_pieces.
Qed.

Lemma nn_nonempty : nn <> [].
Proof. discriminate. Qed.

Lemma primary_segments_pieces (text text_type : str) :
  Forall (piece_of text) (primary_segments text text_type).
Proof.
  unfold primary_segments.
  assert (P0 : pieces [] (@nil str, @nil char)).
  { split; [constructor|apply tail_reset]. }
  pose proof (loop_pieces text_type (split text nn) P0) as H.
  cbn [app] in H.
  destruct (fold_left (step_of text_type) (split text nn) ([], []))
    as [segments cur].
  destruct H as [F T]. cbn [fst snd] in F, T.
  apply tail_substring in T. rewrite (join_split text nn_nonempty) in F, T.
  now apply append_if_nonblank_pieces.
Qed.

Lemma fallback_segments_pieces (text : str) (chunks : list str) :
  fallback_segments text = Ok chunks -> Forall (piece_of text) chunks.
Proof.
  unfold fallback_segments.
  destruct (len text / Z.min 5 (Z.max 3 (len text / 800)) =? 0);
    [discriminate|].
  intros H. injection H as <-. rewrite fold_append_if_nonblank. cbn [app].
  apply Forall_forall. intros c Hc. apply filter_In in Hc as [Hc _].
  apply in_map_iff in Hc as (i & <- & _).
  apply piece_strip, slice_substring.
Qed.

Lemma Forall_firstn {A : Type} (P : A -> Prop) (n : nat) (l : list A) :
  Forall P l -> Forall P (firstn n l).
Proof.
  intros H. apply Forall_forall. intros x Hx.
  rewrite Forall_forall in H. apply H. eapply In_firstn; eauto.
Qed.

Lemma smart_segment_text_pieces (text text_type : str) (chunks : list str) :
  _smart_segment_text text text_type = Ok chunks ->
  Forall (piece_of text) chunks.
Proof.
  unfold _smart_segment_text.
  destruct ((len (primary_segments text text_type) <? 2)
            || (len (primary_segments text text_type) >? 8)).
  - destruct (fallback_segments text) as [l|e] eqn:E; [|discriminate].
    intros H. assert (C : chunks = firstn 6 l) by congruence.
    rewrite C. apply Forall_firstn. now apply fallback_segments_pieces.
  - intros H.
    assert (C : chunks = firstn 6 (primary_segments text text_type))
      by congruence.
    rewrite C. apply Forall_firstn. apply primary_segments_pieces.
Qed.

End SegmenterLoopPieces.

Section SegmenterShortTexts.

Import Classifier Segmenter SegmenterInvariant.
Local Open Scope Z_scope.

(** ** The fallback never computes more than six slices *)

Lemma target_segments_cases (l : Z) :
  let t := Z.min 5 (Z.max 3 (l / 800)) in
  (t = 3 /\ l / 800 <= 3) \/ (t = 4 /\ l / 800 = 4) \/ (t = 5 /\ 5 <= l / 800).
Proof. cbv zeta. lia. Qed.

Lemma segment_length_covers (l : Z) :
  3 <= l -> l <= 6 * (l / Z.min 5 (Z.max 3 (l / 800))).
Proof.
  intros H.
  assert (D : 800 * (l / 800) <= l) by (apply Z.mul_div_le; lia).
  destruct (target_segments_cases l) as [[-> B]|[[-> B]|[-> B]]].
  - pose proof (Z.div_mod l 3 ltac:(lia)) as E.
    pose proof (Z.mod_pos_bound l 3 ltac:(lia)) as M.
    assert (1 <= l / 3) by (apply Z.div_le_lower_bound; lia). lia.
  - pose proof (Z.div_mod l 4 ltac:(lia)) as E.
    pose proof (Z.mod_pos_bound l 4 ltac:(lia)) as M.
    assert (2 <= l / 4) by (apply Z.div_le_lower_bound; lia). lia.
  - pose proof (Z.div_mod l 5 ltac:(lia)) as E.
    pose proof (Z.mod_pos_bound l 5 ltac:(lia)) as M.
    assert (4 <= l / 5) by (apply Z.div_le_lower_bound; lia). lia.
Qed.

Lemma range0_length (stop step : nat) :
  (0 < step)%nat -> (stop <= 6 * step)%nat ->
  (List.length (range0 stop step) <= 6)%nat.
Proof.
  intros H B. unfold range0. rewrite length_map, length_seq.
  assert (L : ((stop + step - 1) / step < 7)%nat).
  { apply Nat.Div0.div_lt_upper_bound. lia. }
  lia.
Qed.

Lemma filter_length {A : Type} (f : A -> bool) (l : list A) :
  (List.length (filter f l) <= List.length l)%nat.
Proof.
  induction l as [|x l IH]; simpl; [lia|]. destruct (f x); simpl; lia.
Qed.

Lemma fallback_segments_count (text : str) (chunks : list str) :
  fallback_segments text = Ok chunks -> len chunks <= 6.
Proof.
  unfold fallback_segments.
  set (n := len text / Z.min 5 (Z.max 3 (len text / 800))).
  destruct (n =? 0) eqn:E; [discriminate|]. apply Z.eqb_neq in E.
  intros H. injection H as <-. rewrite fold_append_if_nonblank. cbn [app].
  assert (P : 0 <= len text) by (unfold len; lia).
  assert (T : 3 <= len text).
  { destruct (Z_lt_le_dec (len text) 3) as [L|L]; [|exact L].
    exfalso. apply E. subst n.
    rewrite (Z.div_small (len text) 800) by lia.
    change (Z.min 5 (Z.max 3 0)) with 3. apply Z.div_small. lia. }
  pose proof (segment_length_covers T) as C. fold n in C.
  unfold len at 1.
  pose proof (filter_length truthy
                (map (fun i => strip (slice text i (i + Z.to_nat n)))
                   (range0 (Z.to_nat (len text)) (Z.to_nat n)))) as F.
  rewrite length_map in F.
  pose proof (@range0_length (Z.to_nat (len text)) (Z.to_nat n)) as R.
  lia.
Qed.

(** ** Texts of at most 500 characters *)

Lemma accumulate_len (cur para : str) :
  len cur + len para <= len (accumulate cur para).
Proof.
  unfold accumulate, len. destruct cur; cbn [truthy]; [simpl; lia|].
  rewrite !length_app. lia.
Qed.

Lemma short_step (text_type : str) (done : list str) (cur para : str) :
  len (join nn (done ++ [para])) <= 500 ->
  tail_of done cur ->
  step_of text_type ([], cur) para = ([], accumulate cur para).
Proof.
  intros B T.
  pose proof (tail_accumulate para T) as TA.
  apply tail_substring, substring_len in TA.
  pose proof (accumulate_len cur para) as A.
  assert (Pc : 0 <= len cur) by (unfold len; lia).
  assert (Pp : 0 <= len para) by (unfold len; lia).
  unfold step_of.
  destruct (str_eqb text_type narrative).
  - rewrite narrative_step_eq.
    replace (len cur + len para >? 1200) with false
      by (symmetry; rewrite Z.gtb_ltb; apply Z.ltb_ge; lia).
    cbv zeta. cbn [fst snd].
    replace (len (accumulate cur para) >? 500) with false
      by (symmetry; rewrite Z.gtb_ltb; apply Z.ltb_ge; lia).
    now rewrite andb_false_r.
  - assert (M : forall markers max_len, 500 <= max_len ->
                marker_step markers max_len ([], cur) para
                = ([], accumulate cur para)).
    { intros markers max_len Hm. unfold marker_step.
      replace (len cur >? 600) with false
        by (symmetry; rewrite Z.gtb_ltb; apply Z.ltb_ge; lia).
      rewrite andb_false_r.
      replace (len (accumulate cur para) >? max_len) with false
        by (symmetry; rewrite Z.gtb_ltb; apply Z.ltb_ge; lia).
      reflexivity. }
    destruct (str_eqb text_type argumentative); apply M; lia.
Qed.

Lemma short_loop (text_type : str) (paragraphs : list str) :
  forall done cur,
    len (join nn (done ++ paragraphs)) <= 500 ->
    tail_of done cur ->
    fst (fold_left (step_of text_type) paragraphs ([], cur)) = [].
Proof.
  induction paragraphs as [|para rest IH]; intros done cur B T; [reflexivity|].
  cbn [fold_left].
  assert (B1 : len (join nn ((done ++ [para]) ++ rest)) <= 500)
    by now rewrite <- app_assoc.
  assert (B2 : len (join nn (done ++ [para])) <= 500).
  { destruct (@join_prefix nn (done ++ [para]) rest) as [r E].
    - destruct done; discriminate.
    - rewrite E in B1. unfold len in *. rewrite length_app in B1. lia. }
  rewrite (short_step text_type _ B2 T).
  apply (IH (done ++ [para])); [exact B1|]. now apply tail_accumulate.
Qed.

Lemma short_primary (text text_type : str) :
  len text <= 500 -> len (primary_segments text text_type) <= 1.
Proof.
  intros B. unfold primary_segments.
  match goal with
  | |- context [fold_left ?f ?l ?i] =>
    assert (H : fst (fold_left f l i) = []);
      [|destruct (fold_left f l i) as [segments cur]]
  end.
  { apply (@short_loop text_type (split text nn) [] []); [|apply tail_reset].
    cbn [app]. now rewrite (join_split text nn_nonempty). }
  simpl in H. rewrite H. unfold append_if_nonblank.
  destruct (truthy (strip cur)); unfold len; simpl; lia.
Qed.

Lemma fallback_taken (text text_type : str) :
  len (primary_segments text text_type) < 2
  \/ len (primary_segments text text_type) > 8 ->
  _smart_segment_text text text_type
  = match fallback_segments text with
    | Ok segments => Ok (firstn 6 segments)
    | Raise e => Raise e
    end.
Proof.
  intros H. unfold _smart_segment_text.
  replace ((len (primary_segments text text_type) <? 2)
           || (len (primary_segments text text_type) >? 8)) with true;
    [reflexivity|].
  symmetry. apply orb_true_iff. rewrite Z.gtb_ltb, !Z.ltb_lt. lia.
Qed.

Lemma fallback_untruncated (text : str) :
  match fallback_segments text with
  | Ok segments => Ok (firstn 6 segments)
  | Raise e => Raise e
  end = fallback_segments text.
Proof.
  destruct (fallback_segments text) as [l|e] eqn:E; [|reflexivity].
  apply fallback_segments_count in E. f_equal. apply firstn_all2.
  unfold len in E. lia.
Qed.

Lemma short_text_fallback (text text_type : str) :
  len text <= 500 ->
  _smart_segment_text text text_type = fallback_segments text.
Proof.
  intros H. pose proof (@short_primary text text_type H) as P.
  rewrite fallback_taken by lia. apply fallback_untruncated.
Qed.

Lemma tiny_text_value_error (text text_type : str) :
  len text < 3 ->
  _smart_segment_text text text_type = Raise ValueError.
Proof.
  intros H. assert (P : 0 <= len text) by (unfold len; lia).
  rewrite short_text_fallback by lia.
  unfold fallback_segments.
  rewrite (Z.div_small (len text) 800) by lia.
  change (Z.min 5 (Z.max 3 0)) with 3.
  rewrite (Z.div_small (len text) 3) by lia. reflexivity.
Qed.

Lemma len_firstn_le {A : Type} (n : nat) (l : list A) :
  len (firstn n l) <= Z.of_nat n.
Proof. unfold len. pose proof (firstn_le_length n l). lia. Qed.

Lemma smart_segment_text_count (text text_type : str) (chunks : list str) :
  _smart_segment_text text text_type = Ok chunks -> len chunks <= 6.
Proof.
  unfold _smart_segment_text.
  destruct ((len (primary_segments text text_type) <? 2)
            || (len (primary_segments text text_type) >? 8)).
  - destruct (fallback_segments text) as [l|e]; [|discriminate].
    intros H. assert (C : chunks = firstn 6 l) by congruence.
    rewrite C. apply (len_firstn_le 6).
  - intros H.
    assert (C : chunks = firstn 6 (primary_segments text text_type))
      by congruence.
    rewrite C. apply (len_firstn_le 6).
Qed.

(** From three characters on the Segmenter returns, and a text with a
    non-whitespace character gives at least one chunk. *)
Lemma smart_segment_text_returns (text text_type : str) :
  3 <= len text ->
  exists chunks,
    _smart_segment_text text text_type = Ok chunks
    /\ (nonws text <> [] -> 1 <= len chunks).
Proof.
  intros H.
  assert (G : exists all, _smart_segment_text text text_type = Ok (firstn 6 all)
                          /\ nonws (List.concat all) = nonws text).
  { unfold _smart_segment_text.
    destruct ((len (primary_segments text text_type) <? 2)
              || (len (primary_segments text text_type) >? 8)).
    - destruct (@fallback_segments_keep text H) as (chunks & -> & K & _).
      eauto.
    - eauto using primary_segments_keep. }
  destruct G as (all & E & K). exists (firstn 6 all). split; [exact E|].
  intros N. destruct all as [|c cs]; [now rewrite <- K in N|].
  unfold len. simpl. lia.
Qed.

End SegmenterShortTexts.

Section SegmenterProperties.

Import Classifier Segmenter SegmenterInvariant.
Local Open Scope Z_scope.

(** X1: from three characters on the Segmenter returns at most six chunks,
    and each of them is a contiguous piece of the input text, in the
    text's own characters, with no whitespace at either end. *)
Theorem chunks_are_trimmed_pieces_of_text (text text_type : str) :
  3 <= len text ->
  exists chunks,
    _smart_segment_text text text_type = Ok chunks
    /\ len chunks <= 6
    /\ Forall (fun c => substring c text /\ strip c = c) chunks.
Proof.
  intros H.
  destruct (@smart_segment_text_returns text text_type H) as [chunks [E _]].
  exists chunks. split; [exact E|]. split.
  - eapply smart_segment_text_count; eauto.
  - apply (smart_segment_text_pieces _ _ E).
Qed.

(** X2: whenever the equal-length fallback is taken (fewer than 2 or more
    than 8 primary chunks) on a text of at least three characters, nothing
    is cut off: the result is the whole list of slices, at most six, none
    empty, and together they hold every non-whitespace character of the
    text once and in order. *)
Theorem fallback_keeps_every_character (text text_type : str) :
  3 <= len text ->
  len (primary_segments text text_type) < 2
  \/ len (primary_segments text text_type) > 8 ->
  exists chunks,
    _smart_segment_text text text_type = Ok chunks
    /\ fallback_segments text = Ok chunks
    /\ len chunks <= 6
    /\ nonws (List.concat chunks) = nonws text
    /\ Forall (fun c => c <> []) chunks.
Proof.
  intros H3 Hp.
  destruct (@fallback_segments_keep text H3) as (chunks & E & K & F).
  exists chunks.
  split; [now rewrite (fallback_taken _ _ Hp), fallback_untruncated|].
  split; [exact E|].
  split; [now apply (fallback_segments_count text)|].
  split; [exact K|].
  eapply Forall_impl; [|exact F]. intros c Hc Hn. now subst c.
Qed.

(** X3: for a text of at most 500 characters, whatever its type tag, its
    paragraph breaks and its markers, the Segmenter returns exactly what
    the equal-length fallback returns: the paragraph loops never emit a
    chunk for such a text, and the fallback is never cut. *)
Theorem short_text_is_sliced (text text_type : str) :
  len text <= 500 ->
  _smart_segment_text text text_type = fallback_segments text.
Proof. apply short_text_fallback. Qed.

(** X4: every text of fewer than three characters, the empty text
    included, makes the Segmenter raise [ValueError], for every type tag. *)
Theorem tiny_text_raises_value_error (text text_type : str) :
  len text < 3 ->
  _smart_segment_text text text_type = Raise ValueError.
Proof. apply tiny_text_value_error. Qed.

End SegmenterProperties.

(** X1, at a text of five characters. *)
Lemma chunks_are_trimmed_pieces_of_text_witness :
  (3 <= len (py "一二三四五"))%Z
  /\ exists chunks,
       Segmenter._smart_segment_text (py "一二三四五") Classifier.descriptive
       = Ok chunks
       /\ (len chunks <= 6)%Z
       /\ Forall (fun c => substring c (py "一二三四五") /\ strip c = c) chunks.
Proof.
  split; [vm_compute; discriminate|].
  apply (chunks_are_trimmed_pieces_of_text (py "一二三四五")
           Classifier.descriptive).
  vm_compute; discriminate.
Defined.

(** X2, at a one-paragraph text. *)
Lemma fallback_keeps_every_character_witness :
  exists chunks,
    Segmenter._smart_segment_text (py "one two three") Classifier.narrative
    = Ok chunks
    /\ Segmenter.fallback_segments (py "one two three") = Ok chunks
    /\ (len chunks <= 6)%Z
    /\ nonws (List.concat chunks) = nonws (py "one two three")
    /\ Forall (fun c => c <> []) chunks.
Proof.
  apply (fallback_keeps_every_character (py "one two three")
           Classifier.narrative).
  - vm_compute; discriminate.
  - left. vm_compute. reflexivity.
Defined.

(** X3, at two short paragraphs with argument and dimension markers. *)
Lemma short_text_is_sliced_witness :
  Segmenter._smart_segment_text
    (py "首先看外观。" ++ Segmenter.nn ++ py "然后看功能。")
    Classifier.argumentative
  = Segmenter.fallback_segments
      (py "首先看外观。" ++ Segmenter.nn ++ py "然后看功能。").
Proof.
  apply short_text_is_sliced. vm_compute; discriminate.
Defined.

(** X4, at a text of two characters. *)
Lemma tiny_text_raises_value_error_witness :
  Segmenter._smart_segment_text (py "好的") Classifier.argumentative
  = Raise ValueError.
Proof.
  apply tiny_text_raises_value_error. vm_compute. reflexivity.
Defined.

(* ===================================================================== *)
(** * Orchestrator: error handling and the two endpoints *)
(* ===================================================================== *)

Section OrchestratorProperties.

Import Classifier Orchestrator.
Local Open Scope Z_scope.

Variable World : Type.
Variable lower : str -> str.
Variable client : bool.
Variable service_type : str.
Variables openai_ready baidu_ready ali_ready : bool.
Variable images_generate : str -> M World response.
Variables _generate_with_volcano _generate_with_openai
          _generate_with_baidu _generate_with_ali : str -> M World str.
Variable render : str -> str -> str -> M World str.
Variable doubao_segments : list str -> str -> str -> M World (list TextSegment).
Variable str_of_exn : exn -> str.
Variable uuid4 : World -> str * World.

(** ** [generate_image] *)


(** ** The batch without a remote client *)




End OrchestratorProperties.

Section EndpointProperties.

Import Classifier Orchestrator.
Local Open Scope Z_scope.

Variable World : Type.
Variable lower : str -> str.
Variable client : bool.
Variable service_type : str.
Variables openai_ready baidu_ready ali_ready : bool.
Variable images_generate : str -> M World response.
Variables _generate_with_volcano _generate_with_openai
          _generate_with_baidu _generate_with_ali : str -> M World str.
Variable render : str -> str -> str -> M World str.
Variable doubao_segments : list str -> str -> str -> M World (list TextSegment).
Variable str_of_exn : exn -> str.
Variable uuid4 : World -> str * World.

Local Abbreviation generate_images :=
  (generate_images lower client service_type openai_ready baidu_ready ali_ready
     images_generate _generate_with_volcano _generate_with_openai
     _generate_with_baidu _generate_with_ali render str_of_exn uuid4).

(** ** [POST /api/generate-images] *)

Lemma image_of_segment_ids (segs : list TextSegment)
  (imgs : list GeneratedImage) :
  Forall2 image_of_segment segs imgs ->
  map segment_id imgs = map id segs /\ List.length imgs = List.length segs.
Proof.
  intros F. induction F as [|a b la lb [Hid _] _ [IH1 IH2]]; simpl.
  - split; reflexivity.
  - split; congruence.
Qed.

(** X7: a request without segments is refused before anything is
    generated, with the collaborators' state untouched, but with status 500:
    the [HTTPException] of status 400 raised by the validation is caught by
    the endpoint's own [except Exception] and wrapped into a server error
    whose detail embeds the text of the original exception. *)
Theorem empty_batch_answers_500 (request : ImageGenerationRequest) (w : World) :
  gen_segments request = [] ->
  generate_images request w
  = (Raise (HTTPException 500
              (py "图片生成失败: "
               ++ str_of_exn (HTTPException 400 (py "文本段落不能为空")))), w).
Proof.
  intros H. unfold Orchestrator.generate_images, try_except, bind.
  rewrite H. reflexivity.
Qed.

(** X8: a request with at least one segment is always answered, whatever
    the image backends and the compositor do: the response carries the
    identifier drawn for the batch and exactly one image per requested
    segment, in request order, and [total_count] is the number of requested
    segments. *)
Theorem nonempty_batch_is_answered (request : ImageGenerationRequest)
  (w : World) :
  gen_segments request <> [] ->
  exists response w',
    generate_images request w = (Ok response, w')
    /\ batch_id response = fst (uuid4 w)
    /\ map segment_id (images response) = map id (gen_segments request)
    /\ gen_total_count response = len (gen_segments request)
    /\ Forall2 image_of_segment (gen_segments request) (images response).
Proof.
  intros H. unfold Orchestrator.generate_images, try_except, bind.
  destruct (gen_segments request) as [|s ss] eqn:E; [congruence|].
  unfold ret at 1. destruct (uuid4 w) as [u w0]. cbn [fst].
  unfold generate_images_with_seedream.
  destruct (images_loop_spec lower client service_type openai_ready
              baidu_ready ali_ready images_generate _generate_with_volcano
              _generate_with_openai _generate_with_baidu _generate_with_ali
              render (s :: ss) (gen_style_prompt request) [] w0)
    as (new & w1 & -> & F).
  cbn [app]. unfold ret. eexists; eexists. split; [reflexivity|].
  cbn [batch_id images gen_total_count].
  split; [reflexivity|].
  destruct (image_of_segment_ids F) as [G1 G2]. split; [exact G1|]. split; [|exact F].
  unfold len. now rewrite G2.
Qed.

(** ** [POST /api/analyze-text] *)

Local Abbreviation analyze_text :=
  (analyze_text client doubao_segments str_of_exn).

(** X9: a text of one or two characters that is not blank passes the
    validation of the endpoint and then makes the Segmenter raise
    [ValueError]: the request is answered with status 500, before the
    language model is contacted. *)
Theorem two_character_text_answers_500 (request : TextAnalysisRequest)
  (w : World) :
  len (strip (text request)) <> 0 ->
  len (text request) < 3 ->
  analyze_text request w
  = (Raise (HTTPException 500 (py "文本分析失败: " ++ str_of_exn ValueError)), w).
Proof.
  intros Hs Hl.
  unfold Orchestrator.analyze_text, analyze_text_with, try_except, bind.
  apply Z.eqb_neq in Hs. rewrite Hs. unfold ret at 1.
  replace (len (text request) >? 10000) with false
    by (symmetry; rewrite Z.gtb_ltb; apply Z.ltb_ge; lia).
  unfold ret at 1. unfold analyze_text_with_doubao.
  rewrite tiny_text_value_error by exact Hl.
  reflexivity.
Qed.

End EndpointProperties.

(** X7, at the request without segments. *)
Lemma empty_batch_answers_500_witness :
  Orchestrator.generate_images (fun s => s) false (py "demo") false false false
    (fun _ => Orchestrator.ret Orchestrator.RespOther)
    (fun _ => Orchestrator.ret []) (fun _ => Orchestrator.ret [])
    (fun _ => Orchestrator.ret []) (fun _ => Orchestrator.ret [])
    (fun _ _ _ => Orchestrator.ret []) (fun _ => py "400")
    (fun w => (py "batch", w))
    {| Orchestrator.gen_segments := [];
       Orchestrator.gen_style_prompt := py "清新自然";
       Orchestrator.image_size := py "3:4" |} tt
  = (Raise (HTTPException 500
              (py "图片生成失败: "
               ++ (fun _ => py "400")
                    (HTTPException 400 (py "文本段落不能为空")))), tt).
Proof.
  apply (@empty_batch_answers_500 unit). reflexivity.
Defined.

(** X8, at a request with one segment. *)
Lemma nonempty_batch_is_answered_witness :
  exists response w',
    Orchestrator.generate_images Py.ascii_lower false (py "demo") false false
      false (fun _ => Orchestrator.ret Orchestrator.RespOther)
      (fun _ => Orchestrator.ret []) (fun _ => Orchestrator.ret [])
      (fun _ => Orchestrator.ret []) (fun _ => Orchestrator.ret [])
      (fun _ _ _ => Orchestrator.raise (ExternalError [])) (fun _ => [])
      (fun w => (py "batch", w))
      {| Orchestrator.gen_segments :=
           [{| Orchestrator.id := 1; Orchestrator.content := py "海边日落";
               Orchestrator.summary := py "日落";
               Orchestrator.image_prompt := py "sunset" |}];
         Orchestrator.gen_style_prompt := py "清新自然";
         Orchestrator.image_size := py "3:4" |} tt
    = (Ok response, w')
    /\ Orchestrator.batch_id response = py "batch"
    /\ map Orchestrator.segment_id (Orchestrator.images response) = [1%Z]
    /\ Orchestrator.gen_total_count response = 1%Z
    /\ Forall2 Orchestrator.image_of_segment
         [{| Orchestrator.id := 1; Orchestrator.content := py "海边日落";
             Orchestrator.summary := py "日落";
             Orchestrator.image_prompt := py "sunset" |}]
         (Orchestrator.images response).
Proof.
  apply (@nonempty_batch_is_answered unit Py.ascii_lower false (py "demo")
           false false false (fun _ => Orchestrator.ret Orchestrator.RespOther)
           (fun _ => Orchestrator.ret []) (fun _ => Orchestrator.ret [])
           (fun _ => Orchestrator.ret []) (fun _ => Orchestrator.ret [])
           (fun _ _ _ => Orchestrator.raise (ExternalError [])) (fun _ => [])
           (fun w => (py "batch", w))
           {| Orchestrator.gen_segments :=
                [{| Orchestrator.id := 1; Orchestrator.content := py "海边日落";
                    Orchestrator.summary := py "日落";
                    Orchestrator.image_prompt := py "sunset" |}];
              Orchestrator.gen_style_prompt := py "清新自然";
              Orchestrator.image_size := py "3:4" |} tt).
  discriminate.
Defined.

(** X9, at a text of two characters. *)
Lemma two_character_text_answers_500_witness :
  Orchestrator.analyze_text false
    (fun _ _ _ => Orchestrator.raise (ExternalError [])) (fun _ => py "range() arg 3 must not be zero")
    {| Orchestrator.text := py "好的";
       Orchestrator.style_prompt := None;
       Orchestrator.max_segments := Some 10%Z |} tt
  = (Raise (HTTPException 500
              (py "文本分析失败: " ++ py "range() arg 3 must not be zero")), tt).
Proof.
  apply (@two_character_text_answers_500 unit false
           (fun _ _ _ => Orchestrator.raise (ExternalError []))
           (fun _ => py "range() arg 3 must not be zero")
           {| Orchestrator.text := py "好的";
              Orchestrator.style_prompt := None;
              Orchestrator.max_segments := Some 10%Z |} tt).
  - vm_compute. discriminate.
  - vm_compute. reflexivity.
Defined.

Section AnalysisProperties.

Import Classifier Orchestrator.
Local Open Scope Z_scope.

Variable World : Type.
Variable doubao_segments : list str -> str -> str -> M World (list TextSegment).
Variable str_of_exn : exn -> str.

(** ** The local segments *)








(** X11: a failure of the language model is invisible to the caller of the
    endpoint: if the request to the model (or the decoding of its answer)
    raises, the endpoint answers exactly what it answers without a remote
    client, be it the local segments or an error. *)
Theorem model_failure_gives_local_analysis (request : TextAnalysisRequest)
  (w : World) :
  (forall raw_segments text_type style_prompt,
     exists e w', doubao_segments raw_segments text_type style_prompt w
                  = (Raise e, w')) ->
  fst (analyze_text true doubao_segments str_of_exn request w)
  = fst (analyze_text false doubao_segments str_of_exn request w).
Proof.
  intros H. unfold analyze_text, analyze_text_with, try_except, bind.
  destruct (len (strip (text request)) =? 0); [reflexivity|].
  unfold ret at 1 4.
  destruct (len (text request) >? 10000); [reflexivity|].
  unfold ret at 1 3. unfold analyze_text_with_doubao.
  destruct (Segmenter._smart_segment_text (text request)
              (_detect_text_type (text request))) as [chunks|e];
    [|reflexivity].
  cbn [negb]. unfold try_except.
  match goal with
  | |- context [doubao_segments ?a ?b ?c w] =>
    destruct (H a b c) as (e & w' & ->)
  end.
  unfold ret. reflexivity.
Qed.

End AnalysisProperties.


(** X11, for a model that always times out. *)
Lemma model_failure_gives_local_analysis_witness :
  fst (Orchestrator.analyze_text true
         (fun _ _ _ => Orchestrator.raise (ExternalError (py "timeout")))
         (fun _ => [])
         {| Orchestrator.text := py "今天去海边看日落";
            Orchestrator.style_prompt := None;
            Orchestrator.max_segments := None |} tt)
  = fst (Orchestrator.analyze_text false
           (fun _ _ _ => Orchestrator.raise (ExternalError (py "timeout")))
           (fun _ => [])
           {| Orchestrator.text := py "今天去海边看日落";
              Orchestrator.style_prompt := None;
              Orchestrator.max_segments := None |} tt).
Proof.
  apply (@model_failure_gives_local_analysis unit
           (fun _ _ _ => Orchestrator.raise (ExternalError (py "timeout")))).
  intros raw_segments text_type style_prompt.
  exists (ExternalError (py "timeout")), tt. reflexivity.
Defined.

Section OfflineProperties.

Import Classifier Orchestrator.
Local Open Scope Z_scope.

Variable World : Type.
Variable lower : str -> str.
Variables openai_ready baidu_ready ali_ready : bool.
Variable images_generate : str -> M World response.
Variables _generate_with_volcano _generate_with_openai
          _generate_with_baidu _generate_with_ali : str -> M World str.
Variable render : str -> str -> str -> M World str.
Variable doubao_segments : list str -> str -> str -> M World (list TextSegment).
Variable str_of_exn : exn -> str.

(** ** The default configuration without the raster pipeline *)






(** ** A limit that is not positive *)


End OfflineProperties.




(* ===================================================================== *)
(** * ImageMatcher: the scores *)
(* ===================================================================== *)

Section MatcherScores.

Import ImageMatcher.
Local Open Scope Z_scope.

(** ** Occurrences *)

Lemma prefix_app_refl (p b : str) : prefix p (p ++ b) = true.
Proof.
  induction p as [|x p IH]; simpl; [reflexivity|].
  now rewrite N.eqb_refl, IH.
Qed.

Lemma contains_cons (sub : str) (c : char) (t : str) :
  contains sub (c :: t) = prefix sub (c :: t) || contains sub t.
Proof. reflexivity. Qed.

(** [sub in s] holds exactly when [sub] is a contiguous piece of [s]. *)
Lemma contains_substring (sub s : str) :
  contains sub s = true <-> substring sub s.
Proof.
  split.
  - induction s as [|c t IH].
    + simpl. rewrite orb_false_r. intros H.
      destruct sub; [apply substring_nil|discriminate].
    + rewrite contains_cons. intros H. apply orb_true_iff in H as [H|H].
      * apply prefix_app in H. exists [], (skipn (List.length sub) (c :: t)).
        exact H.
      * destruct (IH H) as (a & b & ->). exists (c :: a), b. reflexivity.
  - intros (a & b & ->). induction a as [|x a IH].
    + cbn [app]. destruct (sub ++ b) as [|c t] eqn:E.
      * apply app_eq_nil in E as [-> _]. reflexivity.
      * rewrite contains_cons, <- E, prefix_app_refl. reflexivity.
    + cbn [app]. rewrite contains_cons, IH. apply orb_true_r.
Qed.

Lemma substring_avoids (sub a b : str) (c : char) :
  sub <> [] -> ~ In c sub ->
  substring sub (a ++ c :: b) -> substring sub a \/ substring sub b.
Proof.
  intros Hne Hc (x & y & E).
  apply app_eq_app in E as [l [[E1 E2]|[E1 E2]]].
  - apply app_eq_app in E2 as [m [[E3 E4]|[E3 E4]]].
    + destruct m as [|d m].
      * left. exists x, []. rewrite app_nil_r in E3.
        rewrite app_nil_r, E3. exact E1.
      * exfalso. apply Hc. cbn [app] in E4. injection E4 as E5 _.
        rewrite E3, <- E5. apply in_or_app. right. now left.
    + left. exists x, m. subst. reflexivity.
  - destruct l as [|d l].
    + exfalso. apply Hc. cbn [app] in E2.
      destruct sub as [|s0 sub']; [congruence|].
      cbn [app] in E2. injection E2 as E3 _. rewrite E3. now left.
    + cbn [app] in E2. injection E2 as _ E2. right. exists l, y. exact E2.
Qed.

(** A whitespace-free piece of a string lies inside one of its words. *)
Lemma split_ws_go_word (sub : str) :
  sub <> [] -> Forall (fun c => isspace c = false) sub ->
  forall s cur,
    substring sub (rev cur ++ s) ->
    exists w, In w (split_ws_go s cur) /\ substring sub w.
Proof.
  intros Hne Hs. induction s as [|c t IH]; intros cur H.
  - rewrite app_nil_r in H. cbn [split_ws_go].
    destruct cur as [|d cur].
    + apply substring_of_nil in H. congruence.
    + exists (rev (d :: cur)). split; [now left|exact H].
  - cbn [split_ws_go]. destruct (isspace c) eqn:E.
    + apply substring_avoids in H; [|exact Hne|].
      2:{ intros Hin. rewrite Forall_forall in Hs. apply Hs in Hin. congruence. }
      destruct H as [H|H].
      * destruct cur as [|d cur].
        -- apply substring_of_nil in H. congruence.
        -- exists (rev (d :: cur)). split; [now left|exact H].
      * destruct (IH [] H) as (w & Hw & Hsub).
        exists w. split; [|exact Hsub].
        destruct cur; [exact Hw|now right].
    + apply IH. cbn [rev]. now rewrite <- app_assoc.
Qed.

Lemma index_where_found {A : Type} (f : A -> bool) (l : list A) :
  forall i w,
    In w l -> f w = true ->
    exists j x,
      index_where f l i = Some (i + j)%nat
      /\ nth_error l j = Some x /\ f x = true.
Proof.
  induction l as [|y l IH]; intros i w Hin Hf; [destruct Hin|].
  cbn [index_where]. destruct (f y) eqn:E.
  - exists 0%nat, y. rewrite Nat.add_0_r. auto.
  - destruct Hin as [->|Hin]; [congruence|].
    destruct (IH (S i) w Hin Hf) as (j & x & E1 & E2 & E3).
    exists (S j), x. rewrite E1. split; [f_equal; lia|]. auto.
Qed.

Lemma join_nonempty (sep : str) (l : list str) (w : str) :
  In w l -> w <> [] -> join sep l <> [].
Proof.
  induction l as [|p rest IH]; intros Hin Hw; [destruct Hin|].
  destruct rest as [|q rest].
  - destruct Hin as [->|[]]. exact Hw.
  - rewrite join_cons by discriminate. intros E.
    apply app_eq_nil in E as [E1 E2]. apply app_eq_nil in E2 as [_ E2].
    destruct Hin as [->|Hin]; [contradiction|]. now apply IH.
Qed.

Lemma context_at_nonempty (words : list str) (i : nat) (x : str) :
  nth_error words i = Some x -> x <> [] -> context_at words i <> [].
Proof.
  intros Hn Hx. unfold context_at. apply join_nonempty with (w := x); [|exact Hx].
  unfold slice. apply nth_error_In with (n := (i - (i - 2))%nat).
  assert (L : (i < List.length words)%nat)
    by (apply nth_error_Some; congruence).
  rewrite nth_error_firstn.
  replace (i - (i - 2) <? Nat.min (List.length words) (i + 3) - (i - 2))%nat
    with true by (symmetry; apply Nat.ltb_lt; lia).
  rewrite nth_error_skipn.
  replace (i - 2 + (i - (i - 2)))%nat with i by lia. exact Hn.
Qed.

(** The context of an emotion word that occurs in the prompt is never
    empty. *)
Lemma emotion_context_nonempty (prompt_text emotion : str) :
  emotion <> [] -> Forall (fun c => isspace c = false) emotion ->
  contains emotion prompt_text = true ->
  truthy (_get_emotion_context prompt_text emotion) = true.
Proof.
  intros Hne Hs Hc. apply contains_substring in Hc.
  destruct (@split_ws_go_word emotion Hne Hs prompt_text [] Hc)
    as (w & Hw & Hsub).
  apply contains_substring in Hsub.
  destruct (index_where_found (contains emotion) (split_ws prompt_text) 0 w
              Hw Hsub) as (j & x & E1 & E2 & E3).
  unfold _get_emotion_context. fold (split_ws prompt_text) in E1.
  rewrite E1. cbn [Nat.add].
  assert (Hx : x <> []).
  { intros ->. apply contains_substring, substring_of_nil in E3. congruence. }
  pose proof (@context_at_nonempty _ _ _ E2 Hx) as N.
  destruct (context_at (split_ws prompt_text) j); [congruence|reflexivity].
Qed.

Lemma emotion_score_fold (prompt_text : str) (es : list str) :
  Forall (fun e => e <> [] /\ Forall (fun c => isspace c = false) e) es ->
  forall acc,
    fold_left
      (fun emotion_score emotion =>
         if contains emotion prompt_text then
           let emotion_score := emotion_score + 2 in
           if truthy (_get_emotion_context prompt_text emotion)
           then emotion_score + 1 else emotion_score
         else emotion_score) es acc
    = acc + 3 * len (filter (fun e => contains e prompt_text) es).
Proof.
  induction 1 as [|e es [Hne Hs] _ IH]; intros acc.
  - simpl. unfold len. simpl. lia.
  - cbn [fold_left filter]. rewrite IH.
    destruct (contains e prompt_text) eqn:E.
    + cbv zeta. rewrite (@emotion_context_nonempty _ _ Hne Hs E).
      unfold len. cbn [List.length]. lia.
    + reflexivity.
Qed.

Lemma table_emotions_are_words :
  Forall (fun '(_, td) =>
            Forall (fun e => e <> [] /\ Forall (fun c => isspace c = false) e)
              (emotions td)) enhanced_theme_mapping.
Proof.
  assert (F : forallb (fun '(_, td) =>
                forallb (fun e => truthy e && forallb (fun c => negb (isspace c)) e)
                  (emotions td)) enhanced_theme_mapping = true)
    by (vm_compute; reflexivity).
  rewrite forallb_forall in F. apply Forall_forall. intros [theme td] Hin.
  specialize (F _ Hin). cbv beta iota in F. rewrite forallb_forall in F.
  apply Forall_forall. intros e He. specialize (F _ He).
  apply andb_true_iff in F as [F1 F2]. split.
  - intros ->. discriminate F1.
  - apply Forall_forall. intros c Hc. rewrite forallb_forall in F2.
    specialize (F2 _ Hc). now destruct (isspace c).
Qed.

(** X12: for every theme of the table and every prompt, the emotion score
    is exactly 3 for each emotion word of the theme that occurs in the
    prompt.  The bonus point for a non-empty context is always granted: the
    context returned by [_get_emotion_context] for a word that occurs in
    the prompt is never empty. *)
Theorem emotion_score_is_three_per_match :
  Forall (fun '(_, td) =>
            forall prompt_text,
              emotion_score td prompt_text
              = 3 * len (filter (fun e => contains e prompt_text) (emotions td)))
    enhanced_theme_mapping.
Proof.
  eapply Forall_impl; [|exact table_emotions_are_words].
  intros [theme td] H prompt_text. unfold emotion_score.
  now rewrite emotion_score_fold.
Qed.

End MatcherScores.

Section MatcherKeywords.

Import ImageMatcher.
Local Open Scope Z_scope.

(** ** The keyword score *)

Lemma count_go_nonneg (sub s : str) : forall skip, 0 <= count_go sub s skip.
Proof.
  induction s as [|c t IH]; intros skip; cbn [count_go]; [lia|].
  destruct skip as [|k]; [|apply IH].
  destruct (prefix sub (c :: t)); [|apply IH].
  pose proof (IH (List.length sub - 1)%nat). lia.
Qed.

(** A string that occurs is counted at least once. *)
Lemma count_positive (sub s : str) :
  sub <> [] -> contains sub s = true -> 1 <= count s sub.
Proof.
  intros Hne. unfold count. destruct sub as [|x sub']; [congruence|].
  induction s as [|c t IH]; intros H.
  - simpl in H. discriminate H.
  - rewrite contains_cons in H. cbn [count_go].
    destruct (prefix (x :: sub') (c :: t)).
    + pose proof (count_go_nonneg (x :: sub') t (List.length (x :: sub') - 1)).
      lia.
    + apply IH. exact H.
Qed.

Lemma keyword_score_fold (prompt_text : str) (ks : list str) :
  Forall (fun k => k <> []) ks ->
  forall acc,
    let m := len (filter (fun k => contains k prompt_text) ks) in
    let r := fold_left
      (fun keyword_score keyword =>
         if contains keyword prompt_text then
           let keyword_score := keyword_score + 3 in
           let position := find prompt_text keyword in
           let keyword_score :=
             if PrimFloat.ltb (float_of_int position)
                  (PrimFloat.mul (float_of_int (len prompt_text)) f0_3)
             then keyword_score + 1 else keyword_score in
           let frequency := count prompt_text keyword in
           keyword_score + Z.min (frequency - 1) 2
         else keyword_score) ks acc in
    acc + 3 * m <= r <= acc + 6 * m.
Proof.
  induction 1 as [|k ks Hk _ IH]; intros acc; cbv zeta.
  - simpl. unfold len. simpl. lia.
  - cbn [fold_left filter]. destruct (contains k prompt_text) eqn:E.
    + pose proof (@count_positive k prompt_text Hk E) as C.
      match goal with
      | |- context [fold_left ?f ks ?a] =>
        specialize (IH a); cbv zeta in IH;
          assert (B : acc + 3 <= a <= acc + 6)
            by (destruct (PrimFloat.ltb _ _); lia);
          remember a as a' eqn:Ea; clear Ea
      end.
      unfold len in *. cbn [List.length]. lia.
    + apply IH.
Qed.

Lemma table_keywords_nonempty :
  Forall (fun '(_, td) => Forall (fun k => k <> []) (keywords td))
    enhanced_theme_mapping.
Proof.
  assert (F : forallb (fun '(_, td) => forallb truthy (keywords td))
                enhanced_theme_mapping = true)
    by (vm_compute; reflexivity).
  rewrite forallb_forall in F. apply Forall_forall. intros [theme td] Hin.
  specialize (F _ Hin). cbv beta iota in F. rewrite forallb_forall in F.
  apply Forall_forall. intros k Hk Hn. specialize (F _ Hk).
  subst k. discriminate F.
Qed.

(** X13: for every theme of the table and every prompt, each keyword of the
    theme that occurs in the prompt adds between 3 and 6 points to the
    keyword score and the other keywords add nothing; in particular the
    keyword score is 0 exactly when no keyword of the theme occurs. *)
Theorem keyword_score_bounds :
  Forall (fun '(_, td) =>
            forall prompt_text,
              let m := len (filter (fun k => contains k prompt_text)
                              (keywords td)) in
              3 * m <= keyword_score td prompt_text <= 6 * m
              /\ (keyword_score td prompt_text = 0
                  <-> any_in (keywords td) prompt_text = false))
    enhanced_theme_mapping.
Proof.
  eapply Forall_impl; [|exact table_keywords_nonempty].
  intros [theme td] H prompt_text. cbv zeta.
  pose proof (@keyword_score_fold prompt_text _ H 0) as B. cbv zeta in B.
  fold (keyword_score td prompt_text) in B.
  split; [lia|].
  assert (M : len (filter (fun k => contains k prompt_text) (keywords td)) = 0
              <-> any_in (keywords td) prompt_text = false).
  { unfold any_in. clear. induction (keywords td) as [|k ks IH]; simpl.
    - unfold len. simpl. tauto.
    - destruct (contains k prompt_text); simpl.
      + unfold len. simpl. split; [lia|discriminate].
      + exact IH. }
  assert (P : 0 <= len (filter (fun k => contains k prompt_text) (keywords td)))
    by (unfold len; lia).
  rewrite <- M. lia.
Qed.

End MatcherKeywords.

Section MatcherCase.

Import ImageMatcher.
Local Open Scope Z_scope.

(** ** Lower-casing against the table *)

Lemma fold_left_filter_neutral {A B : Type} (f : A -> B -> A) (g : B -> bool)
  (l : list B) :
  (forall acc x, In x l -> g x = false -> f acc x = acc) ->
  forall acc, fold_left f l acc = fold_left f (filter g l) acc.
Proof.
  induction l as [|x l IH]; intros H acc; [reflexivity|].
  cbn [fold_left filter]. destruct (g x) eqn:E.
  - cbn [fold_left]. apply IH. intros a y Hy. apply H. now right.
  - rewrite (H acc x); [|now left|exact E].
    apply IH. intros a y Hy. apply H. now right.
Qed.

Lemma ascii_lower_has_no_capitals (s : str) (c : char) :
  In c (ascii_lower s) -> ((65 <=? c) && (c <=? 90))%N = false.
Proof.
  unfold ascii_lower. intros H. apply in_map_iff in H as (d & <- & _).
  destruct ((65 <=? d) && (d <=? 90))%N eqn:E; [|exact E].
  apply andb_true_iff in E as [E1 E2].
  apply N.leb_le in E1, E2. apply andb_false_iff. right.
  apply N.leb_gt. lia.
Qed.

(** X14: the prompt is lower-cased before it is matched, the table is not.
    So the semantic word ["CBD"] of the theme [city_modern] never occurs
    in the matched text, and the semantic score of the theme is the one
    it would have without that word.  The only assumption on [str.lower] is
    that its result holds no capital letter from A to Z. *)
Theorem capital_semantic_word_never_matches (lower : str -> str) (prompt : str) :
  (forall s c, In c (lower s) -> ((65 <=? c) && (c <=? 90))%N = false) ->
  exists td,
    lookup (py "city_modern") enhanced_theme_mapping = Some td
    /\ In (py "CBD") (semantic td)
    /\ contains (py "CBD") (lower prompt) = false
    /\ semantic_score td (lower prompt)
       = semantic_score
           {| keywords := keywords td;
              semantic := filter (fun k => negb (str_eqb k (py "CBD")))
                            (semantic td);
              emotions := emotions td |} (lower prompt).
Proof.
  intros H.
  assert (T : match lookup (py "city_modern") enhanced_theme_mapping with
              | Some td => mem_str (py "CBD") (semantic td)
              | None => false
              end = true) by (vm_compute; reflexivity).
  destruct (lookup (py "city_modern") enhanced_theme_mapping) as [td|];
    [|discriminate].
  exists td. split; [reflexivity|].
  assert (C : contains (py "CBD") (lower prompt) = false).
  { destruct (contains (py "CBD") (lower prompt)) eqn:E; [|reflexivity].
    assert (I : In 67%N (lower prompt)).
    { eapply contains_In; [exact E|]. vm_compute. now left. }
    apply H in I. discriminate I. }
  split; [|split; [exact C|]].
  - unfold mem_str in T. apply existsb_exists in T as (k & Hk & Ek).
    apply str_eqb_eq in Ek. now subst k.
  - unfold semantic_score. cbn [semantic keywords].
    apply fold_left_filter_neutral.
    intros acc k _ Ek. apply negb_false_iff, str_eqb_eq in Ek. subst k.
    now rewrite C.
Qed.

End MatcherCase.

(** X14, for the lower-casing of the ASCII letters. *)
Lemma capital_semantic_word_never_matches_witness :
  exists td,
    ImageMatcher.lookup (py "city_modern") ImageMatcher.enhanced_theme_mapping
    = Some td
    /\ In (py "CBD") (ImageMatcher.semantic td)
    /\ contains (py "CBD") (ascii_lower (py "CBD商业区的高楼")) = false
    /\ ImageMatcher.semantic_score td (ascii_lower (py "CBD商业区的高楼"))
       = ImageMatcher.semantic_score
           {| ImageMatcher.keywords := ImageMatcher.keywords td;
              ImageMatcher.semantic :=
                filter (fun k => negb (str_eqb k (py "CBD")))
                  (ImageMatcher.semantic td);
              ImageMatcher.emotions := ImageMatcher.emotions td |}
           (ascii_lower (py "CBD商业区的高楼")).
Proof.
  apply (@capital_semantic_word_never_matches ascii_lower
           (py "CBD商业区的高楼")).
  exact ascii_lower_has_no_capitals.
Defined.

(* ===================================================================== *)
(** * StyleResolver and PromptComposer: what the content can select *)
(* ===================================================================== *)

Section StyleProperties.

Import Classifier Composer.
Local Open Scope Z_scope.

Local Ltac pick := solve [repeat first [left; reflexivity | right]].

(** ** The atmosphere read from a text *)

Lemma extracted_atmosphere (text : str) :
  In (atmosphere (elements (_extract_article_core_info text)))
    (atmosphere_words ++ map py ["简约"; "清新"; "温馨"; "自然"]%string).
Proof.
  unfold _extract_article_core_info. cbn [elements atmosphere].
  apply in_or_app.
  destruct (List.find (fun word => contains word text) atmosphere_words)
    as [word|] eqn:F.
  - left. now apply find_some in F.
  - right. cbn [map In].
    destruct (any_in _ text); [pick|].
    destruct (any_in _ text); [pick|].
    destruct (any_in _ text); pick.
Qed.

Lemma atmosphere_is_never_retro (a : str) :
  In a (atmosphere_words ++ map py ["简约"; "清新"; "温馨"; "自然"]%string) ->
  contains (py "文艺") a || contains (py "怀旧") a = false.
Proof.
  assert (F : forallb (fun a => negb (contains (py "文艺") a
                                      || contains (py "怀旧") a))
                (atmosphere_words
                 ++ map py ["简约"; "清新"; "温馨"; "自然"]%string) = true)
    by (vm_compute; reflexivity).
  rewrite forallb_forall in F. intros H. apply F in H.
  now apply negb_true_iff in H.
Qed.

Lemma content_style_not_retro (ci : core_info) (text_type style_prompt : str) :
  contains (py "文艺") (atmosphere (elements ci))
  || contains (py "怀旧") (atmosphere (elements ci)) = false ->
  truthy style_prompt && negb (str_eqb style_prompt (py "现代简约风格")) = false ->
  _determine_unified_style ci text_type style_prompt <> LiteraryRetro.
Proof.
  intros Ha Hs. unfold _determine_unified_style. rewrite Hs, Ha.
  repeat match goal with
         | |- (if ?b then _ else _) <> _ => destruct b
         end; discriminate.
Qed.

(** X15: the literary-retro template is chosen only on the user's word.
    Whatever the text, the style resolved from its content alone (no hint,
    or the default hint ["现代简约风格"]) is never 文艺复古; in particular
    the 【视觉元素】 and the 【细节补充】 sections, which resolve the style
    without the hint, never use that template. *)
Theorem content_never_selects_literary_retro (text text_type : str) :
  let ci := _extract_article_core_info text in
  _determine_unified_style ci text_type [] <> LiteraryRetro
  /\ _determine_unified_style ci text_type (py "现代简约风格") <> LiteraryRetro
  /\ style_of_visual ci <> LiteraryRetro
  /\ style_of_details ci text_type <> LiteraryRetro.
Proof.
  cbv zeta.
  pose proof (@atmosphere_is_never_retro _ (extracted_atmosphere text)) as A.
  unfold style_of_visual, style_of_details.
  repeat split; apply content_style_not_retro; try exact A; reflexivity.
Qed.

(** ** The type tag in the detail section *)

(** X16: the detail section compares the type tag with ["叙事文"] and
    ["说明文"], but the tags the classifier produces are ["narrative"],
    ["argumentative"] and ["descriptive"].  So for the tag of any text the
    section always ends with the generic ["视觉美感"]: the type-specific
    requirements are never emitted. *)
Theorem type_specific_details_are_never_emitted (text : str) (ci : core_info) :
  _build_detail_supplements ci (_detect_text_type text)
  = join (py "，")
      [py "高清摄影"; py "专业构图";
       texture (STYLE_TEMPLATES (style_of_details ci (_detect_text_type text)));
       py "视觉美感"].
Proof.
  assert (N : forallb (fun tag => negb (str_eqb tag (py "叙事文"))
                                  && negb (str_eqb tag (py "说明文")))
                [narrative; argumentative; descriptive] = true)
    by (vm_compute; reflexivity).
  rewrite forallb_forall in N.
  assert (T : In (_detect_text_type text)
                [narrative; argumentative; descriptive]).
  { destruct (detect_text_type_total text) as [-> | [-> | ->]]; pick. }
  apply N in T. apply andb_true_iff in T as [T1 T2].
  apply negb_true_iff in T1, T2.
  unfold _build_detail_supplements. now rewrite T1, T2.
Qed.

(** ** Bounds on what is extracted *)

Lemma take_cjk_all (n : nat) :
  forall s, Forall (fun c => is_cjk c = true) (take_cjk n s).
Proof.
  induction n as [|n IH]; intros [|c s]; cbn [take_cjk]; try constructor.
  destruct (is_cjk c) eqn:E; constructor; [exact E|apply IH].
Qed.

Lemma findall_cjk_go_words (s : str) :
  forall skip,
    Forall (fun m => 2 <= len m <= 6 /\ Forall (fun c => is_cjk c = true) m)
      (findall_cjk_go s skip).
Proof.
  induction s as [|c t IH]; intros skip; cbn [findall_cjk_go]; [constructor|].
  destruct skip as [|k]; [|apply IH].
  destruct (is_cjk c && match t with d :: _ => is_cjk d | [] => false end)
    eqn:E; [|apply IH].
  constructor; [|apply IH].
  split; [|apply take_cjk_all].
  pose proof (take_cjk_len 6 (c :: t)) as U. split; [|unfold len; lia].
  apply andb_true_iff in E as [E1 E2]. destruct t as [|d t]; [discriminate|].
  cbn [take_cjk]. rewrite E1, E2. unfold len. cbn [List.length]. lia.
Qed.

Lemma collect_key_scenes_bounds (sentences : list str) :
  forall acc : list str,
    len acc < 2 -> Forall (fun s : str => len s <= 40) acc ->
    len (collect_key_scenes sentences acc) <= 2
    /\ Forall (fun s : str => len s <= 40) (collect_key_scenes sentences acc).
Proof.
  induction sentences as [|sentence rest IH]; intros acc L F;
    cbn [collect_key_scenes].
  - split; [apply Z.lt_le_incl; exact L|exact F].
  - assert (K : forall X : list str,
               len X <= 2 -> Forall (fun s : str => len s <= 40) X ->
               len (if len X >=? 2 then X else collect_key_scenes rest X) <= 2
               /\ Forall (fun s : str => len s <= 40)
                    (if len X >=? 2 then X else collect_key_scenes rest X)).
    { intros X B1 B2. destruct (len X >=? 2) eqn:G; [split; assumption|].
      apply IH; [|exact B2]. rewrite Z.geb_leb in G. now apply Z.leb_gt in G. }
    match goal with
    | |- context [existsb ?f descriptive_patterns] =>
      destruct (existsb f descriptive_patterns) eqn:E
    end.
    + apply K.
      * rewrite len_app. change (len [sentence]) with 1.
        change 2 with (1 + 1). apply Z.add_le_mono_r.
        apply Z.lt_succ_r. exact L.
      * apply Forall_app. split; [exact F|]. constructor; [|constructor].
        apply existsb_exists in E as (p & _ & Hp).
        apply andb_true_iff in Hp as [_ Hp]. now apply Z.leb_le in Hp.
    + apply K; [apply Z.lt_le_incl; exact L|exact F].
Qed.

(** X17: whatever the text, the extracted core information stays within
    fixed bounds: the main theme is empty or a run of 2 to 6 CJK characters,
    there are at most two key scenes of at most 40 characters each, the
    content focus has at most 51 characters, and the atmosphere is never
    empty: it is one of the eleven atmosphere words or one of the four
    defaults. *)
Theorem core_info_is_bounded (text : str) :
  let ci := _extract_article_core_info text in
  (main_theme ci = []
   \/ (2 <= len (main_theme ci) <= 6
       /\ Forall (fun c => is_cjk c = true) (main_theme ci)))
  /\ len (key_scenes ci) <= 2
  /\ Forall (fun s => len s <= 40) (key_scenes ci)
  /\ len (content_focus ci) <= 51
  /\ atmosphere (elements ci) <> []
  /\ In (atmosphere (elements ci))
       (atmosphere_words ++ map py ["简约"; "清新"; "温馨"; "自然"]%string).
Proof.
  cbv zeta. split; [|split; [|split; [|split; [|split]]]].
  - unfold _extract_article_core_info. cbn [main_theme].
    destruct (map strip _) as [|first rest]; [now left|].
    pose proof (findall_cjk_go_words first 0) as F.
    fold (findall_cjk first) in F.
    destruct (findall_cjk first) as [|kw kws]; [now left|].
    right. now inversion F.
  - unfold _extract_article_core_info. cbn [key_scenes].
    apply collect_key_scenes_bounds; [reflexivity|constructor].
  - unfold _extract_article_core_info. cbn [key_scenes].
    apply collect_key_scenes_bounds; [reflexivity|constructor].
  - unfold _extract_article_core_info. cbn [content_focus].
    destruct (map strip _) as [|first rest]; [vm_compute; discriminate|].
    match goal with
    | |- context [map (firstn 25) ?l] =>
      assert (F : Forall (fun p : str => len p <= 25) (map (firstn 25) l))
    end.
    { apply Forall_forall. intros p Hp. apply in_map_iff in Hp as (q & <- & _).
      unfold len. pose proof (firstn_le_length 25 q). lia. }
    match goal with
    | |- context [map (firstn 25) ?l] => destruct (map (firstn 25) l) as [|p [|q r]]
    end.
    + vm_compute; discriminate.
    + cbn [firstn join]. inversion F; subst. lia.
    + cbn [firstn join]. inversion F as [|? ? Hp F']; subst.
      inversion F' as [|? ? Hq _]; subst.
      rewrite !len_app. change (len (py "，")) with 1. lia.
  - pose proof (extracted_atmosphere text) as A.
    assert (N : forallb truthy
                  (atmosphere_words
                   ++ map py ["简约"; "清新"; "温馨"; "自然"]%string) = true)
      by (vm_compute; reflexivity).
    rewrite forallb_forall in N. apply N in A. intros E. rewrite E in A.
    discriminate A.
  - apply extracted_atmosphere.
Qed.

End StyleProperties.

(* ===================================================================== *)
(** * ImageComposer: line wrapping *)
(* ===================================================================== *)

Section WrapProperties.

Import Segmenter Wrapper.
Local Open Scope Z_scope.

Variable width : str -> Z.
Variable max_width : Z.

Lemma nonws_replace_char (old : char) (new : str) (s : str) :
  nonws new = nonws [old] -> nonws (replace_char old new s) = nonws s.
Proof.
  intros H. unfold replace_char.
  induction s as [|c s IH]; [reflexivity|].
  cbn [flat_map]. rewrite nonws_app, IH, (nonws_cons c s).
  destruct (c =? old)%N eqn:E; [|reflexivity].
  apply N.eqb_eq in E. subst c. now rewrite H.
Qed.

Lemma nonws_split_go_newline (s : str) :
  forall cur,
    nonws (List.concat (split_go newline s 0 cur)) = nonws (rev cur) ++ nonws s.
Proof.
  induction s as [|c t IH]; intros cur.
  - cbn [split_go List.concat]. now rewrite !app_nil_r.
  - cbn [split_go]. change (List.length newline - 1)%nat with 0%nat.
    destruct (prefix newline (c :: t)) eqn:P.
    + cbn [List.concat]. rewrite nonws_app, IH.
      unfold newline in P. cbn [prefix] in P.
      apply andb_true_iff in P as [P _]. apply N.eqb_eq in P. subst c.
      reflexivity.
    + rewrite IH. cbn [rev]. rewrite nonws_app, <- app_assoc.
      now rewrite (nonws_cons c t).
Qed.

Lemma nonws_sentences_of (text : str) :
  nonws (List.concat (sentences_of text)) = nonws text.
Proof.
  unfold sentences_of, split. rewrite nonws_split_go_newline.
  cbn [rev app].
  rewrite !nonws_replace_char; [reflexivity|..]; vm_compute; reflexivity.
Qed.

Lemma split_go_newline_free (s : str) :
  forall cur,
    ~ In 10%N cur ->
    Forall (fun p => ~ In 10%N p) (split_go newline s 0 cur).
Proof.
  induction s as [|c t IH]; intros cur H.
  - cbn [split_go]. constructor; [|constructor].
    intros Hin. apply H. now apply in_rev.
  - cbn [split_go]. change (List.length newline - 1)%nat with 0%nat.
    destruct (prefix newline (c :: t)) eqn:P.
    + constructor; [|apply IH; tauto].
      intros Hin. apply H. now apply in_rev.
    + apply IH. intros [E|Hin]; [|tauto].
      subst c. unfold newline in P. cbn [prefix] in P.
      rewrite N.eqb_refl in P. destruct t; discriminate P.
Qed.

(** What the two loops keep: the characters held, and the shape of the
    lines. *)
Lemma word_step_held (st : wrap_state) (word : char) :
  held (word_step width max_width st word) = held st ++ nonws [word].
Proof.
  destruct st as [lines cur]. unfold word_step, held.
  destruct (width (cur ++ [word]) <=? max_width); cbn [fst snd].
  - now rewrite nonws_app, app_assoc.
  - destruct cur as [|c cur]; cbn [truthy].
    + change (nonws []) with (@nil char). now rewrite app_nil_r.
    + rewrite concat_snoc, nonws_app, <- app_assoc. reflexivity.
Qed.

Lemma word_loop_held (sentence : str) :
  forall st,
    held (fold_left (word_step width max_width) sentence st)
    = held st ++ nonws sentence.
Proof.
  induction sentence as [|c t IH]; intros st; cbn [fold_left].
  - now rewrite app_nil_r.
  - rewrite IH, word_step_held, (nonws_cons c t), <- app_assoc. reflexivity.
Qed.

Lemma sentence_step_held (st : wrap_state) (sentence : str) :
  held (sentence_step width max_width st sentence) = held st ++ nonws sentence.
Proof.
  destruct st as [lines cur]. unfold sentence_step.
  destruct (truthy (strip sentence)) eqn:T; cbn [negb].
  - cbv zeta.
    destruct (width (cur ++ strip sentence) <=? max_width).
    + unfold held. cbn [fst snd].
      now rewrite nonws_app, nonws_strip, app_assoc.
    + destruct (len (strip sentence) >? 20).
      * rewrite word_loop_held. unfold held. cbn [fst snd].
        rewrite held_append_if_nonblank, nonws_strip.
        now rewrite app_nil_r.
      * unfold held. cbn [fst snd].
        now rewrite held_append_if_nonblank, nonws_strip.
  - apply truthy_strip in T. rewrite T. now rewrite app_nil_r.
Qed.

Lemma sentence_loop_held (sentences : list str) :
  forall st,
    held (fold_left (sentence_step width max_width) sentences st)
    = held st ++ nonws (List.concat sentences).
Proof.
  induction sentences as [|s rest IH]; intros st; cbn [fold_left List.concat].
  - now rewrite app_nil_r.
  - rewrite IH, sentence_step_held, nonws_app, <- app_assoc. reflexivity.
Qed.

Lemma append_if_nonblank_shape (lines : list str) (cur : str) :
  Forall (fun l => l <> [] /\ ~ In 10%N l) lines -> ~ In 10%N cur ->
  Forall (fun l => l <> [] /\ ~ In 10%N l) (append_if_nonblank lines cur).
Proof.
  intros F H. unfold append_if_nonblank.
  destruct (truthy (strip cur)) eqn:T; [|exact F].
  apply Forall_app. split; [exact F|]. constructor; [|constructor]. split.
  - intros E. rewrite E in T. discriminate T.
  - intros Hin. apply H. now apply strip_In.
Qed.

Lemma word_step_shape (st : wrap_state) (word : char) :
  Forall (fun l => l <> [] /\ ~ In 10%N l) (fst st) -> ~ In 10%N (snd st) ->
  word <> 10%N ->
  Forall (fun l => l <> [] /\ ~ In 10%N l)
    (fst (word_step width max_width st word))
  /\ ~ In 10%N (snd (word_step width max_width st word)).
Proof.
  destruct st as [lines cur]. cbn [fst snd]. intros F H W. unfold word_step.
  destruct (width (cur ++ [word]) <=? max_width); cbn [fst snd].
  - split; [exact F|]. intros Hin. apply in_app_or in Hin as [Hin|[E|[]]];
      [tauto|congruence].
  - split; [|intros [E|[]]; congruence].
    destruct cur as [|c cur]; cbn [truthy]; [exact F|].
    apply Forall_app. split; [exact F|]. constructor; [|constructor].
    split; [discriminate|exact H].
Qed.

Lemma word_loop_shape (sentence : str) :
  forall st,
    Forall (fun l => l <> [] /\ ~ In 10%N l) (fst st) -> ~ In 10%N (snd st) ->
    ~ In 10%N sentence ->
    Forall (fun l => l <> [] /\ ~ In 10%N l)
      (fst (fold_left (word_step width max_width) sentence st))
    /\ ~ In 10%N (snd (fold_left (word_step width max_width) sentence st)).
Proof.
  induction sentence as [|c t IH]; intros st F H S; cbn [fold_left];
    [split; assumption|].
  destruct (@word_step_shape st c F H) as [F1 H1];
    [intros E; apply S; now left|].
  apply IH; [exact F1|exact H1|]. intros Hin. apply S. now right.
Qed.

Lemma sentence_step_shape (st : wrap_state) (sentence : str) :
  Forall (fun l => l <> [] /\ ~ In 10%N l) (fst st) -> ~ In 10%N (snd st) ->
  ~ In 10%N sentence ->
  Forall (fun l => l <> [] /\ ~ In 10%N l)
    (fst (sentence_step width max_width st sentence))
  /\ ~ In 10%N (snd (sentence_step width max_width st sentence)).
Proof.
  destruct st as [lines cur]. cbn [fst snd]. intros F H S.
  assert (S' : ~ In 10%N (strip sentence))
    by (intros Hin; apply S; now apply strip_In).
  unfold sentence_step.
  destruct (truthy (strip sentence)); cbn [negb]; [|split; assumption].
  cbv zeta. destruct (width (cur ++ strip sentence) <=? max_width).
  - cbn [fst snd]. split; [exact F|].
    intros Hin. apply in_app_or in Hin. tauto.
  - pose proof (@append_if_nonblank_shape lines cur F H) as F1.
    destruct (len (strip sentence) >? 20).
    + apply word_loop_shape; cbn [fst snd]; auto.
    + cbn [fst snd]. split; assumption.
Qed.

Lemma sentence_loop_shape (sentences : list str) :
  forall st,
    Forall (fun l => l <> [] /\ ~ In 10%N l) (fst st) -> ~ In 10%N (snd st) ->
    Forall (fun s => ~ In 10%N s) sentences ->
    Forall (fun l => l <> [] /\ ~ In 10%N l)
      (fst (fold_left (sentence_step width max_width) sentences st))
    /\ ~ In 10%N (snd (fold_left (sentence_step width max_width) sentences st)).
Proof.
  induction sentences as [|s rest IH]; intros st F H S; cbn [fold_left];
    [split; assumption|].
  inversion S as [|? ? Hs Hrest]; subst.
  destruct (@sentence_step_shape st s F H Hs) as [F1 H1].
  now apply IH.
Qed.

(** X18: whatever the font metrics and the width of the canvas, wrapping
    loses no text: the lines hold every non-whitespace character of the
    text once and in order.  No line is empty and no line holds a line
    break. *)
Theorem wrap_text_keeps_every_character (text : str) :
  nonws (List.concat (_wrap_text width max_width text)) = nonws text
  /\ Forall (fun line => line <> [] /\ ~ In 10%N line)
       (_wrap_text width max_width text).
Proof.
  unfold _wrap_text.
  assert (N : Forall (fun s => ~ In 10%N s) (sentences_of text)).
  { unfold sentences_of, split. apply split_go_newline_free. intros []. }
  match goal with
  | |- context [fold_left ?f ?l ?i] =>
    pose proof (sentence_loop_held l i) as K;
      destruct (@sentence_loop_shape l i (Forall_nil _)
                  (fun H : In 10%N [] => H) N) as [F H];
      destruct (fold_left f l i) as [lines cur]
  end.
  split.
  - rewrite held_append_if_nonblank. unfold held in K. cbn [fst snd] in K.
    rewrite K. apply nonws_sentences_of.
  - apply append_if_nonblank_shape; [exact F|exact H].
Qed.

End WrapProperties.

(* ===================================================================== *)
(** * ContentAnalyzer *)
(* ===================================================================== *)

Section AnalyzerProperties.

Import ContentAnalyzer.
Local Open Scope Z_scope.

(** ** Key objects *)

Lemma mem_str_In (x : str) (xs : list str) : mem_str x xs = true <-> In x xs.
Proof.
  unfold mem_str. rewrite existsb_exists. split.
  - intros (y & Hy & E). apply str_eqb_eq in E. now subst.
  - intros H. exists x. split; [exact H|apply str_eqb_refl].
Qed.

Lemma collect_fold (text : str) (keywords : list str) :
  forall acc,
    NoDup acc ->
    let r := fold_left
      (fun key_objects keyword =>
         if contains keyword text && negb (mem_str keyword key_objects)
         then key_objects ++ [keyword] else key_objects) keywords acc in
    NoDup r
    /\ forall k, In k r <-> In k acc \/ (In k keywords /\ contains k text = true).
Proof.
  induction keywords as [|kw rest IH]; intros acc N; cbv zeta; cbn [fold_left].
  - split; [exact N|]. intros k. split; [tauto|]. intros [H|[[] _]]. exact H.
  - destruct (contains kw text) eqn:C; cbn [andb].
    + destruct (mem_str kw acc) eqn:M; cbn [negb].
      * apply mem_str_In in M.
        destruct (IH acc N) as [N1 I1]. split; [exact N1|].
        intros k. rewrite I1. cbn [In]. split; [tauto|].
        intros [H|[[E|H] Hc]]; [tauto|subst; tauto|tauto].
      * assert (Hn : ~ In kw acc).
        { intros H. apply mem_str_In in H. congruence. }
        assert (N' : NoDup (acc ++ [kw])).
        { apply NoDup_app; [exact N|repeat constructor; intros []|].
          intros x Hx [E|[]]. subst. contradiction. }
        destruct (IH (acc ++ [kw]) N') as [N1 I1]. split; [exact N1|].
        intros k. rewrite I1, in_app_iff. cbn [In]. split.
        -- intros [[H|[E|[]]]|[H Hc]]; [tauto|subst; tauto|tauto].
        -- intros [H|[[E|H] Hc]]; [tauto|subst; tauto|tauto].
    + destruct (IH acc N) as [N1 I1]. split; [exact N1|].
      intros k. rewrite I1. cbn [In]. split; [tauto|].
      intros [H|[[E|H] Hc]]; [tauto|subst; congruence|tauto].
Qed.

Lemma key_objects_spec (text : str) :
  NoDup (collect_key_objects text)
  /\ forall k,
       In k (collect_key_objects text)
       <-> In k (List.concat (map snd theme_keywords))
           /\ contains k text = true.
Proof.
  destruct (@collect_fold text (List.concat (map snd theme_keywords)) []
              (NoDup_nil _)) as [N I].
  split; [exact N|]. intros k. unfold collect_key_objects. rewrite I.
  cbn [In]. tauto.
Qed.

(** ** Main theme *)

Lemma theme_max_In (rest : list (str * Z)) :
  forall first, In (max_by_score first rest) (first :: rest).
Proof.
  unfold max_by_score.
  induction rest as [|x rest IH]; intros first; cbn [fold_left].
  - now left.
  - destruct (snd first <? snd x).
    + right. apply IH.
    + destruct (IH first) as [E|H]; [now left|right; now right].
Qed.

Lemma theme_max_greatest (rest : list (str * Z)) :
  forall first x,
    In x (first :: rest) -> snd x <= snd (max_by_score first rest).
Proof.
  unfold max_by_score.
  assert (M : forall (l : list (str * Z)) (best : str * Z),
             snd best <= snd (fold_left
                (fun best x => if snd best <? snd x then x else best) l best)).
  { induction l as [|y l IH]; intros best; cbn [fold_left]; [lia|].
    destruct (snd best <? snd y) eqn:E.
    - apply Z.ltb_lt in E. specialize (IH y). lia.
    - apply IH. }
  induction rest as [|y rest IH]; intros first x Hx; cbn [fold_left].
  - destruct Hx as [->|[]]. lia.
  - destruct (snd first <? snd y) eqn:E.
    + apply Z.ltb_lt in E. destruct Hx as [<-|Hx].
      * specialize (M rest y). lia.
      * apply IH. exact Hx.
    + apply Z.ltb_ge in E. destruct Hx as [<-|[<-|Hx]].
      * apply IH. now left.
      * specialize (M rest first). lia.
      * apply IH. now right.
Qed.

Lemma score_positive (keywords : list str) (text : str) :
  score keywords text > 0 <-> any_in keywords text = true.
Proof.
  unfold score, any_in, len.
  induction keywords as [|k ks IH]; cbn [filter existsb].
  - simpl. split; [lia|discriminate].
  - destruct (contains k text); cbn [orb List.length].
    + split; [reflexivity|lia].
    + exact IH.
Qed.

Lemma theme_names_nonempty :
  Forall (fun '(theme, _) => theme <> []) theme_keywords.
Proof.
  assert (F : forallb (fun '(theme, _) => truthy theme) theme_keywords = true)
    by (vm_compute; reflexivity).
  rewrite forallb_forall in F. apply Forall_forall. intros [theme kws] H.
  specialize (F _ H). cbv beta iota in F. intros ->. discriminate F.
Qed.

Lemma In_theme_scores (text : str) (theme : str) (s : Z) :
  In (theme, s) (theme_scores text)
  <-> exists keywords,
        In (theme, keywords) theme_keywords
        /\ s = score keywords text /\ s > 0.
Proof.
  unfold theme_scores. rewrite filter_In, in_map_iff. split.
  - intros [([t kws] & E & Hin) P]. injection E as -> <-.
    exists kws. rewrite Z.gtb_ltb in P. apply Z.ltb_lt in P.
    repeat split; [exact Hin|lia].
  - intros (kws & Hin & -> & P). split.
    + exists (theme, kws). split; [reflexivity|exact Hin].
    + rewrite Z.gtb_ltb. apply Z.ltb_lt. lia.
Qed.

Lemma concat_keywords_In (k : str) :
  In k (List.concat (map snd theme_keywords))
  <-> exists theme keywords, In (theme, keywords) theme_keywords /\ In k keywords.
Proof.
  rewrite in_concat. split.
  - intros (kws & H & Hk). apply in_map_iff in H as ([t kws'] & E & Hin).
    cbn [snd] in E. subst kws'. eauto.
  - intros (t & kws & Hin & Hk). exists kws. split; [|exact Hk].
    apply in_map_iff. exists (t, kws). split; [reflexivity|exact Hin].
Qed.

(** X19: the key objects of a text are exactly the theme keywords that
    occur in it, each listed once; the main theme is one of the eight theme
    names, that of a theme with the greatest number of occurring keywords,
    and it is empty exactly when there is no key object. *)
Theorem key_objects_and_main_theme (text : str) :
  let a := _analyze_text_content text in
  NoDup (key_objects a)
  /\ (forall k,
        In k (key_objects a)
        <-> In k (List.concat (map snd theme_keywords))
            /\ contains k text = true)
  /\ (main_theme a = [] <-> key_objects a = [])
  /\ (main_theme a <> [] ->
      exists keywords,
        In (main_theme a, keywords) theme_keywords
        /\ score keywords text > 0
        /\ Forall (fun '(_, others) => score others text <= score keywords text)
             theme_keywords).
Proof.
  cbv zeta. unfold _analyze_text_content. cbn [key_objects main_theme].
  destruct (key_objects_spec text) as [N I].
  split; [exact N|]. split; [exact I|].
  destruct (theme_scores text) as [|first rest] eqn:T.
  - split.
    + split; [intros _|reflexivity].
      destruct (collect_key_objects text) as [|k ks] eqn:K; [reflexivity|].
      exfalso. assert (Hk : In k (k :: ks)) by now left.
      apply I in Hk as [Hk Hc]. apply concat_keywords_In in Hk
        as (theme & kws & Hin & Hk).
      assert (P : score kws text > 0).
      { apply score_positive. unfold any_in. apply existsb_exists. eauto. }
      assert (H : In (theme, score kws text) (theme_scores text)).
      { apply In_theme_scores. eauto. }
      rewrite T in H. destruct H.
    + intros H. congruence.
  - pose proof (theme_max_In rest first) as Hin.
    pose proof (fun x => @theme_max_greatest rest first x) as Hmax.
    destruct (max_by_score first rest) as [theme s] eqn:M. cbn [fst snd] in *.
    rewrite <- T in Hin. apply In_theme_scores in Hin
      as (kws & Hkws & -> & P).
    assert (Hne : theme <> []).
    { pose proof theme_names_nonempty as TN. rewrite Forall_forall in TN.
      exact (TN _ Hkws). }
    split.
    + split; [intros E; contradiction|]. intros K. exfalso.
      apply score_positive in P. unfold any_in in P.
      apply existsb_exists in P as (k & Hk & Hc).
      assert (H : In k (collect_key_objects text)).
      { apply I. split; [|exact Hc]. apply concat_keywords_In. eauto. }
      rewrite K in H. destruct H.
    + intros _. exists kws. split; [exact Hkws|]. split; [exact P|].
      apply Forall_forall. intros [t others] Hother.
      destruct (Z_lt_le_dec 0 (score others text)) as [Q|Q]; [|lia].
      apply (Hmax (t, score others text)). rewrite <- T.
      apply In_theme_scores. exists others. repeat split; [exact Hother|lia].
Qed.

End AnalyzerProperties.

Section AnalyzerDetails.

Import ContentAnalyzer.
Local Open Scope Z_scope.

(** ** Specific details *)

Lemma In_join_substring (sep : str) (l : list str) (p : str) :
  In p l -> substring p (join sep l).
Proof.
  induction l as [|x l IH]; intros H; [destruct H|].
  destruct l as [|y l].
  - destruct H as [->|[]]. apply substring_refl.
  - rewrite join_cons by discriminate. destruct H as [->|H].
    + apply substring_app_l.
    + eapply substring_trans; [apply IH; exact H|].
      eapply substring_trans; [apply substring_app_r|apply substring_app_r].
Qed.

Lemma split_pieces_substring (text sep p : str) :
  sep <> [] -> In p (split text sep) -> substring p text.
Proof.
  intros Hs H. pose proof (@In_join_substring sep _ _ H) as J.
  now rewrite (join_split text Hs) in J.
Qed.

Lemma split_go_char_free (c0 : char) (s : str) :
  forall cur,
    ~ In c0 cur ->
    Forall (fun p => ~ In c0 p) (split_go [c0] s 0 cur).
Proof.
  induction s as [|c t IH]; intros cur H.
  - cbn [split_go]. constructor; [|constructor].
    intros Hin. apply H. now apply in_rev.
  - cbn [split_go]. change (List.length [c0] - 1)%nat with 0%nat.
    destruct (prefix [c0] (c :: t)) eqn:P.
    + constructor; [|apply IH; tauto].
      intros Hin. apply H. now apply in_rev.
    + apply IH. intros [E|Hin]; [|tauto].
      subst c. cbn [prefix] in P. rewrite N.eqb_refl in P.
      destruct t; discriminate P.
Qed.

Lemma substring_firstn (s : str) (n : nat) : substring (firstn n s) s.
Proof.
  exists [], (skipn n s). cbn [app]. now rewrite firstn_skipn.
Qed.

(** X20: the specific details of a text are at most three, each between 11
    and 30 characters long; each is a contiguous piece of the text, taken
    from one of its first three sentences, and holds no full stop. *)
Theorem specific_details_are_short_pieces (text : str) :
  len (specific_details (_analyze_text_content text)) <= 3
  /\ Forall (fun detail =>
               11 <= len detail <= 30
               /\ substring detail text
               /\ ~ In 0x3002%N detail)
       (specific_details (_analyze_text_content text)).
Proof.
  unfold _analyze_text_content. cbn [specific_details]. split.
  - unfold len. rewrite length_map.
    match goal with
    | |- context [filter ?f ?l] => pose proof (filter_length f l) as F
    end.
    pose proof (firstn_le_length 3 (split text (py "。"))) as L. lia.
  - apply Forall_forall. intros d Hd.
    apply in_map_iff in Hd as (s & <- & Hs).
    apply filter_In in Hs as [Hs Hl].
    apply In_firstn in Hs.
    rewrite Z.gtb_ltb in Hl. apply Z.ltb_lt in Hl.
    split; [|split].
    + unfold len in *. rewrite length_firstn. lia.
    + eapply substring_trans; [apply substring_firstn|].
      eapply substring_trans; [apply strip_substring|].
      apply (@split_pieces_substring text (py "。") s); [discriminate|exact Hs].
    + intros Hin. apply In_firstn, strip_In in Hin.
      pose proof (@split_go_char_free 0x3002%N text [] (fun H => H)) as F.
      rewrite Forall_forall in F. exact (F s Hs Hin).
Qed.

End AnalyzerDetails.

(* ===================================================================== *)
(** * The JSON part of the language model's answer *)
(* ===================================================================== *)

Section JsonAnswerProperties.

Import JsonAnswer.
Local Open Scope Z_scope.

(** The backtick. *)
Local Abbreviation tick := 96%N.

Lemma prefix_tick_false (sub' : str) (c : char) (t : str) :
  c <> tick -> prefix (tick :: sub') (c :: t) = false.
Proof.
  intros H. cbn [prefix]. apply andb_false_iff. left.
  apply N.eqb_neq. congruence.
Qed.

Lemma find_from_after (sub' : str) (a rest : str) :
  ~ In tick a ->
  forall i,
    find_from (tick :: sub') (a ++ (tick :: sub') ++ rest) i = i + len a.
Proof.
  intros H. induction a as [|c a IH]; intros i.
  - cbn [app]. change (tick :: sub' ++ rest) with ((tick :: sub') ++ rest).
    destruct ((tick :: sub') ++ rest) as [|x y] eqn:E; [discriminate E|].
    cbn [find_from]. rewrite <- E, prefix_app_refl. unfold len. simpl. lia.
  - cbn [app find_from]. rewrite prefix_tick_false by (intros ->; apply H; now left).
    rewrite IH by (intros Hin; apply H; now right).
    unfold len. cbn [List.length]. lia.
Qed.

Lemma find_from_absent (sub' : str) (s : str) :
  ~ In tick s -> forall i, find_from (tick :: sub') s i = -1.
Proof.
  intros H. induction s as [|c s IH]; intros i; [reflexivity|].
  cbn [find_from]. rewrite prefix_tick_false by (intros ->; apply H; now left).
  apply IH. intros Hin. apply H. now right.
Qed.

Lemma skipn_past (a fence rest : str) :
  skipn (List.length a + List.length fence) (a ++ fence ++ rest) = rest.
Proof.
  rewrite app_assoc, <- length_app. rewrite skipn_app, skipn_all.
  now rewrite Nat.sub_diag.
Qed.

Lemma json_start_after (a rest : str) :
  ~ In tick a ->
  contains (py "```json") (a ++ py "```json" ++ rest) = true
  /\ Z.to_nat (find (a ++ py "```json" ++ rest) (py "```json") + 7)
     = (List.length a + List.length (py "```json"))%nat.
Proof.
  intros H. split.
  - apply contains_substring. now exists a, rest.
  - unfold find. change (py "```json") with (tick :: py "``json").
    rewrite find_from_after by exact H. unfold len. simpl List.length. lia.
Qed.

(** X21: a fenced answer is unwrapped.  When the answer of the model is
    some text, the fence [```json], a body, the closing fence [```] and any
    trailer, with no backtick in the leading text or in the body, the text
    handed to the JSON parser is the body, trimmed. *)
Theorem fenced_answer_is_unwrapped (a body trailer : str) :
  ~ In tick a -> ~ In tick body ->
  json_content (a ++ py "```json" ++ body ++ py "```" ++ trailer) = strip body.
Proof.
  intros Ha Hb. unfold json_content.
  destruct (@json_start_after a (body ++ py "```" ++ trailer) Ha) as [C S].
  rewrite C. cbv zeta. rewrite S. unfold find_at.
  rewrite skipn_past. change (py "```") with (tick :: py "``").
  rewrite find_from_after by exact Hb.
  unfold slice_to.
  replace (Z.of_nat (List.length a + List.length (py "```json")) + len body <? 0)
    with false by (symmetry; apply Z.ltb_ge; unfold len; lia).
  unfold slice. rewrite skipn_past. f_equal.
  replace (Z.to_nat (Z.of_nat (List.length a + List.length (py "```json"))
                     + len body)
           - (List.length a + List.length (py "```json")))%nat
    with (List.length body) by (unfold len; lia).
  rewrite firstn_app, firstn_all, Nat.sub_diag. cbn [firstn].
  now rewrite app_nil_r.
Qed.

(** X22: an answer whose fence is never closed loses its last character.
    With no closing fence, [find] answers -1, which the slice takes as the
    position before the last character: the text handed to the JSON parser
    is the body without its last character, trimmed. *)
Theorem unclosed_fence_loses_last_character (a body : str) :
  ~ In tick a -> ~ In tick body ->
  json_content (a ++ py "```json" ++ body) = strip (removelast body).
Proof.
  intros Ha Hb. unfold json_content.
  destruct (@json_start_after a body Ha) as [C S].
  rewrite C. cbv zeta. rewrite S. unfold find_at.
  rewrite skipn_past. change (py "```") with (tick :: py "``").
  rewrite find_from_absent by exact Hb.
  unfold slice_to. change (-1 <? 0) with true. cbv iota.
  unfold slice. rewrite skipn_past. f_equal.
  replace (Z.to_nat (Z.max 0 (len (a ++ py "```json" ++ body) + -1))
           - (List.length a + List.length (py "```json")))%nat
    with (List.length body - 1)%nat
    by (unfold len; rewrite !length_app; lia).
  rewrite removelast_firstn_len. f_equal. lia.
Qed.

End JsonAnswerProperties.

(** X21, at a fenced array. *)
Lemma fenced_answer_is_unwrapped_witness :
  JsonAnswer.json_content
    (py "Here you are: " ++ py "```json" ++ py " [1, 2] " ++ py "```"
     ++ py " bye")
  = strip (py " [1, 2] ").
Proof.
  apply fenced_answer_is_unwrapped; vm_compute; intuition discriminate.
Defined.

(** X22, at the same answer cut before the closing fence. *)
Lemma unclosed_fence_loses_last_character_witness :
  JsonAnswer.json_content (py "Here you are: " ++ py "```json" ++ py " [1, 2]")
  = strip (removelast (py " [1, 2]")).
Proof.
  apply unclosed_fence_loses_last_character; vm_compute; intuition discriminate.
Defined.
